(** * Application intake pipeline: a shallow embedding

    The Python sources [gmail_func.py], [llm_func.py] and [main.py] are
    embedded as Rocq functions in a small state / event / exception monad.

    - The mutable world (Google Sheets, the download directory, the count of
      calls made to the outside) is threaded explicitly.
    - Everything the program cannot decide by itself (the mailbox, the
      language model, faults of remote calls, the wall clock, the PDF
      parser) is an oracle of the environment record [Env], indexed by the
      number of the call, so that every sequence of answers is covered.
    - Python exceptions are values of [exn]; [try ... except] is
      [try_catch]; side effects made before a raise are kept. *)

From Stdlib Require Import ZArith String List Ascii Lia Bool.
From stdpp Require Import base option list strings gmap pretty.

Open Scope string_scope.
Open Scope list_scope.

(* ====================================================================== *)
(** ** Exceptions and results *)
(* ====================================================================== *)

(** The exception classes the sources raise or catch.  All of them are
    subclasses of Python's [Exception]. *)
Inductive exn_class :=
| FileNotFoundError
| SpreadsheetNotFound
| ValueError
| KeyError
| DecodeError
| RemoteError.

Record exn := Exn { exn_kind : exn_class; exn_msg : string }.

(** [str(e)] *)
Definition str_exn (e : exn) : string := exn_msg e.

Inductive result (A : Type) :=
| Ret (a : A)
| Raise (e : exn).
Arguments Ret {A} a.
Arguments Raise {A} e.

Definition is_ret {A} (r : result A) : bool :=
  match r with Ret _ => true | Raise _ => false end.

Definition exn_class_eqb (a b : exn_class) : bool :=
  match a, b with
  | FileNotFoundError, FileNotFoundError
  | SpreadsheetNotFound, SpreadsheetNotFound
  | ValueError, ValueError
  | KeyError, KeyError
  | DecodeError, DecodeError
  | RemoteError, RemoteError => true
  | _, _ => false
  end.

(* ====================================================================== *)
(** ** Data model *)
(* ====================================================================== *)

(** Values stored in the dictionaries and spreadsheet cells the code
    handles: strings and lists of strings. *)
Inductive value :=
| VStr (s : string)
| VList (l : list string).

(** A spreadsheet row, as passed to [ws.append_row]. *)
Abbreviation row := (list value).

Inductive confidence_t := high | medium | low.

Definition confidence_str (c : confidence_t) : string :=
  match c with high => "high" | medium => "medium" | low => "low" end.

Definition confidence_eqb (a b : confidence_t) : bool :=
  match a, b with
  | high, high | medium, medium | low, low => true
  | _, _ => false
  end.

(** [class ResumeValidation(BaseModel)] *)
Record ResumeValidation := mkResumeValidation {
  is_resume : bool;
  confidence : confidence_t;
  document_type : string;
  reason : string
}.

Inductive status_t := New | Old.

Definition status_str (s : status_t) : string :=
  match s with New => "New" | Old => "Old" end.

(** [class Interns(BaseModel)] *)
Record Interns := mkInterns {
  name : string;
  email : string;
  phone : string;
  skills : list string;
  exp : string;
  status : status_t;
  summary : string;
  question : string
}.

(** [data.model_dump()]: the record as a dictionary. *)
Definition model_dump (d : Interns) : gmap string value :=
  <["name" := VStr (name d)]>
  (<["email" := VStr (email d)]>
  (<["phone" := VStr (phone d)]>
  (<["skills" := VList (skills d)]>
  (<["exp" := VStr (exp d)]>
  (<["status" := VStr (status_str (status d))]>
  (<["summary" := VStr (summary d)]>
  (<["question" := VStr (question d)]> ∅))))))).

(** One entry of the list built by [read_email]:
    [{"filename": ..., "attachment_id": ...}]. *)
Record Attachment := mkAttachment {
  filename : string;
  attachment_id : option string
}.

(** One dictionary of the list returned by [read_email]. *)
Record Email := mkEmail {
  id : string;
  sender : string;
  subject : string;
  body : string;
  attachments : list Attachment
}.

(** The Gmail API message resource, as far as the code reads it. *)
Record Part := mkPart {
  part_filename : option string;
  part_mimeType : string;
  part_body_data : option string;
  part_attachmentId : option string
}.

Record Payload := mkPayload {
  headers : list (string * string);
  payload_body_data : option string;
  parts : list Part
}.

(* ====================================================================== *)
(** ** The world and the environment *)
(* ====================================================================== *)

(** One permission granted by [sh.share]. *)
Record Share := mkShare {
  share_sheet : string;
  share_identity : string;
  share_perm_type : string;
  share_role : string
}.

(** The mutable state the program acts on. *)
Record World := mkWorld {
  sheets : gmap string (list row);     (* spreadsheets by title *)
  shares : list Share;                 (* permissions granted so far *)
  files : gmap string string;          (* files on disk, by path *)
  tick : nat                           (* calls made to the outside so far *)
}.

Definition set_sheets (f : gmap string (list row) → gmap string (list row))
    (w : World) : World :=
  mkWorld (f (sheets w)) (shares w) (files w) (tick w).

Definition add_share (s : Share) (w : World) : World :=
  mkWorld (sheets w) (shares w ++ [s]) (files w) (tick w).

Definition set_files (f : gmap string string → gmap string string)
    (w : World) : World :=
  mkWorld (sheets w) (shares w) (f (files w)) (tick w).

Definition bump (w : World) : World :=
  mkWorld (sheets w) (shares w) (files w) (S (tick w)).

Inductive schema := ResumeValidationSchema | InternsSchema.

(** The calls that leave the process. *)
Inductive call :=
| GmailSearch (query : string)
| GmailGet (msg_id : string)
| GmailAttachment (msg_id : string) (att_id : option string)
| MakeDirs (path : string)
| WriteFile (path : string)
| LlmInvoke (s : schema) (email_content document : string)
| SheetsOpen (title : string)
| SheetsCreate (title : string)
| SheetsShare (title identity : string)
| SheetsSheet1 (title : string)
| SheetsAppend (title : string) (r : row).

Inductive level := DEBUG | INFO | WARNING | ERROR | CRITICAL.

(** What an observer of the process sees: log lines and outgoing calls. *)
Inductive event :=
| Log (lvl : level) (msg : string)
| Call (c : call)
| Sleep (seconds : Z).

(** The collaborators.  The first argument of each oracle is the number
    of the call ([tick]), so answers may change from call to call. *)
Record Env := mkEnv {
  (* [Some msg]: the call with this number fails with this message *)
  api_fault : nat → option string;
  (* ids of the messages matching the query *)
  search_result : nat → string → list string;
  (* [payload] of the message with this id *)
  mailbox : nat → string → Payload;
  (* [att['data']] *)
  attachment_data : nat → string → option string → string;
  (* [base64.urlsafe_b64decode(..)], [None] when decoding raises *)
  b64decode : string → option string;
  (* [bytes.decode('utf-8')], [None] when decoding raises *)
  utf8_decode : string → option string;
  (* [os.path.join] of the platform *)
  path_join : string → string → string;
  (* [PyPDF2.PdfReader] on the bytes of a file: it raises, or gives the
     pages, each with the outcome of [page.extract_text()] *)
  pdf_reader : string → result (list (result string));
  (* structured output of the model for the classification prompt *)
  classifier : nat → string → string → ResumeValidation;
  (* structured output of the model for the extraction prompt *)
  extractor : nat → string → string → Interns;
  (* [datetime.now().strftime('%Y-%m-%d %H:%M:%S')] *)
  now : nat → string
}.

(* ====================================================================== *)
(** ** The monad *)
(* ====================================================================== *)

(** A computation maps a world to the new world, the events it emitted
    and either a value or a raised exception. *)
Definition M (A : Type) : Type := World → World * list event * result A.

Definition world_of {A} (o : World * list event * result A) : World :=
  fst (fst o).
Definition events_of {A} (o : World * list event * result A) : list event :=
  snd (fst o).
Definition result_of {A} (o : World * list event * result A) : result A :=
  snd o.

Definition ret {A} (a : A) : M A := fun w => (w, [], Ret a).

Definition raise {A} (e : exn) : M A := fun w => (w, [], Raise e).

Definition bind {A B} (m : M A) (k : A → M B) : M B := fun w =>
  match m w with
  | (w1, ev1, Ret a) =>
      match k a w1 with
      | (w2, ev2, r) => (w2, ev1 ++ ev2, r)
      end
  | (w1, ev1, Raise e) => (w1, ev1, Raise e)
  end.

(** [try: m  except Exception as e: h e] *)
Definition try_catch {A} (m : M A) (h : exn → M A) : M A := fun w =>
  match m w with
  | (w1, ev1, Ret a) => (w1, ev1, Ret a)
  | (w1, ev1, Raise e) =>
      match h e w1 with
      | (w2, ev2, r) => (w2, ev1 ++ ev2, r)
      end
  end.

Declare Scope py_scope.
Delimit Scope py_scope with py.
Notation "x <- c1 ;; c2" := (bind c1 (fun x => c2))
  (at level 100, c1 at next level, right associativity) : py_scope.
Notation "c1 ;; c2" := (bind c1 (fun _ => c2))
  (at level 100, right associativity) : py_scope.
Open Scope py_scope.

(** [logger.<lvl>(msg)] *)
Definition log (lvl : level) (msg : string) : M unit :=
  fun w => (w, [Log lvl msg], Ret tt).

(** [for x in l: f x]; an exception leaving the body leaves the loop. *)
Fixpoint for_each {A B} (f : A → M B) (l : list A) : M unit :=
  match l with
  | [] => ret tt
  | x :: xs => f x ;; for_each f xs
  end.

(** [", ".join(l)] and friends *)
Fixpoint join (sep : string) (l : list string) : string :=
  match l with
  | [] => EmptyString
  | [x] => x
  | x :: xs => x +:+ sep +:+ join sep xs
  end.

(* ====================================================================== *)
(** ** String helpers *)
(* ====================================================================== *)

(** [str.isspace] on the characters below 256. *)
Definition isspace (c : ascii) : bool :=
  let n := nat_of_ascii c in
  (((9 <=? n) && (n <=? 13)) || ((28 <=? n) && (n <=? 32))
   || (n =? 133) || (n =? 160))%nat.

Definition is_empty (s : string) : bool :=
  match s with EmptyString => true | String _ _ => false end.

(** [s.split()]: the maximal runs of characters that are not whitespace.
    [cur] is the run being read. *)
Fixpoint split_from (cur : string) (s : string) : list string :=
  match s with
  | EmptyString => if is_empty cur then [] else [cur]
  | String c s' =>
      if isspace c
      then (if is_empty cur then split_from EmptyString s'
            else cur :: split_from EmptyString s')
      else split_from (cur +:+ String c EmptyString) s'
  end.

Definition split (s : string) : list string := split_from EmptyString s.

(** The newline character, as a string *)
Definition LF : string := String (ascii_of_nat 10) EmptyString.

(** [s[:n]] *)
Definition take_str (n : nat) (s : string) : string := substring 0 n s.

(** [s.startswith(p)] *)
Definition startswith (p s : string) : bool := String.prefix p s.

(** [str(b)] for a [bool] *)
Definition str_bool (b : bool) : string := if b then "True" else "False".

(** Truthiness of an optional string ([None] and the empty string are falsy). *)
Definition truthy (o : option string) : bool :=
  match o with
  | Some s => negb (is_empty s)
  | None => false
  end.

(* ====================================================================== *)
(** ** Primitive calls to the outside *)
(* ====================================================================== *)

Section Pipeline.

Variable E : Env.

(** A call that leaves the process: it is counted, it is observable, and
    it raises when the environment says so.  It returns its own number,
    with which the caller reads the answer off the oracle. *)
Definition remote (c : call) : M nat := fun w =>
  match api_fault E (tick w) with
  | Some msg => (bump w, [Call c], Raise (Exn RemoteError msg))
  | None => (bump w, [Call c], Ret (tick w))
  end.

(** [datetime.now().strftime('%Y-%m-%d %H:%M:%S')] *)
Definition timestamp : M string := fun w =>
  (bump w, [], Ret (now E (tick w))).

Definition modify (f : World → World) : M unit := fun w => (f w, [], Ret tt).

Definition get_world : M World := fun w => (w, [], Ret w).

(** [base64.urlsafe_b64decode(d)] *)
Definition urlsafe_b64decode (d : string) : M string :=
  match b64decode E d with
  | Some b => ret b
  | None => raise (Exn DecodeError "Incorrect padding")
  end.

(** [b.decode('utf-8')] *)
Definition decode_utf8 (b : string) : M string :=
  match utf8_decode E b with
  | Some s => ret s
  | None => raise (Exn DecodeError "invalid utf-8")
  end.

(* ====================================================================== *)
(** ** gmail_func.py *)
(* ====================================================================== *)

(** [search_gmail()] (lines 29-60).  The toolkit lookup and the search
    are one remote call. *)
Definition search_gmail : M (list string) :=
  log INFO "Starting Gmail search for application emails with attachments";;
  try_catch
    (let query := "subject:application has:attachment" in
     n <- remote (GmailSearch query);;
     let msg_ids := search_result E n query in
     log INFO ("Found " +:+ pretty (length msg_ids)
               +:+ " emails matching criteria");;
     ret msg_ids)
    (fun e =>
       log ERROR ("Error during Gmail search: " +:+ str_exn e);;
       ret []).

(** [get_email_body(payload)] (lines 63-92) *)
Definition get_email_body (payload : Payload) : M string :=
  try_catch
    (if truthy (payload_body_data payload) then
       b <- urlsafe_b64decode (default EmptyString (payload_body_data payload));;
       decode_utf8 b
     else
       match List.find (fun part => String.eqb (part_mimeType part) "text/plain")
                       (parts payload) with
       | Some part =>
           match part_body_data part with
           | Some d => b <- urlsafe_b64decode d;; decode_utf8 b
           | None => raise (Exn KeyError "'data'")
           end
       | None => ret EmptyString
       end)
    (fun e =>
       log WARNING ("Error extracting email body: " +:+ str_exn e);;
       ret EmptyString).

(** [next((h['value'] for h in headers if h['name'] == key), dflt)] *)
Definition header_value (hs : list (string * string)) (key dflt : string)
    : string :=
  match List.find (fun h => String.eqb (fst h) key) hs with
  | Some h => snd h
  | None => dflt
  end.

(** The inner loop of [read_email] over [parts] (lines 136-142). *)
Fixpoint files_found (ps : list Part) : list Attachment :=
  match ps with
  | [] => []
  | part :: rest =>
      if truthy (part_filename part)
      then mkAttachment (default EmptyString (part_filename part))
                        (part_attachmentId part) :: files_found rest
      else files_found rest
  end.

(** The loop of [read_email] (lines 123-156); [content] is the list built
    so far. *)
Fixpoint read_loop (msg_ids : list string) (content : list Email)
    : M (list Email) :=
  match msg_ids with
  | [] => ret content
  | msg_id :: rest =>
      content' <-
        try_catch
          (n <- remote (GmailGet msg_id);;
           let payload := mailbox E n msg_id in
           let subject := header_value (headers payload) "Subject" "No Subject" in
           let sender := header_value (headers payload) "From" "Unknown" in
           body <- get_email_body payload;;
           let entry := mkEmail msg_id sender subject body
                                (files_found (parts payload)) in
           log DEBUG ("Read email " +:+ msg_id +:+ " from " +:+ sender
                      +:+ ": " +:+ subject);;
           ret (content ++ [entry]))
          (fun e =>
             log ERROR ("Error reading email " +:+ msg_id +:+ ": "
                        +:+ str_exn e);;
             ret content);;
      read_loop rest content'
  end.

(** [read_email(msg_ids)] (lines 95-159) *)
Definition read_email (msg_ids : list string) : M (list Email) :=
  log INFO ("Reading " +:+ pretty (length msg_ids) +:+ " emails");;
  content <- read_loop msg_ids [];;
  log INFO ("Successfully read " +:+ pretty (length content) +:+ " emails");;
  ret content.

(** [save_pdf(contents, save_path)] (lines 166-227) *)
Definition save_pdf (contents : list Email) (save_path : string)
    : M (string * string) :=
  remote (MakeDirs save_path);;
  log INFO ("Downloading PDFs to " +:+ save_path);;
  match contents with
  | [] =>
      log ERROR "No email contents provided for PDF download";;
      raise (Exn ValueError "No email contents to process")
  | content :: _ =>
      let msg_id := id content in
      let email := sender content in
      let body := body content in
      match attachments content with
      | [] =>
          log ERROR ("No attachments found in email " +:+ msg_id);;
          raise (Exn ValueError "No attachments in email")
      | attachment :: _ =>
          let file_name := filename attachment in
          let attachment_id := attachment_id attachment in
          log INFO ("Downloading " +:+ file_name +:+ " from " +:+ email);;
          try_catch
            (n <- remote (GmailAttachment msg_id attachment_id);;
             file_data <-
               urlsafe_b64decode (attachment_data E n msg_id attachment_id);;
             let path := path_join E save_path file_name in
             remote (WriteFile path);;
             modify (set_files (insert path file_data));;
             log INFO ("Successfully saved PDF to " +:+ path);;
             ret (path, body))
            (fun e =>
               log ERROR ("Failed to download attachment: " +:+ str_exn e);;
               raise e)
      end
  end.

(** The default of [save_path]. *)
Definition default_save_path : string := ".\downloads".

(** The loop over [reader.pages] (lines 255-256). *)
Fixpoint read_pages (pages : list (result string)) (full_txt : string)
    : M string :=
  match pages with
  | [] => ret full_txt
  | page :: rest =>
      match page with
      | Ret t => read_pages rest (full_txt +:+ t +:+ LF)
      | Raise e => raise e
      end
  end.

(** [PyPDF2.PdfReader(pdf_path)] *)
Definition PdfReader (pdf_path : string) : M (list (result string)) :=
  w <- get_world;;
  match files w !! pdf_path with
  | None => raise (Exn FileNotFoundError
                       ("[Errno 2] No such file or directory: " +:+ pdf_path))
  | Some bytes =>
      match pdf_reader E bytes with
      | Ret pages => ret pages
      | Raise e => raise e
      end
  end.

(** [extract_text_from_pdf(pdf_path)] (lines 230-269) *)
Definition extract_text_from_pdf (pdf_path : string) : M string :=
  log INFO ("Extracting text from PDF: " +:+ pdf_path);;
  try_catch
    (pages <- PdfReader pdf_path;;
     log DEBUG ("Processing " +:+ pretty (length pages) +:+ " pages");;
     full_txt <- read_pages pages EmptyString;;
     let clean_text := join " " (split full_txt) in
     log INFO ("Extracted " +:+ pretty (String.length clean_text)
               +:+ " characters from PDF");;
     ret clean_text)
    (fun e =>
       match exn_kind e with
       | FileNotFoundError =>
           log ERROR ("PDF file not found: " +:+ pdf_path);;
           ret ("Error: PDF file not found at " +:+ pdf_path)
       | _ =>
           log ERROR ("Error reading PDF: " +:+ str_exn e);;
           ret ("Error reading PDF: " +:+ str_exn e)
       end).

(* ====================================================================== *)
(** ** llm_func.py: classification and extraction *)
(* ====================================================================== *)

(** [validate_resume(pdf_text, email_body)] (lines 147-228).  Building the
    prompt and the chain (lines 168-201) has no effect; [chain.invoke] is
    the remote call. *)
Definition validate_resume (pdf_text email_body : string)
    : M ResumeValidation :=
  log INFO "Validating if document is a resume";;
  try_catch
    (let preview :=
       if (1000 <? String.length pdf_text)%nat
       then take_str 1000 pdf_text else pdf_text in
     let email_content := take_str 500 email_body in
     n <- remote (LlmInvoke ResumeValidationSchema email_content preview);;
     let result := classifier E n email_content preview in
     log INFO ("Validation result: is_resume=" +:+ str_bool (is_resume result)
               +:+ ", confidence=" +:+ confidence_str (confidence result)
               +:+ ", type=" +:+ document_type result);;
     log DEBUG ("Reason: " +:+ reason result);;
     ret result)
    (fun e =>
       log ERROR ("Resume validation failed: " +:+ str_exn e);;
       ret (mkResumeValidation false low "unknown"
              ("Validation error: " +:+ str_exn e))).

(** STEP 2 of [extract_llm] (lines 283-323) *)
Definition extract_candidate (email_body pdf_text : string)
    : M (option Interns) :=
  try_catch
    (n <- remote (LlmInvoke InternsSchema email_body pdf_text);;
     let result := extractor E n email_body pdf_text in
     log INFO ("Successfully extracted data for candidate: " +:+ name result);;
     log DEBUG ("Extracted skills: " +:+ join ", " (skills result));;
     ret (Some result))
    (fun e =>
       log ERROR ("LLM extraction failed: " +:+ str_exn e);;
       ret None).

(** [extract_llm(email_body, pdf_text, skip_validation)] (lines 235-323) *)
Definition extract_llm (email_body pdf_text : string) (skip_validation : bool)
    : M (option Interns) :=
  log INFO "Starting LLM extraction for candidate data";;
  if negb skip_validation then
    validation <- validate_resume pdf_text email_body;;
    if negb (is_resume validation) then
      log WARNING ("Document rejected - Not a resume. Type: "
                   +:+ document_type validation +:+ ", Reason: "
                   +:+ reason validation);;
      ret None
    else if confidence_eqb (confidence validation) low then
      log WARNING ("Document rejected - Low confidence validation. Type: "
                   +:+ document_type validation);;
      ret None
    else
      log INFO ("Resume validation passed with "
                +:+ confidence_str (confidence validation) +:+ " confidence");;
      extract_candidate email_body pdf_text
  else
    extract_candidate email_body pdf_text.

(* ====================================================================== *)
(** ** llm_func.py: Google Sheets *)
(* ====================================================================== *)

(** [client.open(title)]: the spreadsheet with this title, or
    [SpreadsheetNotFound]. *)
Definition client_open (title : string) : M string :=
  remote (SheetsOpen title);;
  w <- get_world;;
  match sheets w !! title with
  | Some _ => ret title
  | None => raise (Exn SpreadsheetNotFound title)
  end.

(** [client.create(title)]: a new, empty spreadsheet. *)
Definition client_create (title : string) : M string :=
  remote (SheetsCreate title);;
  modify (set_sheets (insert title []));;
  ret title.

(** [sh.share(identity, perm_type=.., role=..)] *)
Definition share (sh identity perm_type role : string) : M unit :=
  remote (SheetsShare sh identity);;
  modify (add_share (mkShare sh identity perm_type role)).

(** [sh.sheet1] *)
Definition sheet1 (sh : string) : M string :=
  remote (SheetsSheet1 sh);;
  ret sh.

(** [ws.append_row(r)] *)
Definition append_row (ws : string) (r : row) : M unit :=
  remote (SheetsAppend ws r);;
  modify (set_sheets (alter (fun rows => rows ++ [r]) ws)).

(** [repr] of a string (quotes inside are not escaped) and [str] of a
    list of strings, for the log lines that print rows. *)
Definition repr_str (s : string) : string := "'" +:+ s +:+ "'".

Definition str_list (l : list string) : string :=
  "[" +:+ join ", " (map repr_str l) +:+ "]".

(** [str(v)] *)
Definition str_value (v : value) : string :=
  match v with
  | VStr s => s
  | VList l => str_list l
  end.

Definition repr_value (v : value) : string :=
  match v with
  | VStr s => repr_str s
  | VList l => str_list l
  end.

Definition str_row (r : row) : string :=
  "[" +:+ join ", " (map repr_value r) +:+ "]".

(** [data.get(key, dflt)] *)
Definition dict_get (data : gmap string value) (key : string) (dflt : value)
    : value :=
  default dflt (data !! key).

(** The row built by [save_to_sheets] (lines 350-365). *)
Definition candidate_row (data : gmap string value) : row :=
  let name := dict_get data "name" (VStr EmptyString) in
  let email := dict_get data "email" (VStr EmptyString) in
  let phone := dict_get data "phone" (VStr EmptyString) in
  let skills := dict_get data "skills" (VList []) in
  let exp := dict_get data "exp" (VStr EmptyString) in
  let status := dict_get data "status" (VStr EmptyString) in
  let summary := dict_get data "summary" (VStr EmptyString) in
  let question := dict_get data "question" (VStr EmptyString) in
  let skills_str :=
    match skills with
    | VList l => join ", " l
    | _ => str_value skills
    end in
  [name; email; phone; VStr skills_str; exp; status; summary; question].

(** The header written by [save_to_sheets] (line 389). *)
Definition candidate_headers : row :=
  [VStr "Name"; VStr "Email"; VStr "Phone"; VStr "Skills"; VStr "Experience";
   VStr "Status"; VStr "Summary"; VStr "questions"].

(** The header written by [save_rejected_to_sheets] (line 427). *)
Definition rejected_headers : row :=
  [VStr "Timestamp"; VStr "Sender"; VStr "Document Type";
   VStr "Rejection Reason"].

(** The identity new sheets are shared with (lines 384 and 425). *)
Definition collaborator : string := "mdhananjay776@gmail.com".

(** [save_to_sheets(data, file_name)] (lines 330-396) *)
Definition save_to_sheets (data : gmap string value) (file_name : string)
    : M unit :=
  log INFO ("Saving candidate data to Google Sheet: " +:+ file_name);;
  let name := dict_get data "name" (VStr EmptyString) in
  let row := candidate_row data in
  log DEBUG ("Row to insert: " +:+ str_row row);;
  try_catch
    (sh <- client_open file_name;;
     log INFO ("Found existing sheet: '" +:+ file_name +:+ "'");;
     ws <- sheet1 sh;;
     append_row ws row;;
     log INFO ("Successfully added row for " +:+ str_value name))
    (fun e =>
       match exn_kind e with
       | SpreadsheetNotFound =>
           log WARNING ("Sheet not found. Creating new sheet: '"
                        +:+ file_name +:+ "'");;
           sh <- client_create file_name;;
           share sh collaborator "user" "writer";;
           ws <- sheet1 sh;;
           let headers := candidate_headers in
           append_row ws headers;;
           log INFO ("Created new sheet with headers: " +:+ str_row headers);;
           append_row ws row;;
           log INFO ("Successfully added first row for " +:+ str_value name)
       | _ => raise e
       end).

(** The default of [file_name] in [save_to_sheets]. *)
Definition default_candidates_file : string := "intern_can".

(** The default of [file_name] in [save_rejected_to_sheets]. *)
Definition rejected_file : string := "rejected_applications".

(** [save_rejected_to_sheets(email_sender, document_type, reason, file_name)]
    (lines 399-429) *)
Definition save_rejected_to_sheets
    (email_sender document_type reason file_name : string) : M unit :=
  log INFO ("Logging rejected application from " +:+ email_sender);;
  timestamp <- timestamp;;
  let row := [VStr timestamp; VStr email_sender; VStr document_type;
              VStr reason] in
  try_catch
    (sh <- client_open file_name;;
     ws <- sheet1 sh;;
     append_row ws row;;
     log INFO ("Logged rejection for " +:+ email_sender))
    (fun e =>
       match exn_kind e with
       | SpreadsheetNotFound =>
           log INFO "Creating rejected applications tracking sheet";;
           sh <- client_create file_name;;
           share sh collaborator "user" "writer";;
           ws <- sheet1 sh;;
           append_row ws rejected_headers;;
           append_row ws row;;
           log INFO "Created rejection tracking sheet"
       | _ => raise e
       end).

(* ====================================================================== *)
(** ** main.py: one pass over the mailbox *)
(* ====================================================================== *)

(** Where the body of the loop over the messages ends (lines 69-129).
    The Python code returns nothing; the value names the exit taken. *)
Inductive outcome :=
| NoAttachments       (* [continue], line 76 *)
| DownloadFailed      (* [continue], line 83 *)
| ExtractionFailed    (* [continue], line 90 *)
| Rejected            (* [continue], line 109 *)
| Saved               (* end of the [try] body, line 119 *)
| Failed.             (* [continue] of the handler, line 129 *)

(** The file [main] saves candidates to (line 115). *)
Definition candidates_file : string := "candidates".

(** Lines 103-107: what [main] passes to [save_rejected_to_sheets]. *)
Definition rejected_document_type : string := "non-resume".
Definition rejected_reason : string := "Failed resume validation check".

(** The body of the [try] of lines 70-122. *)
Definition process_email_try (email_data : Email) : M outcome :=
  log INFO ("Processing email from: " +:+ sender email_data);;
  match attachments email_data with
  | [] =>
      log WARNING ("No attachments in email from " +:+ sender email_data);;
      ret NoAttachments
  | _ :: _ =>
      saved <-
        try_catch
          (r <- save_pdf [email_data] default_save_path;; ret (Some r))
          (fun e =>
             log ERROR ("Failed to download PDF: " +:+ str_exn e);;
             ret None);;
      match saved with
      | None => ret DownloadFailed
      | Some (path, body) =>
          pdf_txt <- extract_text_from_pdf path;;
          if startswith "Error" pdf_txt then
            log ERROR ("PDF extraction failed: " +:+ pdf_txt);;
            ret ExtractionFailed
          else
            data <- extract_llm body pdf_txt false;;
            match data with
            | None =>
                log WARNING ("Application from " +:+ sender email_data
                             +:+ " rejected  not a valid resume");;
                save_rejected_to_sheets (sender email_data)
                  rejected_document_type rejected_reason rejected_file;;
                ret Rejected
            | Some data =>
                let dict_data := model_dump data in
                try_catch
                  (save_to_sheets dict_data candidates_file;;
                   log INFO ("Successfully processed application from "
                             +:+ name data +:+ " (" +:+ sender email_data
                             +:+ ")"))
                  (fun e =>
                     log ERROR ("Failed to save to Google Sheets: "
                                +:+ str_exn e);;
                     raise e);;
                ret Saved
            end
      end
  end.

(** One iteration of the loop of lines 69-129. *)
Definition process_email (email_data : Email) : M outcome :=
  try_catch
    (process_email_try email_data)
    (fun e =>
       log ERROR ("Error processing email from " +:+ sender email_data
                  +:+ ": " +:+ str_exn e);;
       ret Failed).

(** The body of [main], without its decorator (lines 52-131). *)
Definition main_body : M unit :=
  log INFO "Starting main agent workflow";;
  msg_ids <- search_gmail;;
  match msg_ids with
  | [] => log INFO "No new application emails found. Exiting."
  | _ :: _ =>
      content <- read_email msg_ids;;
      match content with
      | [] => log WARNING "Failed to read any emails. Exiting."
      | _ :: _ =>
          for_each process_email content;;
          log INFO "Completed processing all emails in this batch"
      end
  end.

End Pipeline.

(* ====================================================================== *)
(** ** llm_func.py: the scheduling decorator *)
(* ====================================================================== *)

(** [range(a, b)] *)
Definition range (a b : Z) : list Z := seqZ a (b - a).

Section Scheduler.

(** The decorator works for any function; [S] is the state that function
    acts on.  The wrapper touches it only through the clock and
    [time.sleep]; its own log is kept apart, as a list of events. *)
Context {S : Type}.
Variable clock : S → S * string.       (* [datetime.now().strftime(..)] *)
Variable time_sleep : Z → S → S.       (* [time.sleep(seconds)] *)
Variable func : S → S * result unit.   (* the decorated function *)

(** The loop [for attempt in range(1, 4)] (lines 122-132).  The boolean
    is the variable [success] after the loop. *)
Fixpoint attempts (rng : list Z) (s : S) (tr : list event)
    : S * list event * bool :=
  match rng with
  | [] => (s, tr, false)
  | attempt :: rest =>
      match func s with
      | (s1, Ret _) =>
          (s1, tr ++ [Log INFO "Agent task completed successfully"], true)
      | (s1, Raise e) =>
          let tr1 := tr ++ [Log ERROR ("Attempt " +:+ pretty attempt
                                       +:+ "/3 failed: " +:+ str_exn e)] in
          if (attempt <? 3)%Z
          then attempts rest (time_sleep 10 s1) (tr1 ++ [Sleep 10])
          else attempts rest s1 tr1
      end
  end.

(** One turn of the [while True] loop (lines 118-138). *)
Definition cycle (st : S * list event) : S * list event :=
  let '(s, tr) := st in
  let '(s0, timestamp) := clock s in
  let tr0 := tr ++ [Log INFO ("========== Agent Scan Started: "
                              +:+ timestamp +:+ " ==========")] in
  let '(s1, tr1, success) := attempts (range 1 4) s0 tr0 in
  let tr2 :=
    if negb success
    then tr1 ++ [Log ERROR "All 3 attempts failed. Skipping to next cycle."]
    else tr1 in
  (time_sleep 3600 s1,
   tr2 ++ [Log INFO "Agent going to sleep for 1 hour"; Sleep 3600]).

(** The wrapper never returns; [wrapper n] is its first [n] turns. *)
Fixpoint wrapper (n : nat) (st : S * list event) : S * list event :=
  match n with
  | O => st
  | Datatypes.S k => wrapper k (cycle st)
  end.

End Scheduler.

(** [agent_runner(func)] *)
Definition agent_runner {S} (clock : S → S * string) (time_sleep : Z → S → S)
    (func : S → S * result unit) : nat → S * list event → S * list event :=
  wrapper clock time_sleep func.

(** The decorated [main] of [main.py]: the state of the pass is the world
    together with the events emitted so far. *)
Definition main_func (E : Env) (s : World * list event)
    : (World * list event) * result unit :=
  match main_body E (fst s) with
  | (w, ev, r) => ((w, snd s ++ ev), r)
  end.

Definition main_clock (E : Env) (s : World * list event)
    : (World * list event) * string :=
  ((bump (fst s), snd s), now E (tick (fst s))).

Definition main (E : Env) : nat → (World * list event) * list event
                          → (World * list event) * list event :=
  agent_runner (main_clock E) (fun _ s => s) (main_func E).

(* ====================================================================== *)
(** ** Vocabulary of the specification *)
(* ====================================================================== *)

(** The acceptance policy: a resume, and not with low confidence. *)
Definition passes_policy (v : ResumeValidation) : bool :=
  is_resume v && negb (confidence_eqb (confidence v) low).

(** The calls among the events, in order. *)
Fixpoint calls_of (evs : list event) : list call :=
  match evs with
  | [] => []
  | Call c :: rest => c :: calls_of rest
  | _ :: rest => calls_of rest
  end.

(** Classes of calls. *)
Definition is_extractor_call (c : call) : bool :=
  match c with LlmInvoke InternsSchema _ _ => true | _ => false end.

Definition is_classifier_call (c : call) : bool :=
  match c with LlmInvoke ResumeValidationSchema _ _ => true | _ => false end.

Definition is_llm_call (c : call) : bool :=
  match c with LlmInvoke _ _ _ => true | _ => false end.

Definition is_mail_or_disk_call (c : call) : bool :=
  match c with
  | GmailSearch _ | GmailGet _ | GmailAttachment _ _
  | MakeDirs _ | WriteFile _ => true
  | _ => false
  end.

(** The calls that reach the spreadsheet with title [f]. *)
Definition is_sheet_call (f : string) (c : call) : bool :=
  match c with
  | SheetsOpen g | SheetsCreate g | SheetsShare g _ | SheetsSheet1 g
  | SheetsAppend g _ => String.eqb g f
  | _ => false
  end.

Definition no_call (c : call) : bool := false.

(** [invoked p evs]: some call of class [p] was made. *)
Definition invoked (p : call → bool) (evs : list event) : bool :=
  existsb p (calls_of evs).

(** An event that is not a call, or a call of class [allowed]. *)
Definition calls_within (allowed : call → bool) (ev : event) : bool :=
  match ev with
  | Call c => allowed c
  | _ => true
  end.

(** A computation all of whose calls are of class [allowed]. *)
Definition only_calls {A} (allowed : call → bool) (m : M A) : Prop :=
  ∀ w, forallb (calls_within allowed) (events_of (m w)) = true.

(** A computation that leaves the spreadsheets alone. *)
Definition keeps_sheets {A} (m : M A) : Prop :=
  ∀ w, sheets (world_of (m w)) = sheets w.

(** A computation that always returns a value. *)
Definition never_raises {A} (m : M A) : Prop :=
  ∀ w, is_ret (result_of (m w)) = true.

(** A sink after one record [r] was sunk: the rows it had, or the header
    if it had to be created, followed by [r]. *)
Definition one_record_added (hdr r : row)
    (before after : option (list row)) : Prop :=
  after = Some (default [hdr] before ++ [r]).

(** A sink that received no record: it is as before, or it was absent
    and is now created, empty or with its header only. *)
Definition no_record_added (hdr : row)
    (before after : option (list row)) : Prop :=
  after = before ∨
  (before = None ∧ (after = Some [] ∨ after = Some [hdr])).

(** What one message did to the two sinks of [main]. *)
Definition sank_candidate (w w' : World) : Prop :=
  (∃ r, one_record_added candidate_headers r
          (sheets w !! candidates_file) (sheets w' !! candidates_file)) ∧
  sheets w' !! rejected_file = sheets w !! rejected_file.

Definition sank_rejection (w w' : World) : Prop :=
  (∃ r, one_record_added rejected_headers r
          (sheets w !! rejected_file) (sheets w' !! rejected_file)) ∧
  sheets w' !! candidates_file = sheets w !! candidates_file.

Definition sank_nothing (w w' : World) : Prop :=
  no_record_added candidate_headers
    (sheets w !! candidates_file) (sheets w' !! candidates_file) ∧
  no_record_added rejected_headers
    (sheets w !! rejected_file) (sheets w' !! rejected_file).

(** The number of rows in the two sinks together. *)
Definition rows_in (w : World) (f : string) : nat :=
  length (default [] (sheets w !! f)).

Definition total_rows (w : World) : nat :=
  rows_in w candidates_file + rows_in w rejected_file.

(** The message went through all stages and reached a sink. *)
Definition completed (r : result outcome) : Prop :=
  r = Ret Saved ∨ r = Ret Rejected.

(** A stage of the message raised: the download, the reading of the
    document, or the write to a sink. *)
Definition stage_raised (r : result outcome) : Prop :=
  r = Ret DownloadFailed ∨ r = Ret ExtractionFailed ∨ r = Ret Failed.

(** *** Test doubles for the scheduler

    What a fake clock and a fake pipeline would record: every attempt of
    the wrapped function, with its success, and every wait. *)
Inductive observation :=
| Attempted (ok : bool)
| Waited (seconds : Z).

Section Spy.

Context {S : Type}.
Variable clock : S → S * string.
Variable time_sleep : Z → S → S.
Variable func : S → S * result unit.

Definition spy_clock (s : S * list observation)
    : (S * list observation) * string :=
  ((fst (clock (fst s)), snd s), snd (clock (fst s))).

Definition spy_sleep (seconds : Z) (s : S * list observation)
    : S * list observation :=
  (time_sleep seconds (fst s), snd s ++ [Waited seconds]).

Definition spy_func (s : S * list observation)
    : (S * list observation) * result unit :=
  ((fst (func (fst s)), snd s ++ [Attempted (is_ret (snd (func (fst s))))]),
   snd (func (fst s))).

End Spy.

(** The observations of one cycle in which the first [failures] attempts
    failed. *)
Definition cycle_pattern (failures : nat) : list observation :=
  match failures with
  | 0 => [Attempted true; Waited 3600]
  | 1 => [Attempted false; Waited 10; Attempted true; Waited 3600]
  | 2 => [Attempted false; Waited 10; Attempted false; Waited 10;
          Attempted true; Waited 3600]
  | _ => [Attempted false; Waited 10; Attempted false; Waited 10;
          Attempted false; Waited 3600]
  end.

(** The waits among the observations, and the number of attempts. *)
Fixpoint waits (obs : list observation) : list Z :=
  match obs with
  | [] => []
  | Waited d :: rest => d :: waits rest
  | Attempted _ :: rest => waits rest
  end.

Fixpoint attempts_made (obs : list observation) : nat :=
  match obs with
  | [] => 0
  | Attempted _ :: rest => Datatypes.S (attempts_made rest)
  | Waited _ :: rest => attempts_made rest
  end.

Definition success_line : event :=
  Log INFO "Agent task completed successfully".

Definition giving_up_line : event :=
  Log ERROR "All 3 attempts failed. Skipping to next cycle.".

Definition event_eqb (a b : event) : bool :=
  match a, b with
  | Log INFO x, Log INFO y | Log ERROR x, Log ERROR y => String.eqb x y
  | _, _ => false
  end.

(** The cycle was logged as successful: the success line, and no line
    giving up. *)
Definition reported_successful (tr : list event) : bool :=
  existsb (event_eqb success_line) tr
  && negb (existsb (event_eqb giving_up_line) tr).

(** *** Whitespace-normalised text *)

(** No character of [s] is whitespace. *)
Fixpoint no_space (s : string) : bool :=
  match s with
  | EmptyString => true
  | String c s' => negb (isspace c) && no_space s'
  end.

(** A word: not empty, no whitespace. *)
Definition is_word (s : string) : bool := negb (is_empty s) && no_space s.

(** [s] without its whitespace characters. *)
Fixpoint strip_ws (s : string) : string :=
  match s with
  | EmptyString => EmptyString
  | String c s' => if isspace c then strip_ws s' else String c (strip_ws s')
  end.

(** Every whitespace character of [s] is a space that follows a character
    which is not whitespace; [after_space] tells whether the character
    before [s] was a space (or [s] is the start of the text), and the text
    does not end with a space. *)
Fixpoint spaced_ok (after_space : bool) (s : string) : bool :=
  match s with
  | EmptyString => negb after_space
  | String c s' =>
      if isspace c
      then Ascii.eqb c " " && negb after_space && spaced_ok true s'
      else spaced_ok false s'
  end.

(** Runs of whitespace are collapsed to single spaces: the text is empty,
    or its only whitespace is single spaces between words. *)
Definition single_spaced (s : string) : bool :=
  is_empty s || spaced_ok true s.

(** The text of all pages, each followed by a newline; the first page
    that cannot be read raises. *)
Fixpoint pages_text (pages : list (result string)) : result string :=
  match pages with
  | [] => Ret EmptyString
  | Ret t :: rest =>
      match pages_text rest with
      | Ret r => Ret (t +:+ LF +:+ r)
      | Raise e => Raise e
      end
  | Raise e :: _ => Raise e
  end.

(** The tagged failure strings of [extract_text_from_pdf]. *)
Definition failure_marker (pdf_path : string) (e : exn) : string :=
  match exn_kind e with
  | FileNotFoundError => "Error: PDF file not found at " +:+ pdf_path
  | _ => "Error reading PDF: " +:+ str_exn e
  end.

(** What [PyPDF2] reads from the file at [pdf_path]: the text of all its
    pages, or the exception raised on the way. *)
Definition read_document (E : Env) (w : World) (pdf_path : string)
    : result string :=
  match files w !! pdf_path with
  | None => Raise (Exn FileNotFoundError
                       ("[Errno 2] No such file or directory: " +:+ pdf_path))
  | Some bytes =>
      match pdf_reader E bytes with
      | Ret pages => pages_text pages
      | Raise e => Raise e
      end
  end.

(* ====================================================================== *)
(** ** Concrete mailboxes, documents and collaborators *)
(* ====================================================================== *)

Module Demo.

Definition resume_text : string :=
  "Jane   Roe" +:+ LF +:+ "Skills: Python, SQL" +:+ LF
  +:+ "Experience: 2 years".

(** The text of a resume whose first word is "Error". *)
Definition error_resume_text : string :=
  "Error   handling specialist" +:+ LF +:+ "Skills: Erlang, Go".

Definition message (n : string) : Email :=
  mkEmail n (n +:+ "@example.com") "application"
          "Please find my resume attached."
          [mkAttachment (n +:+ ".pdf") (Some ("att-" +:+ n))].

Definition payload_of (msg_id : string) : Payload :=
  mkPayload
    [("From", msg_id +:+ "@example.com"); ("Subject", "application")]
    None
    [mkPart None "text/plain" (Some "Please find my resume attached.") None;
     mkPart (Some (msg_id +:+ ".pdf")) "application/pdf" None
            (Some ("att-" +:+ msg_id))].

Definition jane : Interns :=
  mkInterns "Jane Roe" "jane@example.com" "N/A" ["Python"; "SQL"] "2 years"
            New "Python developer. Two years of experience."
            "How deep is your SQL?".

Definition john : Interns :=
  mkInterns "John Doe" "john@example.com" "+91-999" ["Go"] "Fresher"
            New "Graduate. Knows Go." "Which projects did you ship?".

(** A collaborator set: the faults, the PDF parser and the classifier
    vary; three messages are in the mailbox. *)
Definition env (fault : nat → option string)
    (pdf : string → result (list (result string)))
    (cls : string → ResumeValidation) : Env :=
  mkEnv fault
        (fun _ _ => ["m1"; "m2"; "m3"])
        (fun _ msg_id => payload_of msg_id)
        (fun _ msg_id _ => "pdf:" +:+ msg_id)
        Some Some
        (fun a b => a +:+ "/" +:+ b)
        pdf
        (fun _ _ preview => cls preview)
        (fun _ _ _ => jane)
        (fun _ => "2024-01-15 10:00:00").

Definition no_fault : nat → option string := fun _ => None.

Definition good_pdf : string → result (list (result string)) :=
  fun _ => Ret [Ret resume_text].

Definition sure_resume : string → ResumeValidation :=
  fun _ => mkResumeValidation true high "resume" "Contact, skills, experience.".

Definition unsure_resume : string → ResumeValidation :=
  fun _ => mkResumeValidation true low "resume" "Might be a resume.".

Definition invoice : string → ResumeValidation :=
  fun _ => mkResumeValidation false high "invoice" "Lists amounts due.".

(** The empty world: no spreadsheet, no file, no call made. *)
Definition w0 : World := mkWorld ∅ [] ∅ 0.

(** Everything works, every document is a resume. *)
Definition E_ok : Env := env no_fault good_pdf sure_resume.

(** The classifier is not sure. *)
Definition E_low : Env := env no_fault good_pdf unsure_resume.

(** The classifier sees an invoice. *)
Definition E_invoice : Env := env no_fault good_pdf invoice.

(** The first call to the outside fails. *)
Definition first_call_fails : nat → option string :=
  fun n => match n with 0 => Some "503 Service Unavailable" | _ => None end.

Definition E_down : Env := env first_call_fails good_pdf sure_resume.

(** The attachment of message m2 is not a PDF. *)
Definition m2_unreadable : string → result (list (result string)) :=
  fun bytes =>
    if String.eqb bytes "pdf:m2"
    then Raise (Exn ValueError "EOF marker not found")
    else Ret [Ret resume_text].

Definition E_batch : Env := env no_fault m2_unreadable sure_resume.

(** The resume starts with the word "Error". *)
Definition E_error_word : Env :=
  env no_fault (fun _ => Ret [Ret error_resume_text]) sure_resume.

(** A pipeline that fails twice and then succeeds; its state counts the
    attempts made. *)
Definition flaky (n : nat) : nat * result unit :=
  (Datatypes.S n,
   if (n <? 2)%nat then Raise (Exn RemoteError "timeout") else Ret tt).

Definition fixed_clock (n : nat) : nat * string := (n, "2024-01-15 10:00:00").

Definition no_sleep (seconds : Z) (n : nat) : nat := n.

(** The headers as the specification words them. *)
Definition spec_candidate_headers : row :=
  [VStr "Name"; VStr "Email"; VStr "Phone"; VStr "Skills"; VStr "Experience";
   VStr "Status"; VStr "Summary"; VStr "Questions"].

Definition spec_rejected_headers : row :=
  [VStr "Timestamp"; VStr "Sender"; VStr "DocumentType";
   VStr "RejectionReason"].

End Demo.

(* ====================================================================== *)
(** ** More vocabulary *)
(* ====================================================================== *)

(** A spreadsheet that only grew: the rows it had are still there, in
    place, possibly followed by more. *)
Definition grows (before after : option (list row)) : Prop :=
  ∀ rows, before = Some rows → ∃ more, after = Some (rows ++ more).

(** The hourly sleeps among the observations of the scheduler. *)
Definition hourly_sleeps (obs : list observation) : nat :=
  length (filter (fun d => d = 3600%Z) (waits obs)).

(** The short waits between attempts. *)
Definition retry_waits (obs : list observation) : nat :=
  length (filter (fun d => d = 10%Z) (waits obs)).

(** [email_data] with only its first attachment. *)
Definition first_attachment_only (email_data : Email) : Email :=
  mkEmail (id email_data) (sender email_data) (subject email_data)
          (body email_data) (take 1 (attachments email_data)).

(** The attachments all have a name. *)
Definition named_attachments (email_data : Email) : Prop :=
  Forall (fun a => filename a ≠ EmptyString) (attachments email_data).

(** [" ".join(s.split())] *)
Definition normalise (s : string) : string := join " " (split s).

(** The text behind base64 data, when both decodings succeed. *)
Definition decoded (E : Env) (d : string) : option string :=
  match b64decode E d with
  | Some b => utf8_decode E b
  | None => None
  end.

(** The data [get_email_body] chooses to decode, if any: that of the
    payload itself, else that of the first text/plain part. *)
Definition body_source (payload : Payload) : option (option string) :=
  if truthy (payload_body_data payload)
  then Some (payload_body_data payload)
  else match List.find (fun p => String.eqb (part_mimeType p) "text/plain")
                       (parts payload) with
       | Some part => Some (part_body_data part)
       | None => None
       end.

(** More collaborators and worlds. *)
Module Cases.

(** Only the call with number [k] fails. *)
Definition fault_at (k : nat) : nat → option string :=
  fun n => if (n =? k)%nat then Some "timeout" else None.

(** Processing a message from the empty world, the fifth call is the one
    of the extraction model. *)
Definition E_extract_down : Env :=
  Demo.env (fault_at 4) Demo.good_pdf Demo.sure_resume.

(** The third call fails. *)
Definition E_third_down : Env :=
  Demo.env (fault_at 2) Demo.good_pdf Demo.sure_resume.

(** Every call fails. *)
Definition E_all_down : Env :=
  Demo.env (fun _ => Some "timeout") Demo.good_pdf Demo.sure_resume.

(** No document can be parsed. *)
Definition E_no_pdf : Env :=
  Demo.env Demo.no_fault
           (fun _ => Raise (Exn ValueError "EOF marker not found"))
           Demo.sure_resume.

(** A world in which both spreadsheets exist, with their headers. *)
Definition w_sheets : World :=
  mkWorld (<[candidates_file := [candidate_headers]]>
           (<[rejected_file := [rejected_headers]]> ∅)) [] ∅ 0.

(** A pipeline that always fails. *)
Definition broken (n : nat) : nat * result unit :=
  (Datatypes.S n, Raise (Exn RemoteError "timeout")).

End Cases.

(** A computation under which every spreadsheet only grows, and which
    changes the two sinks of [main] only. *)
Definition sink_safe {A} (m : M A) : Prop :=
  ∀ w g,
    grows (sheets w !! g) (sheets (world_of (m w)) !! g) ∧
    (g ≠ candidates_file → g ≠ rejected_file →
     sheets (world_of (m w)) !! g = sheets w !! g).

(* ====================================================================== *)
(** ** The stages of one message *)
(* ====================================================================== *)

(** The write to a sink that [main] makes for the outcome [data] of
    [extract_llm] (lines 95-122 of main.py). *)
Definition sink_call (E : Env) (m : Email) (data : option Interns)
    (w : World) : World * list event * result unit :=
  match data with
  | None => save_rejected_to_sheets E (sender m) rejected_document_type
              rejected_reason rejected_file w
  | Some d => save_to_sheets E (model_dump d) candidates_file w
  end.

(** No stage of the message raises: the attachment is downloaded, the
    document is read, and the write to the sink returns.  ([extract_llm]
    never raises; its outcome is only named.) *)
Definition no_stage_raises (E : Env) (m : Email) (w : World) : Prop :=
  ∃ wa eva path body full wc evc data,
    save_pdf E [m] default_save_path w = (wa, eva, Ret (path, body)) ∧
    read_document E wa path = Ret full ∧
    extract_llm E body (normalise full) false wa = (wc, evc, Ret data) ∧
    is_ret (result_of (sink_call E m data wc)) = true.

(** The text read from the attachment of the message does not start with
    "Error". *)
Definition text_not_error (E : Env) (m : Email) (w : World) : Prop :=
  ∀ wa eva path body full,
    save_pdf E [m] default_save_path w = (wa, eva, Ret (path, body)) →
    read_document E wa path = Ret full →
    startswith "Error" (normalise full) = false.

(** A stage of the message raises: the download, the reading of the
    document, or the write to the sink. *)
Definition download_raises (E : Env) (m : Email) (w : World) : Prop :=
  ∃ wa eva e, save_pdf E [m] default_save_path w = (wa, eva, Raise e).

Definition extraction_raises (E : Env) (m : Email) (w : World) : Prop :=
  ∃ wa eva path body e,
    save_pdf E [m] default_save_path w = (wa, eva, Ret (path, body)) ∧
    read_document E wa path = Raise e.

Definition sink_write_raises (E : Env) (m : Email) (w : World) : Prop :=
  ∃ wa eva path body full wc evc data,
    save_pdf E [m] default_save_path w = (wa, eva, Ret (path, body)) ∧
    read_document E wa path = Ret full ∧
    startswith "Error" (normalise full) = false ∧
    extract_llm E body (normalise full) false wa = (wc, evc, Ret data) ∧
    is_ret (result_of (sink_call E m data wc)) = false.

Definition a_stage_raises (E : Env) (m : Email) (w : World) : Prop :=
  download_raises E m w ∨ extraction_raises E m w ∨ sink_write_raises E m w.

(* ====================================================================== *)
(** ** What [read_email] returns *)
(* ====================================================================== *)

(** The entry [read_email] builds from the answer to call number [n] for
    the message [msg_id] (lines 125-150 of gmail_func.py). *)
Definition entry_of (E : Env) (n : nat) (msg_id : string) : Email :=
  let payload := mailbox E n msg_id in
  mkEmail msg_id
          (header_value (headers payload) "From" "Unknown")
          (header_value (headers payload) "Subject" "No Subject")
          match body_source payload with
          | Some (Some d) => default EmptyString (decoded E d)
          | _ => EmptyString
          end
          (files_found (parts payload)).

(** The messages whose fetch does not fail, when the fetches are the
    calls number [t], [t + 1], ... in the order of [msg_ids]. *)
Fixpoint fetched (E : Env) (t : nat) (msg_ids : list string)
    : list (nat * string) :=
  match msg_ids with
  | [] => []
  | msg_id :: rest =>
      match api_fault E t with
      | Some _ => fetched E (Datatypes.S t) rest
      | None => (t, msg_id) :: fetched E (Datatypes.S t) rest
      end
  end.

(* ====================================================================== *)
(** ** A spreadsheet over time *)
(* ====================================================================== *)

(** The permissions granted on the spreadsheet [f]. *)
Definition shares_on (f : string) (w : World) : list Share :=
  filter (fun s => share_sheet s = f) (shares w).

(** [later E f w ds w']: from [w] the world became [w'] by calls of
    [save_to_sheets] on [f], with anything in between that leaves the
    spreadsheet [f] and its permissions alone; [ds] lists, in order, the
    data of the calls that returned, the calls that raised are left
    out. *)
Inductive later (E : Env) (f : string)
    : World → list (gmap string value) → World → Prop :=
| later_now w : later E f w [] w
| later_call w ds a data :
    later E f w ds a →
    later E f w
      (ds ++ if is_ret (result_of (save_to_sheets E data f a))
             then [data] else [])
      (world_of (save_to_sheets E data f a))
| later_other w ds a b :
    later E f w ds a →
    sheets b !! f = sheets a !! f →
    shares_on f b = shares_on f a →
    later E f w ds b.

Module Cases2.

(** The document of message m1 starts with the word "Error", the
    attachment of message m2 is not a PDF. *)
Definition m1_error_word_m2_unreadable
    : string → result (list (result string)) :=
  fun bytes =>
    if String.eqb bytes "pdf:m1" then Ret [Ret Demo.error_resume_text]
    else if String.eqb bytes "pdf:m2"
    then Raise (Exn ValueError "EOF marker not found")
    else Ret [Ret Demo.resume_text].

Definition E_error_then_unreadable : Env :=
  Demo.env Demo.no_fault m1_error_word_m2_unreadable Demo.sure_resume.

(** The document of message m2 is an invoice, and the classifier tells
    it from a resume. *)
Definition m2_invoice : string → result (list (result string)) :=
  fun bytes =>
    if String.eqb bytes "pdf:m2" then Ret [Ret "Invoice 42: amount due"]
    else Ret [Ret Demo.resume_text].

Definition by_text : string → ResumeValidation :=
  fun preview =>
    if startswith "Invoice" preview then Demo.invoice preview
    else Demo.sure_resume preview.

(** Processing the three messages from the empty world, call number 21
    is the one that appends the record of message m2 to the spreadsheet
    of rejections, which the same write has just created. *)
Definition E_record_write_down : Env :=
  Demo.env (Cases.fault_at 21) m2_invoice by_text.

End Cases2.

(* ====================================================================== *)
(** * Lemmas *)
(* ====================================================================== *)

(* ====================================================================== *)
(** ** Reasoning about computations *)
(* ====================================================================== *)

Section Laws.

Context {A B : Type}.

Lemma bind_ret_run (m : M A) (k : A → M B) w w1 ev1 a :
  m w = (w1, ev1, Ret a) →
  bind m k w = (world_of (k a w1), ev1 ++ events_of (k a w1),
                result_of (k a w1)).
Proof.
  intros Hm. unfold bind. rewrite Hm.
  destruct (k a w1) as [[w2 ev2] r]. reflexivity.
Qed.

Lemma bind_raise_run (m : M A) (k : A → M B) w w1 ev1 e :
  m w = (w1, ev1, Raise e) → bind m k w = (w1, ev1, Raise e).
Proof. intros Hm. unfold bind. rewrite Hm. reflexivity. Qed.

Lemma try_ret_run (m : M A) (h : exn → M A) w w1 ev1 a :
  m w = (w1, ev1, Ret a) → try_catch m h w = (w1, ev1, Ret a).
Proof. intros Hm. unfold try_catch. rewrite Hm. reflexivity. Qed.

Lemma try_raise_run (m : M A) (h : exn → M A) w w1 ev1 e :
  m w = (w1, ev1, Raise e) →
  try_catch m h w = (world_of (h e w1), ev1 ++ events_of (h e w1),
                     result_of (h e w1)).
Proof.
  intros Hm. unfold try_catch. rewrite Hm.
  destruct (h e w1) as [[w2 ev2] r]. reflexivity.
Qed.

End Laws.

Lemma outcome_eta {A} (o : World * list event * result A) :
  o = (world_of o, events_of o, result_of o).
Proof. destruct o as [[w ev] r]. reflexivity. Qed.

Create HintDb frame discriminated.

Lemma keeps_sheets_ret {A} (a : A) : keeps_sheets (ret a).
Proof. intros w. reflexivity. Qed.

Lemma keeps_sheets_raise {A} e : keeps_sheets (@raise A e).
Proof. intros w. reflexivity. Qed.

Lemma keeps_sheets_log lvl msg : keeps_sheets (log lvl msg).
Proof. intros w. reflexivity. Qed.

Lemma keeps_sheets_bind {A B} (m : M A) (k : A → M B) :
  keeps_sheets m → (∀ a, keeps_sheets (k a)) → keeps_sheets (bind m k).
Proof.
  intros Hm Hk w. unfold bind.
  specialize (Hm w). unfold world_of in *.
  destruct (m w) as [[w1 ev1] [a|e]]; simpl in *.
  - specialize (Hk a w1). unfold world_of in *.
    destruct (k a w1) as [[w2 ev2] r]. simpl in *. congruence.
  - exact Hm.
Qed.

Lemma keeps_sheets_try {A} (m : M A) (h : exn → M A) :
  keeps_sheets m → (∀ e, keeps_sheets (h e)) → keeps_sheets (try_catch m h).
Proof.
  intros Hm Hh w. unfold try_catch.
  specialize (Hm w). unfold world_of in *.
  destruct (m w) as [[w1 ev1] [a|e]]; simpl in *.
  - exact Hm.
  - specialize (Hh e w1). unfold world_of in *.
    destruct (h e w1) as [[w2 ev2] r]. simpl in *. congruence.
Qed.

Lemma never_raises_ret {A} (a : A) : never_raises (ret a).
Proof. intros w. reflexivity. Qed.

Lemma never_raises_log lvl msg : never_raises (log lvl msg).
Proof. intros w. reflexivity. Qed.

Lemma never_raises_bind {A B} (m : M A) (k : A → M B) :
  never_raises m → (∀ a, never_raises (k a)) → never_raises (bind m k).
Proof.
  intros Hm Hk w. unfold bind.
  specialize (Hm w). destruct (m w) as [[w1 ev1] [a|e]]; simpl in *.
  - specialize (Hk a w1). destruct (k a w1) as [[w2 ev2] r]. exact Hk.
  - discriminate.
Qed.

(** A handler that never raises makes the whole [try] safe. *)
Lemma never_raises_try {A} (m : M A) (h : exn → M A) :
  (∀ e, never_raises (h e)) → never_raises (try_catch m h).
Proof.
  intros Hh w. unfold try_catch.
  destruct (m w) as [[w1 ev1] [a|e]]; simpl.
  - reflexivity.
  - specialize (Hh e w1). destruct (h e w1) as [[w2 ev2] r]. exact Hh.
Qed.

Lemma never_raises_run {A} (m : M A) w :
  never_raises m → ∃ w1 ev a, m w = (w1, ev, Ret a).
Proof.
  intros H. specialize (H w). destruct (m w) as [[w1 ev] [a|e]].
  - eauto.
  - discriminate.
Qed.

Lemma only_calls_ret {A} p (a : A) : only_calls p (ret a).
Proof. intros w. reflexivity. Qed.

Lemma only_calls_raise {A} p e : only_calls p (@raise A e).
Proof. intros w. reflexivity. Qed.

Lemma only_calls_log p lvl msg : only_calls p (log lvl msg).
Proof. intros w. reflexivity. Qed.

Lemma only_calls_bind {A B} p (m : M A) (k : A → M B) :
  only_calls p m → (∀ a, only_calls p (k a)) → only_calls p (bind m k).
Proof.
  intros Hm Hk w. unfold bind.
  specialize (Hm w). unfold events_of in *.
  destruct (m w) as [[w1 ev1] [a|e]]; simpl in *.
  - specialize (Hk a w1). unfold events_of in *.
    destruct (k a w1) as [[w2 ev2] r]. simpl in *.
    rewrite forallb_app, Hm, Hk. reflexivity.
  - exact Hm.
Qed.

Lemma only_calls_try {A} p (m : M A) (h : exn → M A) :
  only_calls p m → (∀ e, only_calls p (h e)) → only_calls p (try_catch m h).
Proof.
  intros Hm Hh w. unfold try_catch.
  specialize (Hm w). unfold events_of in *.
  destruct (m w) as [[w1 ev1] [a|e]]; simpl in *.
  - exact Hm.
  - specialize (Hh e w1). unfold events_of in *.
    destruct (h e w1) as [[w2 ev2] r]. simpl in *.
    rewrite forallb_app, Hm, Hh. reflexivity.
Qed.

Lemma only_calls_weaken {A} (p q : call → bool) (m : M A) :
  (∀ c, p c = true → q c = true) → only_calls p m → only_calls q m.
Proof.
  intros Hpq Hm w. specialize (Hm w).
  induction (events_of (m w)) as [|ev evs IH]; simpl in *; [reflexivity|].
  apply andb_prop in Hm as [Hev Hevs].
  rewrite (IH Hevs), andb_true_r.
  destruct ev; simpl in *; auto.
Qed.

(** When all calls are of class [p] and no call of class [p] is of class
    [q], no call of class [q] was made. *)
Lemma only_calls_not_invoked (p q : call → bool) (evs : list event) :
  (∀ c, p c = true → q c = false) →
  forallb (calls_within p) evs = true → invoked q evs = false.
Proof.
  intros Hpq. unfold invoked.
  induction evs as [|ev evs IH]; simpl; [reflexivity|].
  intros H. apply andb_prop in H as [Hev Hevs].
  destruct ev; simpl in *; auto.
  rewrite (Hpq _ Hev). simpl. auto.
Qed.

Lemma calls_of_app (a b : list event) :
  calls_of (a ++ b) = calls_of a ++ calls_of b.
Proof.
  induction a as [|ev a IH]; simpl; [reflexivity|].
  destruct ev; simpl; rewrite ?IH; reflexivity.
Qed.

Lemma invoked_app p (a b : list event) :
  invoked p (a ++ b) = invoked p a || invoked p b.
Proof. unfold invoked. rewrite calls_of_app. apply existsb_app. Qed.

#[local] Hint Resolve keeps_sheets_ret keeps_sheets_raise keeps_sheets_log
  keeps_sheets_bind keeps_sheets_try never_raises_ret never_raises_log
  never_raises_bind never_raises_try only_calls_ret only_calls_raise
  only_calls_log only_calls_bind only_calls_try : frame.

Section PipelineFacts.

Variable E : Env.

Lemma keeps_sheets_remote c : keeps_sheets (remote E c).
Proof. intros w. unfold remote. destruct (api_fault E (tick w)); reflexivity. Qed.

Lemma keeps_sheets_timestamp : keeps_sheets (timestamp E).
Proof. intros w. reflexivity. Qed.

Lemma keeps_sheets_get_world : keeps_sheets get_world.
Proof. intros w. reflexivity. Qed.

Lemma keeps_sheets_set_files f : keeps_sheets (modify (set_files f)).
Proof. intros w. reflexivity. Qed.

Lemma keeps_sheets_b64 d : keeps_sheets (urlsafe_b64decode E d).
Proof. unfold urlsafe_b64decode. destruct (b64decode E d); auto with frame. Qed.

Lemma keeps_sheets_utf8 d : keeps_sheets (decode_utf8 E d).
Proof. unfold decode_utf8. destruct (utf8_decode E d); auto with frame. Qed.

Lemma only_calls_remote p c : p c = true → only_calls p (remote E c).
Proof.
  intros Hc w. unfold remote.
  destruct (api_fault E (tick w)); simpl; rewrite Hc; reflexivity.
Qed.

Lemma only_calls_timestamp p : only_calls p (timestamp E).
Proof. intros w. reflexivity. Qed.

Lemma only_calls_get_world p : only_calls p get_world.
Proof. intros w. reflexivity. Qed.

Lemma only_calls_modify p f : only_calls p (modify f).
Proof. intros w. reflexivity. Qed.

Lemma only_calls_b64 p d : only_calls p (urlsafe_b64decode E d).
Proof. unfold urlsafe_b64decode. destruct (b64decode E d); auto with frame. Qed.

Lemma only_calls_utf8 p d : only_calls p (decode_utf8 E d).
Proof. unfold decode_utf8. destruct (utf8_decode E d); auto with frame. Qed.

#[local] Hint Resolve keeps_sheets_remote keeps_sheets_timestamp
  keeps_sheets_get_world keeps_sheets_set_files keeps_sheets_b64
  keeps_sheets_utf8 only_calls_timestamp only_calls_get_world
  only_calls_modify only_calls_b64 only_calls_utf8 : frame.

Ltac frame_step :=
  lazymatch goal with
  | |- keeps_sheets (bind _ _) => apply keeps_sheets_bind; [| intros ?]
  | |- keeps_sheets (try_catch _ _) => apply keeps_sheets_try; [| intros ?]
  | |- never_raises (bind _ _) => apply never_raises_bind; [| intros ?]
  | |- never_raises (try_catch _ _) => apply never_raises_try; intros ?
  | |- keeps_sheets (match ?x with _ => _ end) => destruct x
  | |- never_raises (match ?x with _ => _ end) => destruct x
  | |- only_calls _ (bind _ _) => apply only_calls_bind; [| intros ?]
  | |- only_calls _ (try_catch _ _) => apply only_calls_try; [| intros ?]
  | |- only_calls _ (remote _ _) =>
      apply only_calls_remote; simpl; rewrite ?String.eqb_refl; reflexivity
  | |- only_calls _ (match ?x with _ => _ end) => destruct x
  | |- keeps_sheets (let _ := _ in _) => lazy zeta
  | |- never_raises (let _ := _ in _) => lazy zeta
  | |- only_calls _ (let _ := _ in _) => lazy zeta
  | |- _ => solve [auto with frame]
  end.

Ltac frame := repeat frame_step.

Lemma keeps_sheets_search_gmail : keeps_sheets (search_gmail E).
Proof. unfold search_gmail. frame. Qed.

Lemma never_raises_search_gmail : never_raises (search_gmail E).
Proof. unfold search_gmail. frame. Qed.

Lemma keeps_sheets_get_email_body p : keeps_sheets (get_email_body E p).
Proof. unfold get_email_body. frame. Qed.

Lemma never_raises_get_email_body p : never_raises (get_email_body E p).
Proof. unfold get_email_body. frame. Qed.

#[local] Hint Resolve keeps_sheets_get_email_body never_raises_get_email_body : frame.

Lemma keeps_sheets_read_loop ids : ∀ content, keeps_sheets (read_loop E ids content).
Proof. induction ids as [|i ids IH]; intros content; simpl; frame. Qed.

Lemma never_raises_read_loop ids : ∀ content, never_raises (read_loop E ids content).
Proof. induction ids as [|i ids IH]; intros content; simpl; frame. Qed.

#[local] Hint Resolve keeps_sheets_read_loop never_raises_read_loop : frame.

Lemma keeps_sheets_read_email ids : keeps_sheets (read_email E ids).
Proof. unfold read_email. frame. Qed.

Lemma never_raises_read_email ids : never_raises (read_email E ids).
Proof. unfold read_email. frame. Qed.

Lemma keeps_sheets_save_pdf c p : keeps_sheets (save_pdf E c p).
Proof. unfold save_pdf. frame. Qed.

Lemma keeps_sheets_read_pages ps : ∀ acc, keeps_sheets (read_pages ps acc).
Proof. induction ps as [|p ps IH]; intros acc; simpl; frame. Qed.

#[local] Hint Resolve keeps_sheets_read_pages : frame.

Lemma keeps_sheets_PdfReader p : keeps_sheets (PdfReader E p).
Proof. unfold PdfReader. frame. Qed.

#[local] Hint Resolve keeps_sheets_PdfReader : frame.

Lemma keeps_sheets_extract_text p : keeps_sheets (extract_text_from_pdf E p).
Proof. unfold extract_text_from_pdf. frame. Qed.

Lemma never_raises_extract_text p : never_raises (extract_text_from_pdf E p).
Proof. unfold extract_text_from_pdf. frame. Qed.

Lemma keeps_sheets_validate_resume p b : keeps_sheets (validate_resume E p b).
Proof. unfold validate_resume. frame. Qed.

Lemma never_raises_validate_resume p b : never_raises (validate_resume E p b).
Proof. unfold validate_resume. frame. Qed.

Lemma keeps_sheets_extract_candidate b p : keeps_sheets (extract_candidate E b p).
Proof. unfold extract_candidate. frame. Qed.

Lemma never_raises_extract_candidate b p : never_raises (extract_candidate E b p).
Proof. unfold extract_candidate. frame. Qed.

#[local] Hint Resolve keeps_sheets_validate_resume never_raises_validate_resume
  keeps_sheets_extract_candidate never_raises_extract_candidate : frame.

Lemma keeps_sheets_extract_llm b p s : keeps_sheets (extract_llm E b p s).
Proof. unfold extract_llm. frame. Qed.

Lemma never_raises_extract_llm b p s : never_raises (extract_llm E b p s).
Proof. unfold extract_llm. frame. Qed.

Lemma only_calls_search_gmail : only_calls is_mail_or_disk_call (search_gmail E).
Proof. unfold search_gmail. frame. Qed.

Lemma only_calls_get_email_body p payload : only_calls p (get_email_body E payload).
Proof. unfold get_email_body. frame. Qed.

#[local] Hint Resolve only_calls_get_email_body : frame.

Lemma only_calls_read_loop ids :
  ∀ content, only_calls is_mail_or_disk_call (read_loop E ids content).
Proof. induction ids as [|i ids IH]; intros content; simpl; frame. Qed.

#[local] Hint Resolve only_calls_read_loop : frame.

Lemma only_calls_read_email ids : only_calls is_mail_or_disk_call (read_email E ids).
Proof. unfold read_email. frame. Qed.

Lemma only_calls_save_pdf c p : only_calls is_mail_or_disk_call (save_pdf E c p).
Proof. unfold save_pdf. frame. Qed.

Lemma only_calls_read_pages p ps : ∀ acc, only_calls p (read_pages ps acc).
Proof. induction ps as [|pg ps IH]; intros acc; simpl; frame. Qed.

#[local] Hint Resolve only_calls_read_pages : frame.

Lemma only_calls_PdfReader p path : only_calls p (PdfReader E path).
Proof. unfold PdfReader. frame. Qed.

#[local] Hint Resolve only_calls_PdfReader : frame.

Lemma only_calls_extract_text path : only_calls no_call (extract_text_from_pdf E path).
Proof. unfold extract_text_from_pdf. frame. Qed.

Lemma only_calls_validate_resume p b :
  only_calls is_classifier_call (validate_resume E p b).
Proof. unfold validate_resume. frame. Qed.

Lemma only_calls_extract_candidate b p :
  only_calls is_extractor_call (extract_candidate E b p).
Proof. unfold extract_candidate. frame. Qed.

End PipelineFacts.

(* ====================================================================== *)
(** ** The two sinks *)
(* ====================================================================== *)

Section SinkFacts.

Variable E : Env.

Ltac run_sink :=
  cbv beta iota zeta delta [bind try_catch client_open client_create share
    sheet1 append_row remote timestamp modify get_world log ret raise
    world_of events_of result_of fst snd];
  simpl;
  repeat (match goal with
          | |- context [api_fault E ?n] =>
              destruct (api_fault E n) eqn:?; simpl
          | |- context [match sheets ?w !! ?f with _ => _ end] =>
              destruct (sheets w !! f) eqn:?; simpl
          end).

Lemma save_to_sheets_other data f w g :
  g ≠ f →
  sheets (world_of (save_to_sheets E data f w)) !! g = sheets w !! g.
Proof.
  intros Hg. unfold save_to_sheets. run_sink;
    rewrite ?lookup_alter_ne, ?lookup_insert_ne by congruence; reflexivity.
Qed.

Lemma save_to_sheets_sink data f w :
  match result_of (save_to_sheets E data f w) with
  | Ret _ =>
      one_record_added candidate_headers (candidate_row data)
        (sheets w !! f) (sheets (world_of (save_to_sheets E data f w)) !! f)
  | Raise _ =>
      no_record_added candidate_headers
        (sheets w !! f) (sheets (world_of (save_to_sheets E data f w)) !! f)
  end.
Proof.
  unfold save_to_sheets, one_record_added, no_record_added. run_sink;
    rewrite ?lookup_alter_eq, ?lookup_insert_eq; simpl;
    repeat match goal with H : sheets _ !! _ = _ |- _ => rewrite H end;
    simpl; auto.
Qed.

Lemma save_rejected_other s d r f w g :
  g ≠ f →
  sheets (world_of (save_rejected_to_sheets E s d r f w)) !! g
  = sheets w !! g.
Proof.
  intros Hg. unfold save_rejected_to_sheets. run_sink;
    rewrite ?lookup_alter_ne, ?lookup_insert_ne by congruence; reflexivity.
Qed.

Lemma save_rejected_sink s d r f w :
  let o := save_rejected_to_sheets E s d r f w in
  let record := [VStr (now E (tick w)); VStr s; VStr d; VStr r] in
  match result_of o with
  | Ret _ =>
      one_record_added rejected_headers record
        (sheets w !! f) (sheets (world_of o) !! f)
  | Raise _ =>
      no_record_added rejected_headers
        (sheets w !! f) (sheets (world_of o) !! f)
  end.
Proof.
  unfold save_rejected_to_sheets, one_record_added, no_record_added.
  run_sink;
    rewrite ?lookup_alter_eq, ?lookup_insert_eq; simpl;
    repeat match goal with H : sheets _ !! _ = _ |- _ => rewrite H end;
    simpl; auto.
Qed.

Lemma only_calls_save_to_sheets data f :
  only_calls (is_sheet_call f) (save_to_sheets E data f).
Proof.
  intros w. unfold save_to_sheets. run_sink;
    rewrite ?String.eqb_refl; reflexivity.
Qed.

Lemma only_calls_save_rejected s d r f :
  only_calls (is_sheet_call f) (save_rejected_to_sheets E s d r f).
Proof.
  intros w. unfold save_rejected_to_sheets. run_sink;
    rewrite ?String.eqb_refl; reflexivity.
Qed.

(** Both sinks start by opening their spreadsheet. *)
Lemma save_rejected_opens s d r f w :
  invoked (is_sheet_call f)
          (events_of (save_rejected_to_sheets E s d r f w)) = true.
Proof.
  unfold save_rejected_to_sheets, invoked. run_sink;
    rewrite ?String.eqb_refl; reflexivity.
Qed.

Lemma save_to_sheets_opens data f w :
  invoked (is_sheet_call f) (events_of (save_to_sheets E data f w)) = true.
Proof.
  unfold save_to_sheets, invoked. run_sink;
    rewrite ?String.eqb_refl; reflexivity.
Qed.

End SinkFacts.

(* ====================================================================== *)
(** ** Creation of the sinks *)
(* ====================================================================== *)

Section SinkCreation.

Variable E : Env.

Ltac run_sink_in :=
  cbv beta iota zeta delta [bind try_catch client_open client_create share
    sheet1 append_row remote timestamp modify get_world log ret raise
    world_of events_of result_of fst snd];
  simpl;
  repeat (match goal with
          | |- context [api_fault E ?n] =>
              destruct (api_fault E n) eqn:?; simpl
          | H : sheets ?w !! ?f = _
            |- context [match sheets ?w !! ?f with _ => _ end] =>
              rewrite H; simpl
          end).

Lemma save_to_sheets_creates data f w w' ev :
  sheets w !! f = None →
  save_to_sheets E data f w = (w', ev, Ret tt) →
  sheets w' !! f = Some [candidate_headers; candidate_row data] ∧
  shares w' = shares w ++ [mkShare f collaborator "user" "writer"] ∧
  calls_of ev = [SheetsOpen f; SheetsCreate f; SheetsShare f collaborator;
                 SheetsSheet1 f; SheetsAppend f candidate_headers;
                 SheetsAppend f (candidate_row data)].
Proof.
  intros Hf. unfold save_to_sheets. run_sink_in;
    intros H; inversion H; subst; clear H; simpl.
  rewrite !lookup_alter_eq, lookup_insert_eq. auto.
Qed.

Lemma save_to_sheets_appends data f w w' ev rows :
  sheets w !! f = Some rows →
  save_to_sheets E data f w = (w', ev, Ret tt) →
  sheets w' !! f = Some (rows ++ [candidate_row data]) ∧
  shares w' = shares w ∧
  calls_of ev = [SheetsOpen f; SheetsSheet1 f;
                 SheetsAppend f (candidate_row data)].
Proof.
  intros Hf. unfold save_to_sheets. run_sink_in;
    intros H; inversion H; subst; clear H; simpl.
  rewrite !lookup_alter_eq, Hf. auto.
Qed.

Lemma save_rejected_creates s d r f w w' ev :
  sheets w !! f = None →
  save_rejected_to_sheets E s d r f w = (w', ev, Ret tt) →
  let record := [VStr (now E (tick w)); VStr s; VStr d; VStr r] in
  sheets w' !! f = Some [rejected_headers; record] ∧
  shares w' = shares w ++ [mkShare f collaborator "user" "writer"] ∧
  calls_of ev = [SheetsOpen f; SheetsCreate f; SheetsShare f collaborator;
                 SheetsSheet1 f; SheetsAppend f rejected_headers;
                 SheetsAppend f record].
Proof.
  intros Hf. unfold save_rejected_to_sheets. run_sink_in;
    intros H; inversion H; subst; clear H; simpl.
  rewrite !lookup_alter_eq, lookup_insert_eq. auto.
Qed.

End SinkCreation.

(* ====================================================================== *)
(** ** The gate of [extract_llm] and the routing of [main] *)
(* ====================================================================== *)

Section RoutingFacts.

Variable E : Env.

Ltac run_m :=
  cbv beta iota zeta delta [bind try_catch log ret raise
    world_of events_of result_of fst snd].

(** The validation of a document that passes the policy is followed by
    STEP 2; otherwise [extract_llm] returns [None] on the spot. *)
Lemma extract_llm_run body pdf w w1 ev1 v :
  validate_resume E pdf body w = (w1, ev1, Ret v) →
  extract_llm E body pdf false w =
    if passes_policy v then
      (world_of (extract_candidate E body pdf w1),
       Log INFO "Starting LLM extraction for candidate data"
         :: ev1 ++ Log INFO ("Resume validation passed with "
                             +:+ confidence_str (confidence v)
                             +:+ " confidence")
         :: events_of (extract_candidate E body pdf w1),
       result_of (extract_candidate E body pdf w1))
    else
      (w1,
       Log INFO "Starting LLM extraction for candidate data"
         :: ev1 ++ [Log WARNING
              (if negb (is_resume v)
               then "Document rejected - Not a resume. Type: "
                    +:+ document_type v +:+ ", Reason: " +:+ reason v
               else "Document rejected - Low confidence validation. Type: "
                    +:+ document_type v)],
       Ret None).
Proof.
  intros Hv. unfold extract_llm, passes_policy. simpl negb. run_m.
  rewrite Hv. run_m.
  destruct (is_resume v); simpl; [|reflexivity].
  destruct (confidence_eqb (confidence v) low); simpl; [reflexivity|].
  destruct (extract_candidate E body pdf w1) as [[w2 ev2] r]. reflexivity.
Qed.

(** What one iteration of the loop of [main] does, stage by stage, for a
    message whose attachment was downloaded and read. *)
Lemma process_email_run m w wa eva path body wb evb txt wc evc data :
  attachments m ≠ [] →
  save_pdf E [m] default_save_path w = (wa, eva, Ret (path, body)) →
  extract_text_from_pdf E path wa = (wb, evb, Ret txt) →
  startswith "Error" txt = false →
  extract_llm E body txt false wb = (wc, evc, Ret data) →
  let sink :=
    match data with
    | None => save_rejected_to_sheets E (sender m) rejected_document_type
                rejected_reason rejected_file wc
    | Some d => save_to_sheets E (model_dump d) candidates_file wc
    end in
  world_of (process_email E m w) = world_of sink ∧
  result_of (process_email E m w) =
    Ret (if is_ret (result_of sink)
         then match data with None => Rejected | Some _ => Saved end
         else Failed) ∧
  calls_of (events_of (process_email E m w)) =
    calls_of eva ++ calls_of evb ++ calls_of evc ++ calls_of (events_of sink).
Proof.
  intros Hatt Hdl Htxt Hok Hllm.
  unfold process_email, process_email_try.
  destruct (attachments m) as [|a rest]; [congruence|].
  run_m. rewrite Hdl. run_m. rewrite Htxt. run_m. rewrite Hok.
  rewrite Hllm. run_m.
  destruct data as [d|]; simpl.
  - destruct (save_to_sheets E (model_dump d) candidates_file wc)
      as [[wd evd] [[]|e]]; run_m; simpl;
      rewrite ?calls_of_app; simpl; rewrite ?calls_of_app; simpl;
      rewrite ?app_nil_r; auto.
  - destruct (save_rejected_to_sheets E (sender m) rejected_document_type
                rejected_reason rejected_file wc)
      as [[wd evd] [[]|e]]; run_m; simpl;
      rewrite ?calls_of_app; simpl; rewrite ?calls_of_app; simpl;
      rewrite ?app_nil_r; auto.
Qed.

End RoutingFacts.

Section BatchFacts.

Variable E : Env.

Ltac run_m :=
  cbv beta iota zeta delta [bind try_catch log ret raise
    world_of events_of result_of fst snd].

Lemma sank_nothing_same w w' : sheets w' = sheets w → sank_nothing w w'.
Proof. intros H. split; left; rewrite H; reflexivity. Qed.

Ltac sheets_of H :=
  lazymatch type of H with
  | ?m ?w = (?w', _, _) =>
      let K := fresh "K" in
      assert (K : sheets w' = sheets w);
      [ let F := fresh in
        assert (F : keeps_sheets m) by
          (first [ apply keeps_sheets_save_pdf
                 | apply keeps_sheets_extract_text
                 | apply keeps_sheets_extract_llm ]);
        specialize (F w); rewrite H in F; exact F
      | ]
  end.

(** What one iteration of the loop does to the sinks, by its outcome. *)
Lemma process_email_sinks m w :
  ∃ out, result_of (process_email E m w) = Ret out ∧
    match out with
    | Saved => sank_candidate w (world_of (process_email E m w))
    | Rejected => sank_rejection w (world_of (process_email E m w))
    | _ => sank_nothing w (world_of (process_email E m w))
    end.
Proof.
  unfold process_email, process_email_try.
  destruct (attachments m) as [|a rest].
  { run_m. eexists. split; [reflexivity|]. apply sank_nothing_same.
    reflexivity. }
  run_m.
  destruct (save_pdf E [m] default_save_path w)
    as [[wa eva] [[path body]|e]] eqn:Hdl; sheets_of Hdl; run_m.
  2:{ eexists. split; [reflexivity|]. apply sank_nothing_same. exact K. }
  destruct (extract_text_from_pdf E path wa)
    as [[wb evb] [txt|e]] eqn:Htxt; sheets_of Htxt; run_m.
  2:{ eexists. split; [reflexivity|]. apply sank_nothing_same. congruence. }
  destruct (startswith "Error" txt); run_m.
  { eexists. split; [reflexivity|]. apply sank_nothing_same. congruence. }
  destruct (extract_llm E body txt false wb)
    as [[wc evc] [data|e]] eqn:Hllm; sheets_of Hllm; run_m.
  2:{ eexists. split; [reflexivity|]. apply sank_nothing_same. congruence. }
  assert (Hw : sheets wc = sheets w) by congruence.
  destruct data as [d|].
  - pose proof (save_to_sheets_sink E (model_dump d) candidates_file wc) as Hs.
    pose proof (save_to_sheets_other E (model_dump d) candidates_file wc
                  rejected_file) as Ho.
    unfold world_of, result_of in Hs, Ho.
    destruct (save_to_sheets E (model_dump d) candidates_file wc)
      as [[wd evd] [[]|e]]; simpl in Hs, Ho; run_m;
      (eexists; split; [reflexivity|]); rewrite Hw in Hs, Ho.
    + split; [eauto|]. apply Ho. discriminate.
    + split; [exact Hs|]. left. apply Ho. discriminate.
  - pose proof (save_rejected_sink E (sender m) rejected_document_type
                  rejected_reason rejected_file wc) as Hs.
    pose proof (save_rejected_other E (sender m) rejected_document_type
                  rejected_reason rejected_file wc candidates_file) as Ho.
    unfold world_of, result_of in Hs, Ho.
    destruct (save_rejected_to_sheets E (sender m) rejected_document_type
                rejected_reason rejected_file wc)
      as [[wd evd] [[]|e]]; simpl in Hs, Ho; run_m;
      (eexists; split; [reflexivity|]); rewrite Hw in Hs, Ho.
    + split; [eauto|]. apply Ho. discriminate.
    + split; [left; apply Ho; discriminate | exact Hs].
Qed.

Lemma never_raises_process_email m : never_raises (process_email E m).
Proof.
  intros w. destruct (process_email_sinks m w) as (out & Hr & _).
  rewrite Hr. reflexivity.
Qed.

(** The loop visits every message, each from the world the one before
    left, and never raises. *)
Lemma for_each_process_email ms : ∀ w,
  world_of (for_each (process_email E) ms w)
  = fold_left (fun w m => world_of (process_email E m w)) ms w ∧
  result_of (for_each (process_email E) ms w) = Ret tt.
Proof.
  induction ms as [|m ms IH]; intros w; simpl.
  - split; reflexivity.
  - unfold bind.
    pose proof (never_raises_process_email m w) as Hm.
    unfold world_of at 2. unfold result_of in Hm.
    destruct (process_email E m w) as [[w1 ev1] [out|e]];
      [|discriminate]. simpl.
    specialize (IH w1). unfold world_of, result_of in *.
    destruct (for_each (process_email E) ms w1) as [[w2 ev2] r].
    simpl in *. exact IH.
Qed.

Lemma never_raises_for_each ms : never_raises (for_each (process_email E) ms).
Proof.
  intros w. destruct (for_each_process_email ms w) as [_ Hr].
  rewrite Hr. reflexivity.
Qed.

Lemma never_raises_main_body : never_raises (main_body E).
Proof.
  unfold main_body.
  apply never_raises_bind; [apply never_raises_log|intros _].
  apply never_raises_bind; [apply never_raises_search_gmail|intros ids].
  destruct ids; [apply never_raises_log|].
  apply never_raises_bind; [apply never_raises_read_email|intros content].
  destruct content; [apply never_raises_log|].
  apply never_raises_bind; [apply never_raises_for_each|intros _].
  apply never_raises_log.
Qed.

End BatchFacts.

(* ====================================================================== *)
(** ** The scheduler *)
(* ====================================================================== *)

Section SchedulerFacts.

Context {S : Type}.
Variable clock : S → S * string.
Variable time_sleep : Z → S → S.
Variable func : S → S * result unit.

Lemma range_1_4 : range 1 4 = [1; 2; 3]%Z.
Proof. reflexivity. Qed.

(** The three attempts, written out. *)
Lemma attempts_unfold s tr :
  attempts time_sleep func (range 1 4) s tr =
  match func s with
  | (s1, Ret _) => (s1, tr ++ [success_line], true)
  | (s1, Raise e1) =>
    let tr1 := tr ++ [Log ERROR ("Attempt 1/3 failed: " +:+ str_exn e1);
                      Sleep 10] in
    match func (time_sleep 10 s1) with
    | (s2, Ret _) => (s2, tr1 ++ [success_line], true)
    | (s2, Raise e2) =>
      let tr2 := tr1 ++ [Log ERROR ("Attempt 2/3 failed: " +:+ str_exn e2);
                         Sleep 10] in
      match func (time_sleep 10 s2) with
      | (s3, Ret _) => (s3, tr2 ++ [success_line], true)
      | (s3, Raise e3) =>
          (s3, tr2 ++ [Log ERROR ("Attempt 3/3 failed: " +:+ str_exn e3)],
           false)
      end
    end
  end.
Proof.
  rewrite range_1_4. unfold attempts, success_line.
  destruct (func s) as [s1 [[]|e1]]; [reflexivity|].
  change (1 <? 3)%Z with true. cbv iota.
  change (pretty 1%Z) with "1".
  destruct (func (time_sleep 10 s1)) as [s2 [[]|e2]];
    [rewrite <- !app_assoc; reflexivity|].
  change (2 <? 3)%Z with true. cbv iota.
  change (pretty 2%Z) with "2".
  destruct (func (time_sleep 10 s2)) as [s3 [[]|e3]];
    [rewrite <- !app_assoc; reflexivity|].
  change (3 <? 3)%Z with false. cbv iota.
  change (pretty 3%Z) with "3".
  rewrite <- !app_assoc. reflexivity.
Qed.

End SchedulerFacts.

(* ====================================================================== *)
(** ** Whitespace normalisation *)
(* ====================================================================== *)

Lemma append_cons c (a b : string) : String c a +:+ b = String c (a +:+ b).
Proof. reflexivity. Qed.

Lemma append_nil_l (b : string) : EmptyString +:+ b = b.
Proof. reflexivity. Qed.

Lemma append_nil_r (s : string) : s +:+ EmptyString = s.
Proof.
  induction s as [|c s IH]; [reflexivity|].
  rewrite append_cons, IH. reflexivity.
Qed.

Lemma append_assoc (a b c : string) : (a +:+ b) +:+ c = a +:+ (b +:+ c).
Proof.
  induction a as [|x a IH]; [reflexivity|].
  rewrite !append_cons, IH. reflexivity.
Qed.

Lemma no_space_app (a b : string) :
  no_space (a +:+ b) = no_space a && no_space b.
Proof.
  induction a as [|c a IH]; [reflexivity|].
  rewrite append_cons. simpl. rewrite IH, andb_assoc. reflexivity.
Qed.

Lemma strip_ws_app (a b : string) :
  strip_ws (a +:+ b) = strip_ws a +:+ strip_ws b.
Proof.
  induction a as [|c a IH]; [reflexivity|].
  rewrite append_cons. simpl.
  destruct (isspace c); rewrite ?append_cons, IH; reflexivity.
Qed.

Lemma strip_ws_no_space (s : string) : no_space s = true → strip_ws s = s.
Proof.
  induction s as [|c s IH]; simpl; [reflexivity|].
  intros H. apply andb_prop in H as [Hc Hs].
  apply negb_true_iff in Hc. rewrite Hc, (IH Hs). reflexivity.
Qed.

Lemma split_from_words (s : string) : ∀ cur,
  no_space cur = true → forallb is_word (split_from cur s) = true.
Proof.
  induction s as [|c s IH]; intros cur Hcur; simpl.
  - unfold is_word. destruct cur; simpl in *; [reflexivity|].
    rewrite Hcur. reflexivity.
  - destruct (isspace c) eqn:Hc.
    + destruct (is_empty cur) eqn:He; simpl.
      * apply IH. reflexivity.
      * unfold is_word at 1. rewrite He, Hcur. simpl. apply IH. reflexivity.
    + apply IH. rewrite no_space_app, Hcur. simpl. rewrite Hc. reflexivity.
Qed.

Lemma concat_cons (x : string) (xs : list string) :
  String.concat EmptyString (x :: xs) = x +:+ String.concat EmptyString xs.
Proof.
  destruct xs as [|y ys]; simpl.
  - rewrite append_nil_r. reflexivity.
  - reflexivity.
Qed.

(** The words of a text, glued together, are the text without its
    whitespace. *)
Lemma split_from_concat (s : string) : ∀ cur,
  String.concat EmptyString (split_from cur s) = cur +:+ strip_ws s.
Proof.
  induction s as [|c s IH]; intros cur; simpl.
  - rewrite append_nil_r. destruct cur; reflexivity.
  - destruct (isspace c) eqn:Hc.
    + destruct (is_empty cur) eqn:He.
      * destruct cur; [|discriminate]. apply IH.
      * rewrite concat_cons, IH. reflexivity.
    + rewrite IH, append_assoc. reflexivity.
Qed.

Lemma strip_ws_join (ws : list string) :
  forallb is_word ws = true →
  strip_ws (join " " ws) = String.concat EmptyString ws.
Proof.
  induction ws as [|x ws IH]; [reflexivity|].
  intros H. simpl in H. apply andb_prop in H as [Hx Hws].
  unfold is_word in Hx. apply andb_prop in Hx as [_ Hx].
  rewrite concat_cons.
  destruct ws as [|y ws'].
  - simpl. rewrite append_nil_r. apply strip_ws_no_space. exact Hx.
  - change (join " " (x :: y :: ws'))
      with (x +:+ " " +:+ join " " (y :: ws')).
    rewrite strip_ws_app, (strip_ws_no_space _ Hx).
    change (strip_ws (" " +:+ join " " (y :: ws')))
      with (strip_ws (join " " (y :: ws'))).
    rewrite (IH Hws). reflexivity.
Qed.

Lemma spaced_ok_word (x rest : string) : ∀ b,
  is_word x = true → spaced_ok b (x +:+ rest) = spaced_ok false rest.
Proof.
  unfold is_word. induction x as [|c x IH]; intros b H.
  - discriminate.
  - simpl in H. apply andb_prop in H as [Hc Hx]. apply negb_true_iff in Hc.
    rewrite append_cons. simpl. rewrite Hc. destruct x as [|d x'].
    + reflexivity.
    + apply IH. simpl. exact Hx.
Qed.

Lemma spaced_ok_join (ws : list string) : ∀ b,
  ws ≠ [] → forallb is_word ws = true → spaced_ok b (join " " ws) = true.
Proof.
  induction ws as [|x ws IH]; intros b Hne H; [congruence|].
  simpl in H. apply andb_prop in H as [Hx Hws].
  destruct ws as [|y ws'].
  - simpl. rewrite <- (append_nil_r x). rewrite (spaced_ok_word _ _ _ Hx).
    reflexivity.
  - change (join " " (x :: y :: ws'))
      with (x +:+ " " +:+ join " " (y :: ws')).
    rewrite (spaced_ok_word _ _ _ Hx).
    change (spaced_ok false (" " +:+ join " " (y :: ws')))
      with (spaced_ok true (join " " (y :: ws'))).
    apply IH; [congruence | exact Hws].
Qed.

(** The text [" ".join(s.split())]: single-spaced, and with the same
    characters apart from whitespace. *)
Lemma normalised_text (s : string) :
  single_spaced (join " " (split s)) = true ∧
  strip_ws (join " " (split s)) = strip_ws s.
Proof.
  unfold split, single_spaced.
  pose proof (split_from_words s EmptyString eq_refl) as Hw. split.
  - destruct (split_from EmptyString s) as [|x ws] eqn:Hs; [reflexivity|].
    rewrite (spaced_ok_join (x :: ws) true); [|congruence|exact Hw].
    apply orb_true_r.
  - rewrite (strip_ws_join _ Hw), split_from_concat. reflexivity.
Qed.

Example split_example :
  split ("  Jane   Roe" +:+ LF +:+ LF +:+ "Python ") = ["Jane"; "Roe"; "Python"].
Proof. reflexivity. Qed.

Example normalise_example :
  join " " (split ("  Jane   Roe" +:+ LF +:+ LF +:+ "Python "))
  = "Jane Roe Python".
Proof. reflexivity. Qed.

(* ====================================================================== *)
(** ** Reading a document *)
(* ====================================================================== *)

Section DocumentFacts.

Variable E : Env.

Lemma read_pages_run pages : ∀ acc w,
  read_pages pages acc w =
    (w, [], match pages_text pages with
            | Ret t => Ret (acc +:+ t)
            | Raise e => Raise e
            end).
Proof.
  induction pages as [|p pages IH]; intros acc w; simpl.
  - rewrite append_nil_r. reflexivity.
  - destruct p as [t|e]; [|reflexivity].
    rewrite IH. destruct (pages_text pages) as [r|e]; [|reflexivity].
    rewrite !append_assoc. reflexivity.
Qed.

Lemma pages_text_all (texts : list string) :
  pages_text (map Ret texts)
  = Ret (String.concat EmptyString (map (fun t => t +:+ LF) texts)).
Proof.
  induction texts as [|t texts IH]; [reflexivity|].
  cbn [map pages_text]. rewrite IH, concat_cons, append_assoc. reflexivity.
Qed.

Lemma startswith_failure_marker path e :
  startswith "Error" (failure_marker path e) = true.
Proof. unfold failure_marker. destruct (exn_kind e); reflexivity. Qed.

(** [extract_text_from_pdf] changes nothing and returns the normalised
    text of the document, or the failure marker. *)
Lemma extract_text_run pdf_path w :
  ∃ ev, extract_text_from_pdf E pdf_path w =
    (w, ev,
     Ret match read_document E w pdf_path with
         | Ret full => join " " (split full)
         | Raise e => failure_marker pdf_path e
         end).
Proof.
  unfold extract_text_from_pdf, PdfReader, read_document, failure_marker.
  cbv beta iota zeta delta [bind try_catch log ret raise get_world].
  destruct (files w !! pdf_path) as [bytes|]; cbv beta iota.
  - destruct (pdf_reader E bytes) as [pages|e]; cbv beta iota.
    + rewrite read_pages_run.
      destruct (pages_text pages) as [t|e]; cbv beta iota.
      * eexists. reflexivity.
      * destruct (exn_kind e); eexists; reflexivity.
    + destruct (exn_kind e); eexists; reflexivity.
  - eexists. reflexivity.
Qed.

(** From a run to the classes of its calls. *)
Lemma only_calls_run {A} p (m : M A) w w' ev r :
  only_calls p m → m w = (w', ev, r) → forallb (calls_within p) ev = true.
Proof. intros H Hm. specialize (H w). rewrite Hm in H. exact H. Qed.

Lemma process_email_extraction_failed m w wa eva path body wb evb txt :
  attachments m ≠ [] →
  save_pdf E [m] default_save_path w = (wa, eva, Ret (path, body)) →
  extract_text_from_pdf E path wa = (wb, evb, Ret txt) →
  startswith "Error" txt = true →
  process_email E m w =
    (wb,
     Log INFO ("Processing email from: " +:+ sender m)
       :: (eva ++ []) ++ evb ++ [Log ERROR ("PDF extraction failed: " +:+ txt)],
     Ret ExtractionFailed).
Proof.
  intros Hatt Hdl Htxt Hok.
  unfold process_email, process_email_try.
  destruct (attachments m) as [|a rest]; [congruence|].
  cbv beta iota zeta delta [bind try_catch log ret raise].
  rewrite Hdl. cbv beta iota. rewrite Htxt. cbv beta iota. rewrite Hok.
  reflexivity.
Qed.

End DocumentFacts.

(** From a run to the spreadsheets it left. *)
Lemma keeps_sheets_run {A} (m : M A) w w' ev r :
  keeps_sheets m → m w = (w', ev, r) → sheets w' = sheets w.
Proof. intros H Hm. specialize (H w). rewrite Hm in H. exact H. Qed.

Lemma invoked_cons_log p lvl msg evs :
  invoked p (Log lvl msg :: evs) = invoked p evs.
Proof. reflexivity. Qed.

Lemma invoked_calls p evs evs' :
  calls_of evs = calls_of evs' → invoked p evs = invoked p evs'.
Proof. unfold invoked. intros H. rewrite H. reflexivity. Qed.

Lemma candidates_not_rejected : candidates_file ≠ rejected_file.
Proof. discriminate. Qed.

Lemma passes_policy_false v :
  passes_policy v = false ↔
  is_resume v = false ∨ (is_resume v = true ∧ confidence v = low).
Proof.
  unfold passes_policy. destruct (is_resume v), (confidence v); simpl;
    intuition congruence.
Qed.

Lemma passes_policy_true v :
  passes_policy v = true ↔ is_resume v = true ∧ confidence v ≠ low.
Proof.
  unfold passes_policy. destruct (is_resume v), (confidence v); simpl;
    intuition congruence.
Qed.

Ltac call_classes :=
  let c := fresh "c" in
  let H := fresh "H" in
  intros c H; unfold no_call in *; destruct c; simpl in *; try congruence;
  try (match goal with s : schema |- _ => destruct s end;
       simpl in *; congruence);
  try (apply String.eqb_eq in H; subst; reflexivity).

Section GateFacts.

Variable E : Env.

(** A message whose document fails the policy: it goes to the rejection
    sink, and neither the extractor nor the acceptance sink is called. *)
Lemma process_email_rejects m w wa eva path body wb evb txt wc evc v :
  attachments m ≠ [] →
  save_pdf E [m] default_save_path w = (wa, eva, Ret (path, body)) →
  extract_text_from_pdf E path wa = (wb, evb, Ret txt) →
  startswith "Error" txt = false →
  validate_resume E txt body wb = (wc, evc, Ret v) →
  passes_policy v = false →
  let sink := save_rejected_to_sheets E (sender m) rejected_document_type
                rejected_reason rejected_file wc in
  let o := process_email E m w in
  world_of o = world_of sink ∧
  result_of o = Ret (if is_ret (result_of sink) then Rejected else Failed) ∧
  sheets wc = sheets w ∧
  invoked is_extractor_call (events_of o) = false ∧
  invoked (is_sheet_call candidates_file) (events_of o) = false ∧
  invoked (is_sheet_call rejected_file) (events_of o) = true.
Proof.
  intros Hatt Hdl Htxt Hok Hval Hpol sink o.
  pose proof (extract_llm_run E body txt wb wc evc v Hval) as Hllm.
  rewrite Hpol in Hllm.
  destruct (process_email_run E m w wa eva path body wb evb txt wc _ None
              Hatt Hdl Htxt Hok Hllm) as (Hw & Hr & Hc).
  fold sink in Hw, Hr, Hc. fold o in Hw, Hr, Hc.
  assert (Ha : forallb (calls_within is_mail_or_disk_call) eva = true)
    by exact (only_calls_run _ _ _ _ _ _ (only_calls_save_pdf E _ _) Hdl).
  assert (Hb : forallb (calls_within no_call) evb = true)
    by exact (only_calls_run _ _ _ _ _ _ (only_calls_extract_text E _) Htxt).
  assert (Hv : forallb (calls_within is_classifier_call) evc = true)
    by exact (only_calls_run _ _ _ _ _ _
                (only_calls_validate_resume E _ _) Hval).
  pose proof (only_calls_save_rejected E (sender m) rejected_document_type
                rejected_reason rejected_file wc) as Hs.
  fold sink in Hs.
  pose proof (save_rejected_opens E (sender m) rejected_document_type
                rejected_reason rejected_file wc) as Ho.
  fold sink in Ho.
  assert (Hsh : sheets wc = sheets w).
  { rewrite (keeps_sheets_run _ _ _ _ _ (keeps_sheets_validate_resume E _ _) Hval),
      (keeps_sheets_run _ _ _ _ _ (keeps_sheets_extract_text E _) Htxt).
    exact (keeps_sheets_run _ _ _ _ _ (keeps_sheets_save_pdf E _ _) Hdl). }
  assert (Hllm_calls :
    ∀ p, existsb p (calls_of
           (Log INFO "Starting LLM extraction for candidate data"
            :: evc ++ [Log WARNING
                 (if negb (is_resume v)
                  then "Document rejected - Not a resume. Type: "
                       +:+ document_type v +:+ ", Reason: " +:+ reason v
                  else "Document rejected - Low confidence validation. Type: "
                       +:+ document_type v)]))
         = invoked p evc).
  { intros p. unfold invoked. simpl. rewrite calls_of_app. simpl.
    rewrite app_nil_r. reflexivity. }
  repeat split; auto.
  - unfold invoked. rewrite Hc, !existsb_app, Hllm_calls.
    fold (invoked is_extractor_call eva). fold (invoked is_extractor_call evb).
    fold (invoked is_extractor_call (events_of sink)).
    rewrite (only_calls_not_invoked is_mail_or_disk_call _ eva),
      (only_calls_not_invoked no_call _ evb),
      (only_calls_not_invoked is_classifier_call _ evc),
      (only_calls_not_invoked (is_sheet_call rejected_file) _ (events_of sink));
      auto; call_classes.
  - unfold invoked. rewrite Hc, !existsb_app, Hllm_calls.
    fold (invoked (is_sheet_call candidates_file) eva).
    fold (invoked (is_sheet_call candidates_file) evb).
    fold (invoked (is_sheet_call candidates_file) (events_of sink)).
    rewrite (only_calls_not_invoked is_mail_or_disk_call _ eva),
      (only_calls_not_invoked no_call _ evb),
      (only_calls_not_invoked is_classifier_call _ evc),
      (only_calls_not_invoked (is_sheet_call rejected_file) _ (events_of sink));
      auto; call_classes.
  - unfold invoked. rewrite Hc, !existsb_app.
    fold (invoked (is_sheet_call rejected_file) (events_of sink)).
    rewrite Ho, !orb_true_r. reflexivity.
Qed.

End GateFacts.

Section ExtractorFacts.

Variable E : Env.

(** STEP 2 always calls the model. *)
Lemma extract_candidate_invokes body pdf w :
  invoked is_extractor_call (events_of (extract_candidate E body pdf w))
  = true.
Proof.
  unfold extract_candidate, invoked.
  cbv beta iota zeta delta [bind try_catch log ret raise remote].
  destruct (api_fault E (tick w)); reflexivity.
Qed.

(** The gate of [extract_llm], in terms of calls. *)
Lemma extract_llm_gate body pdf w w1 ev1 v :
  validate_resume E pdf body w = (w1, ev1, Ret v) →
  invoked is_extractor_call (events_of (extract_llm E body pdf false w))
  = passes_policy v ∧
  (passes_policy v = false →
   result_of (extract_llm E body pdf false w) = Ret None).
Proof.
  intros Hv. rewrite (extract_llm_run E body pdf w w1 ev1 v Hv).
  assert (Hc : invoked is_extractor_call ev1 = false).
  { apply (only_calls_not_invoked is_classifier_call); [call_classes|].
    exact (only_calls_run _ _ _ _ _ _ (only_calls_validate_resume E _ _) Hv). }
  destruct (passes_policy v); simpl.
  - split; [|discriminate]. unfold events_of at 1. simpl.
    rewrite invoked_cons_log, invoked_app, invoked_cons_log,
      extract_candidate_invokes. apply orb_true_r.
  - split; [|reflexivity]. unfold events_of. simpl.
    rewrite invoked_cons_log, invoked_app, Hc. reflexivity.
Qed.

End ExtractorFacts.

(** What [main] writes for a message whose classification does not pass
    the acceptance policy, when the write returns: the timestamp, the
    sender, the literal "non-resume" and the literal "Failed resume
    validation check", whatever document type the classifier
    produced. *)
Lemma rejection_row_is_fixed (E : Env) (m : Email) (w wa wb wc : World)
    (eva evb evc : list event) (path body txt : string)
    (v : ResumeValidation) :
  attachments m ≠ [] →
  save_pdf E [m] default_save_path w = (wa, eva, Ret (path, body)) →
  extract_text_from_pdf E path wa = (wb, evb, Ret txt) →
  startswith "Error" txt = false →
  validate_resume E txt body wb = (wc, evc, Ret v) →
  passes_policy v = false →
  result_of (process_email E m w) = Ret Rejected →
  one_record_added rejected_headers
    [VStr (now E (tick wc)); VStr (sender m); VStr "non-resume";
     VStr "Failed resume validation check"]
    (sheets w !! rejected_file)
    (sheets (world_of (process_email E m w)) !! rejected_file).
Proof.
  intros Hatt Hdl Htxt Hok Hval Hpol Hres.
  destruct (process_email_rejects E m w wa eva path body wb evb txt wc evc v
              Hatt Hdl Htxt Hok Hval Hpol) as (Hw & Hr & Hsh & _).
  rewrite Hw. rewrite Hres in Hr.
  pose proof (save_rejected_sink E (sender m) rejected_document_type
                rejected_reason rejected_file wc) as Hs.
  cbv zeta in Hs.
  destruct (result_of (save_rejected_to_sheets E (sender m)
                         rejected_document_type rejected_reason
                         rejected_file wc)) as [[]|e]; simpl in Hr.
  - rewrite Hsh in Hs. exact Hs.
  - discriminate.
Qed.

Lemma rejection_row_is_fixed_example :
  sheets (world_of (process_email Demo.E_invoice (Demo.message "m1") Demo.w0))
    !! rejected_file
  = Some [rejected_headers;
          [VStr "2024-01-15 10:00:00"; VStr "m1@example.com";
           VStr "non-resume"; VStr "Failed resume validation check"]].
Proof.
  eapply (rejection_row_is_fixed Demo.E_invoice (Demo.message "m1")
            Demo.w0).
  - discriminate.
  - vm_compute. reflexivity.
  - vm_compute. reflexivity.
  - vm_compute. reflexivity.
  - vm_compute. reflexivity.
  - vm_compute. reflexivity.
  - vm_compute. reflexivity.
Defined.

(** Rows of the sinks, counted. *)
Lemma total_rows_sank_one w w' :
  is_Some (sheets w !! candidates_file) →
  is_Some (sheets w !! rejected_file) →
  sank_candidate w w' ∨ sank_rejection w w' →
  total_rows w' = total_rows w + 1 ∧
  is_Some (sheets w' !! candidates_file) ∧
  is_Some (sheets w' !! rejected_file).
Proof.
  intros [c Hc] [r Hr] [[[x Hx] Ho]|[[x Hx] Ho]];
    unfold one_record_added, total_rows, rows_in in *;
    rewrite ?Hc, ?Hr in *; rewrite Hx, Ho, ?Hc, ?Hr; simpl;
    rewrite length_app; simpl; (split; [lia|]); split; eauto.
Qed.

Lemma total_rows_sank_nothing w w' :
  is_Some (sheets w !! candidates_file) →
  is_Some (sheets w !! rejected_file) →
  sank_nothing w w' →
  total_rows w' = total_rows w ∧
  is_Some (sheets w' !! candidates_file) ∧
  is_Some (sheets w' !! rejected_file).
Proof.
  intros [c Hc] [r Hr] [[Ha|[Ha _]] [Hb|[Hb _]]];
    unfold total_rows, rows_in; try congruence.
  rewrite Ha, Hb, Hc, Hr. eauto.
Qed.

Section OutcomeFacts.

Variable E : Env.

(** The sinks after a message, by what became of the message. *)
Lemma completed_sank m w :
  completed (result_of (process_email E m w)) →
  sank_candidate w (world_of (process_email E m w)) ∨
  sank_rejection w (world_of (process_email E m w)).
Proof.
  intros Hc. destruct (process_email_sinks E m w) as (out & Hr & Hs).
  destruct Hc as [Hc|Hc]; rewrite Hc in Hr; inversion Hr; subst out; auto.
Qed.

Lemma stage_raised_sank_nothing m w :
  stage_raised (result_of (process_email E m w)) →
  sank_nothing w (world_of (process_email E m w)).
Proof.
  intros Hc. destruct (process_email_sinks E m w) as (out & Hr & Hs).
  destruct Hc as [Hc|[Hc|Hc]]; rewrite Hc in Hr; inversion Hr; subst out;
    exact Hs.
Qed.

End OutcomeFacts.

(** The skills of a candidate are written as one cell, joined by commas. *)
Example skills_cell :
  candidate_row
    (model_dump (mkInterns "A" "a@example.com" "N/A" ["Python"; "SQL"; "Go"]
                           "0 years" New "S" "Q")) !! 3
  = Some (VStr "Python, SQL, Go").
Proof. vm_compute. reflexivity. Qed.

(** A pass over a mailbox of three resumes: one spreadsheet, one header,
    three records. *)
Example pass_example :
  sheets (world_of (main_body Demo.E_ok Demo.w0)) !! candidates_file
  = Some [candidate_headers; candidate_row (model_dump Demo.jane);
          candidate_row (model_dump Demo.jane);
          candidate_row (model_dump Demo.jane)].
Proof. vm_compute. reflexivity. Qed.

(* ====================================================================== *)
(** ** From the stages of a message to its outcome *)
(* ====================================================================== *)

Section StageFacts.

Variable E : Env.

Lemma process_email_download_failed m w wa eva e :
  attachments m ≠ [] →
  save_pdf E [m] default_save_path w = (wa, eva, Raise e) →
  result_of (process_email E m w) = Ret DownloadFailed.
Proof.
  intros Hatt Hdl. unfold process_email, process_email_try.
  destruct (attachments m) as [|a rest]; [congruence|].
  cbv beta iota zeta delta [bind try_catch log ret raise result_of].
  rewrite Hdl. reflexivity.
Qed.

Lemma extract_text_of_document path w full :
  read_document E w path = Ret full →
  ∃ ev, extract_text_from_pdf E path w = (w, ev, Ret (normalise full)).
Proof.
  intros Hdoc. destruct (extract_text_run E path w) as (ev & Hrun).
  rewrite Hdoc in Hrun. exists ev. exact Hrun.
Qed.

(** A message with an attachment, no stage of which raises and whose
    text does not start with "Error", goes through to a sink. *)
Lemma no_stage_raises_completed m w :
  attachments m ≠ [] →
  no_stage_raises E m w →
  text_not_error E m w →
  completed (result_of (process_email E m w)).
Proof.
  intros Hatt (wa & eva & path & body & full & wc & evc & data
               & Hdl & Hdoc & Hllm & Hsink) Htext.
  destruct (extract_text_of_document path wa full Hdoc) as (evb & Htxt).
  pose proof (Htext wa eva path body full Hdl Hdoc) as Hok.
  destruct (process_email_run E m w wa eva path body wa evb _ wc evc data
              Hatt Hdl Htxt Hok Hllm) as (_ & Hr & _).
  unfold sink_call in Hsink. unfold completed. rewrite Hr.
  destruct data as [d|]; rewrite Hsink; auto.
Qed.

(** A message with an attachment, a stage of which raises, reaches no
    sink with a record. *)
Lemma a_stage_raises_stage_raised m w :
  attachments m ≠ [] →
  a_stage_raises E m w →
  stage_raised (result_of (process_email E m w)).
Proof.
  intros Hatt [(wa & eva & e & Hdl)
              |[(wa & eva & path & body & e & Hdl & Hdoc)
               |(wa & eva & path & body & full & wc & evc & data
                 & Hdl & Hdoc & Hok & Hllm & Hsink)]].
  - left. exact (process_email_download_failed m w wa eva e Hatt Hdl).
  - right. left.
    destruct (extract_text_run E path wa) as (evb & Htxt).
    rewrite Hdoc in Htxt.
    rewrite (process_email_extraction_failed E m w wa eva path body wa evb _
               Hatt Hdl Htxt (startswith_failure_marker path e)).
    reflexivity.
  - right. right.
    destruct (extract_text_of_document path wa full Hdoc) as (evb & Htxt).
    destruct (process_email_run E m w wa eva path body wa evb _ wc evc data
                Hatt Hdl Htxt Hok Hllm) as (_ & Hr & _).
    unfold sink_call in Hsink. rewrite Hr.
    destruct data as [d|]; rewrite Hsink; reflexivity.
Qed.

End StageFacts.

(** Rows of the sinks, counted, whether the sinks exist or not. *)
Lemma total_rows_record w w' :
  sank_candidate w w' ∨ sank_rejection w w' →
  (total_rows w' = total_rows w + 1 ∨ total_rows w' = total_rows w + 2)%nat.
Proof.
  intros [[[x Hx] Ho]|[[x Hx] Ho]];
    unfold one_record_added, total_rows, rows_in in *;
    rewrite Hx, Ho.
  - destruct (sheets w !! candidates_file) as [rows|]; simpl;
      rewrite ?length_app; simpl; [left|right]; lia.
  - destruct (sheets w !! rejected_file) as [rows|]; simpl;
      rewrite ?length_app; simpl; [left|right]; lia.
Qed.

(* ====================================================================== *)
(** * The claims *)
(* ====================================================================== *)

(** C1. For a message whose attachment was downloaded and read, with [v]
    the result of the classifier: the extraction model is called by
    [extract_llm] exactly when [v] is a resume with a confidence other
    than low, and a candidate record is produced only then.  When [v] is
    not a resume, or is one with low confidence, [extract_llm] returns
    [None] without calling the extraction model, and [main] hands the
    message to the rejection sink: the rejected-applications spreadsheet
    is called, the candidates spreadsheet is neither called nor
    changed. *)
Theorem C1_extraction_gate (E : Env) (m : Email) (w wa wb wc : World)
    (eva evb evc : list event) (path body txt : string)
    (v : ResumeValidation) :
  attachments m ≠ [] →
  save_pdf E [m] default_save_path w = (wa, eva, Ret (path, body)) →
  extract_text_from_pdf E path wa = (wb, evb, Ret txt) →
  startswith "Error" txt = false →
  validate_resume E txt body wb = (wc, evc, Ret v) →
  let llm := extract_llm E body txt false wb in
  let o := process_email E m w in
  let sink := save_rejected_to_sheets E (sender m) rejected_document_type
                rejected_reason rejected_file wc in
  (invoked is_extractor_call (events_of llm) = true ↔
   is_resume v = true ∧ confidence v ≠ low) ∧
  (∀ d, result_of llm = Ret (Some d) →
        is_resume v = true ∧ confidence v ≠ low) ∧
  (is_resume v = false ∨ (is_resume v = true ∧ confidence v = low) →
   result_of llm = Ret None ∧
   invoked is_extractor_call (events_of llm) = false ∧
   invoked is_extractor_call (events_of o) = false ∧
   world_of o = world_of sink ∧
   invoked (is_sheet_call rejected_file) (events_of o) = true ∧
   invoked (is_sheet_call candidates_file) (events_of o) = false ∧
   sheets (world_of o) !! candidates_file = sheets w !! candidates_file).
Proof.
  intros Hatt Hdl Htxt Hok Hval llm o sink.
  destruct (extract_llm_gate E body txt wb wc evc v Hval) as [Hinv Hnone].
  fold llm in Hinv, Hnone.
  split; [|split].
  - rewrite Hinv. apply passes_policy_true.
  - intros d Hd. apply passes_policy_true.
    destruct (passes_policy v); [reflexivity|].
    rewrite (Hnone eq_refl) in Hd. discriminate.
  - intros Hrej. apply passes_policy_false in Hrej.
    destruct (process_email_rejects E m w wa eva path body wb evb txt wc evc v
                Hatt Hdl Htxt Hok Hval Hrej)
      as (Hw & _ & Hsh & Hx & Hcand & Hrj).
    fold o in Hw, Hx, Hcand, Hrj. fold sink in Hw.
    repeat split; auto.
    + rewrite Hinv. exact Hrej.
    + rewrite Hw. unfold sink.
      rewrite save_rejected_other by exact candidates_not_rejected.
      rewrite Hsh. reflexivity.
Qed.

Lemma C1_witness :
  let o := process_email Demo.E_low (Demo.message "m1") Demo.w0 in
  result_of o = Ret Rejected ∧
  invoked is_extractor_call (events_of o) = false ∧
  invoked (is_sheet_call rejected_file) (events_of o) = true ∧
  invoked (is_sheet_call candidates_file) (events_of o) = false ∧
  sheets (world_of o) !! candidates_file = None.
Proof.
  intros o.
  edestruct (C1_extraction_gate Demo.E_low (Demo.message "m1") Demo.w0)
    as (_ & _ & H).
  - discriminate.
  - vm_compute. reflexivity.
  - vm_compute. reflexivity.
  - vm_compute. reflexivity.
  - vm_compute. reflexivity.
  - destruct H as (_ & _ & Hx & _ & Hr & Hc & Hs).
    + right. split; reflexivity.
    + split; [vm_compute; reflexivity|].
      split; [exact Hx|]. split; [exact Hr|]. split; [exact Hc | exact Hs].
Defined.

(** C2, as the code has it. No exception leaves the processing of a
    message: the download, the reading of the document and the write to
    a sink are all caught inside the loop, which goes on with the next
    message from the world the failing one left.  In a batch of three
    messages with an attachment each, where no stage of the first and of
    the third raises and their text does not start with "Error", and
    where a stage of the second raises (the download, the reading of the
    document, or the write to a sink): the first and the third go
    through and each add exactly one record to one sink, preceded by the
    header of that sink when the write creates it, and leave the other
    sink alone; the second adds a record to neither sink.  When both
    spreadsheets exist already, the number of their rows grows by
    exactly one, by none and by exactly one; a sink that is created
    grows by two rows, its header and the record. *)
Theorem C2_batch_isolation (E : Env) :
  (∀ m w, ∃ out, result_of (process_email E m w) = Ret out) ∧
  (∀ ms w,
     result_of (for_each (process_email E) ms w) = Ret tt ∧
     world_of (for_each (process_email E) ms w)
     = fold_left (fun w m => world_of (process_email E m w)) ms w) ∧
  (∀ m1 m2 m3 w,
     let w1 := world_of (process_email E m1 w) in
     let w2 := world_of (process_email E m2 w1) in
     let w3 := world_of (process_email E m3 w2) in
     attachments m1 ≠ [] → attachments m2 ≠ [] → attachments m3 ≠ [] →
     no_stage_raises E m1 w → text_not_error E m1 w →
     a_stage_raises E m2 w1 →
     no_stage_raises E m3 w2 → text_not_error E m3 w2 →
     world_of (for_each (process_email E) [m1; m2; m3] w) = w3 ∧
     result_of (for_each (process_email E) [m1; m2; m3] w) = Ret tt ∧
     completed (result_of (process_email E m1 w)) ∧
     stage_raised (result_of (process_email E m2 w1)) ∧
     completed (result_of (process_email E m3 w2)) ∧
     (sank_candidate w w1 ∨ sank_rejection w w1) ∧
     sank_nothing w1 w2 ∧
     (sank_candidate w2 w3 ∨ sank_rejection w2 w3) ∧
     (total_rows w1 = total_rows w + 1 ∨
      total_rows w1 = total_rows w + 2)%nat ∧
     (total_rows w3 = total_rows w2 + 1 ∨
      total_rows w3 = total_rows w2 + 2)%nat ∧
     (is_Some (sheets w !! candidates_file) →
      is_Some (sheets w !! rejected_file) →
      total_rows w1 = total_rows w + 1 ∧
      total_rows w2 = total_rows w1 ∧
      total_rows w3 = total_rows w2 + 1)).
Proof.
  split; [|split].
  - intros m w. destruct (process_email_sinks E m w) as (out & Hr & _).
    eauto.
  - intros ms w. destruct (for_each_process_email E ms w) as [Hw Hr].
    split; assumption.
  - intros m1 m2 m3 w w1 w2 w3 A1 A2 A3 N1 T1 R2 N3 T3.
    destruct (for_each_process_email E [m1; m2; m3] w) as [Hw Hr].
    pose proof (no_stage_raises_completed E m1 w A1 N1 T1) as H1.
    pose proof (a_stage_raises_stage_raised E m2 w1 A2 R2) as H2.
    pose proof (no_stage_raises_completed E m3 w2 A3 N3 T3) as H3.
    pose proof (completed_sank E m1 w H1) as S1.
    pose proof (stage_raised_sank_nothing E m2 w1 H2) as S2.
    pose proof (completed_sank E m3 w2 H3) as S3.
    fold w1 in S1. fold w2 in S2. fold w3 in S3.
    split; [exact Hw|]. split; [exact Hr|]. split; [exact H1|].
    split; [exact H2|]. split; [exact H3|]. split; [exact S1|].
    split; [exact S2|]. split; [exact S3|].
    split; [exact (total_rows_record w w1 S1)|].
    split; [exact (total_rows_record w2 w3 S3)|].
    intros Hc Hj.
    destruct (total_rows_sank_one w w1 Hc Hj S1) as (T1' & Hc1 & Hj1).
    destruct (total_rows_sank_nothing w1 w2 Hc1 Hj1 S2) as (T2 & Hc2 & Hj2).
    destruct (total_rows_sank_one w2 w3 Hc2 Hj2 S3) as (T3' & _).
    auto.
Qed.

Lemma C2_witness :
  let batch := [Demo.message "m1"; Demo.message "m2"; Demo.message "m3"] in
  let w3 := world_of (for_each (process_email Demo.E_batch) batch
                        Cases.w_sheets) in
  result_of (for_each (process_email Demo.E_batch) batch Cases.w_sheets)
  = Ret tt ∧
  sheets w3 !! candidates_file
  = Some [candidate_headers; candidate_row (model_dump Demo.jane);
          candidate_row (model_dump Demo.jane)] ∧
  sheets w3 !! rejected_file = Some [rejected_headers] ∧
  total_rows w3 = (total_rows Cases.w_sheets + 2)%nat.
Proof.
  intros batch w3.
  destruct (C2_batch_isolation Demo.E_batch) as (_ & _ & H).
  destruct (H (Demo.message "m1") (Demo.message "m2") (Demo.message "m3")
              Cases.w_sheets)
    as (Hw & Hr & _ & _ & _ & _ & _ & _ & _ & _ & Hrows).
  - discriminate.
  - discriminate.
  - discriminate.
  - do 8 eexists.
    split; [vm_compute; reflexivity|]. split; [vm_compute; reflexivity|].
    split; [vm_compute; reflexivity|]. vm_compute. reflexivity.
  - intros wa eva path body full Hdl Hdoc.
    vm_compute in Hdl. inversion Hdl; subst. clear Hdl.
    vm_compute in Hdoc. inversion Hdoc; subst. vm_compute. reflexivity.
  - right. left. do 5 eexists.
    split; [vm_compute; reflexivity|]. vm_compute. reflexivity.
  - do 8 eexists.
    split; [vm_compute; reflexivity|]. split; [vm_compute; reflexivity|].
    split; [vm_compute; reflexivity|]. vm_compute. reflexivity.
  - intros wa eva path body full Hdl Hdoc.
    vm_compute in Hdl. inversion Hdl; subst. clear Hdl.
    vm_compute in Hdoc. inversion Hdoc; subst. vm_compute. reflexivity.
  - split; [exact Hr|]. unfold w3, batch. rewrite Hw.
    split; [vm_compute; reflexivity|]. split; [vm_compute; reflexivity|].
    destruct Hrows as (R1 & R2 & R3);
      [vm_compute; eauto | vm_compute; eauto |].
    rewrite R3, R2, R1. lia.
Defined.

(** C2, as the specification words it, fails.  In the first batch no
    stage of messages 1 and 3 raises and the document of message 2
    cannot be read, yet message 1 adds two rows, the header and its
    record, to a sink that was absent.  In the second batch the download
    and the reading of the document of message 1 raise nothing, but its
    text starts with "Error": message 1 does not complete and adds no
    row.  In the third batch the write of message 2 raises at its
    record, after it created the sink of rejections and wrote the
    header: message 2 leaves a row in a sink. *)
Lemma C2_counterexample :
  let m1 := Demo.message "m1" in
  let m2 := Demo.message "m2" in
  let m3 := Demo.message "m3" in
  (let E := Demo.E_batch in
   let w1 := world_of (process_email E m1 Demo.w0) in
   let w2 := world_of (process_email E m2 w1) in
   no_stage_raises E m1 Demo.w0 ∧
   extraction_raises E m2 w1 ∧
   no_stage_raises E m3 w2 ∧
   total_rows Demo.w0 = 0%nat ∧
   total_rows w1 = 2%nat ∧
   total_rows w1 ≠ (total_rows Demo.w0 + 1)%nat) ∧
  (let E := Cases2.E_error_then_unreadable in
   let w1 := world_of (process_email E m1 Demo.w0) in
   (∃ wa eva path body full,
      save_pdf E [m1] default_save_path Demo.w0 = (wa, eva, Ret (path, body)) ∧
      read_document E wa path = Ret full) ∧
   extraction_raises E m2 w1 ∧
   result_of (process_email E m1 Demo.w0) = Ret ExtractionFailed ∧
   ¬ completed (result_of (process_email E m1 Demo.w0)) ∧
   total_rows w1 = total_rows Demo.w0) ∧
  (let E := Cases2.E_record_write_down in
   let w1 := world_of (process_email E m1 Demo.w0) in
   let w2 := world_of (process_email E m2 w1) in
   no_stage_raises E m1 Demo.w0 ∧
   sink_write_raises E m2 w1 ∧
   no_stage_raises E m3 w2 ∧
   result_of (process_email E m2 w1) = Ret Failed ∧
   sheets w1 !! rejected_file = None ∧
   sheets w2 !! rejected_file = Some [rejected_headers] ∧
   total_rows w2 = (total_rows w1 + 1)%nat).
Proof.
  intros m1 m2 m3. split; [|split].
  - intros E w1 w2.
    split.
    { do 8 eexists.
      split; [vm_compute; reflexivity|]. split; [vm_compute; reflexivity|].
      split; [vm_compute; reflexivity|]. vm_compute. reflexivity. }
    split.
    { do 5 eexists.
      split; [vm_compute; reflexivity|]. vm_compute. reflexivity. }
    split.
    { do 8 eexists.
      split; [vm_compute; reflexivity|]. split; [vm_compute; reflexivity|].
      split; [vm_compute; reflexivity|]. vm_compute. reflexivity. }
    split; [vm_compute; reflexivity|]. split; [vm_compute; reflexivity|].
    vm_compute. discriminate.
  - intros E w1.
    split.
    { do 5 eexists.
      split; [vm_compute; reflexivity|]. vm_compute. reflexivity. }
    split.
    { do 5 eexists.
      split; [vm_compute; reflexivity|]. vm_compute. reflexivity. }
    split; [vm_compute; reflexivity|].
    split; [|vm_compute; reflexivity].
    intros [H|H]; vm_compute in H; discriminate H.
  - intros E w1 w2.
    split.
    { do 8 eexists.
      split; [vm_compute; reflexivity|]. split; [vm_compute; reflexivity|].
      split; [vm_compute; reflexivity|]. vm_compute. reflexivity. }
    split.
    { do 8 eexists.
      split; [vm_compute; reflexivity|]. split; [vm_compute; reflexivity|].
      split; [vm_compute; reflexivity|].
      split; [vm_compute; reflexivity|]. vm_compute. reflexivity. }
    split.
    { do 8 eexists.
      split; [vm_compute; reflexivity|]. split; [vm_compute; reflexivity|].
      split; [vm_compute; reflexivity|]. vm_compute. reflexivity. }
    split; [vm_compute; reflexivity|]. split; [vm_compute; reflexivity|].
    split; vm_compute; reflexivity.
Qed.

(** C3, as the code has it. One pass of [main] never raises.  When the
    search of the mailbox fails, [search_gmail] catches the failure and
    returns no message: the pass logs that nothing was found and returns
    at once, with no other call made and the world otherwise unchanged.
    When no message can be read, the pass returns as well.  So the
    wrapper of the scheduler sees a pass that returned. *)
Theorem C3_pass_never_raises (E : Env) (w : World) :
  (∃ w' ev, main_body E w = (w', ev, Ret tt)) ∧
  (∀ tr, snd (main_func E (w, tr)) = Ret tt) ∧
  (∀ msg,
     api_fault E (tick w) = Some msg →
     main_body E w
     = (bump w,
        [Log INFO "Starting main agent workflow";
         Log INFO "Starting Gmail search for application emails with attachments";
         Call (GmailSearch "subject:application has:attachment");
         Log ERROR ("Error during Gmail search: " +:+ msg);
         Log INFO "No new application emails found. Exiting."],
        Ret tt)) ∧
  (∀ ids w1 ev1 w2 ev2,
     search_gmail E w = (w1, ev1, Ret ids) →
     read_email E ids w1 = (w2, ev2, Ret []) →
     world_of (main_body E w) = w2 ∧ sheets w2 = sheets w).
Proof.
  assert (Hret : ∃ w' ev, main_body E w = (w', ev, Ret tt)).
  { destruct (never_raises_run (main_body E) w (never_raises_main_body E))
      as (w' & ev & [] & H). eauto. }
  split; [exact Hret|]. split; [|split].
  - intros tr. unfold main_func. simpl.
    destruct Hret as (w' & ev & H). rewrite H. reflexivity.
  - intros msg Hf. unfold main_body, search_gmail.
    cbv beta iota zeta delta [bind try_catch log ret raise remote].
    rewrite Hf. reflexivity.
  - intros ids w1 ev1 w2 ev2 Hs Hrd.
    pose proof (keeps_sheets_run _ _ _ _ _ (keeps_sheets_search_gmail E) Hs)
      as K1.
    pose proof (keeps_sheets_run _ _ _ _ _ (keeps_sheets_read_email E ids) Hrd)
      as K2.
    split; [|congruence].
    unfold main_body.
    cbv beta iota zeta delta [bind log ret world_of fst].
    rewrite Hs. destruct ids as [|i ids].
    + cbv beta iota. unfold read_email in Hrd. simpl in Hrd.
      inversion Hrd. reflexivity.
    + cbv beta iota. rewrite Hrd. reflexivity.
Qed.

Lemma C3_witness :
  main_body Demo.E_down Demo.w0
  = (bump Demo.w0,
     [Log INFO "Starting main agent workflow";
      Log INFO "Starting Gmail search for application emails with attachments";
      Call (GmailSearch "subject:application has:attachment");
      Log ERROR "Error during Gmail search: 503 Service Unavailable";
      Log INFO "No new application emails found. Exiting."],
     Ret tt).
Proof.
  destruct (C3_pass_never_raises Demo.E_down Demo.w0) as (_ & _ & H & _).
  apply (H "503 Service Unavailable"). reflexivity.
Defined.

(** C3, as the specification words it, fails: the search of the mailbox
    fails, yet the pass returns and raises nothing to the wrapper. *)
Lemma C3_counterexample :
  (∃ e, result_of (remote Demo.E_down
                     (GmailSearch "subject:application has:attachment")
                     Demo.w0) = Raise e) ∧
  result_of (search_gmail Demo.E_down Demo.w0) = Ret [] ∧
  result_of (main_body Demo.E_down Demo.w0) = Ret tt ∧
  ¬ (∃ e, result_of (main_body Demo.E_down Demo.w0) = Raise e).
Proof.
  split; [eexists; vm_compute; reflexivity|].
  split; [vm_compute; reflexivity|].
  split; [vm_compute; reflexivity|].
  intros [e H]. vm_compute in H. discriminate H.
Qed.

(** C4. When the call of the classifier raises, whatever the exception,
    [validate_resume] does not raise: it returns the conservative reject,
    not a resume, with low confidence. *)
Theorem C4_classifier_failure_is_reject (E : Env)
    (pdf_text email_body : string) (w : World) (e : exn) :
  let preview := if (1000 <? String.length pdf_text)%nat
                 then take_str 1000 pdf_text else pdf_text in
  result_of (remote E (LlmInvoke ResumeValidationSchema
                         (take_str 500 email_body) preview) w) = Raise e →
  ∃ w' ev v,
    validate_resume E pdf_text email_body w = (w', ev, Ret v) ∧
    v = mkResumeValidation false low "unknown"
          ("Validation error: " +:+ str_exn e) ∧
    is_resume v = false ∧ confidence v = low ∧ passes_policy v = false.
Proof.
  intros preview Hraise. unfold validate_resume. fold preview.
  cbv beta iota zeta delta [bind try_catch log ret raise].
  unfold result_of in Hraise.
  destruct (remote E (LlmInvoke ResumeValidationSchema
                        (take_str 500 email_body) preview) w)
    as [[w1 ev1] [n|e']]; simpl in Hraise; [discriminate|].
  inversion Hraise; subst e'.
  do 3 eexists. split; [reflexivity|]. repeat split.
Qed.

Lemma C4_witness :
  ∃ w' ev,
    validate_resume Demo.E_down Demo.resume_text "Please find my resume"
      Demo.w0
    = (w', ev,
       Ret (mkResumeValidation false low "unknown"
              "Validation error: 503 Service Unavailable")).
Proof.
  edestruct (C4_classifier_failure_is_reject Demo.E_down Demo.resume_text
               "Please find my resume" Demo.w0)
    as (w' & ev & v & Hrun & Hv & _).
  - vm_compute. reflexivity.
  - exists w', ev. rewrite Hrun, Hv. reflexivity.
Defined.

(** C5. The rejection row does not carry the document type the
    classifier produced, as the claim and the docstring of
    [save_rejected_to_sheets] ("Type of document detected (cover_letter,
    invoice, etc.)") say it does: here the classifier says "invoice" for
    every document, the message is rejected and its rejection is written,
    and the row holds "non-resume" in the place of the document type. *)
Theorem C5_detected_type_is_dropped :
  let o := process_email Demo.E_invoice (Demo.message "m1") Demo.w0 in
  (∀ n email_content preview,
     document_type (classifier Demo.E_invoice n email_content preview)
     = "invoice" ∧
     passes_policy (classifier Demo.E_invoice n email_content preview)
     = false) ∧
  result_of o = Ret Rejected ∧
  last (default [] (sheets (world_of o) !! rejected_file))
  = Some [VStr "2024-01-15 10:00:00"; VStr "m1@example.com";
          VStr "non-resume"; VStr "Failed resume validation check"] ∧
  ¬ (∃ ts reason,
       last (default [] (sheets (world_of o) !! rejected_file))
       = Some [VStr ts; VStr "m1@example.com"; VStr "invoice"; VStr reason]).
Proof.
  intros o.
  assert (Hlast : last (default [] (sheets (world_of o) !! rejected_file))
          = Some [VStr "2024-01-15 10:00:00"; VStr "m1@example.com";
                  VStr "non-resume"; VStr "Failed resume validation check"])
    by (vm_compute; reflexivity).
  split; [intros; split; reflexivity|].
  split; [vm_compute; reflexivity|].
  split; [exact Hlast|].
  intros (ts & reason & H). rewrite Hlast in H. discriminate H.
Qed.

(** C6, as the code has it. When a sink is written for the first time and
    its spreadsheet is absent, the spreadsheet is created, write access is
    granted to the collaborator, the fixed header is written and then the
    row, in this order.  The header of the accepted candidates is
    Name, Email, Phone, Skills, Experience, Status, Summary, questions;
    the header of the rejected applications is
    Timestamp, Sender, Document Type, Rejection Reason. *)
Theorem C6_first_use_creates_with_header (E : Env) (f : string)
    (w w' : World) (ev : list event) :
  sheets w !! f = None →
  (∀ data,
     save_to_sheets E data f w = (w', ev, Ret tt) →
     sheets w' !! f = Some [candidate_headers; candidate_row data] ∧
     shares w' = shares w ++ [mkShare f collaborator "user" "writer"] ∧
     calls_of ev = [SheetsOpen f; SheetsCreate f; SheetsShare f collaborator;
                    SheetsSheet1 f; SheetsAppend f candidate_headers;
                    SheetsAppend f (candidate_row data)]) ∧
  (∀ s d r,
     save_rejected_to_sheets E s d r f w = (w', ev, Ret tt) →
     sheets w' !! f
     = Some [rejected_headers;
             [VStr (now E (tick w)); VStr s; VStr d; VStr r]] ∧
     shares w' = shares w ++ [mkShare f collaborator "user" "writer"] ∧
     calls_of ev = [SheetsOpen f; SheetsCreate f; SheetsShare f collaborator;
                    SheetsSheet1 f; SheetsAppend f rejected_headers;
                    SheetsAppend f [VStr (now E (tick w)); VStr s; VStr d;
                                    VStr r]]) ∧
  candidate_headers
  = [VStr "Name"; VStr "Email"; VStr "Phone"; VStr "Skills";
     VStr "Experience"; VStr "Status"; VStr "Summary"; VStr "questions"] ∧
  rejected_headers
  = [VStr "Timestamp"; VStr "Sender"; VStr "Document Type";
     VStr "Rejection Reason"].
Proof.
  intros Hf. split; [|split; [|split; reflexivity]].
  - intros data H. exact (save_to_sheets_creates E data f w w' ev Hf H).
  - intros s d r H. exact (save_rejected_creates E s d r f w w' ev Hf H).
Qed.

Lemma C6_witness :
  sheets (world_of (save_to_sheets Demo.E_ok (model_dump Demo.jane)
                      candidates_file Demo.w0)) !! candidates_file
  = Some [candidate_headers; candidate_row (model_dump Demo.jane)].
Proof.
  eapply (C6_first_use_creates_with_header Demo.E_ok candidates_file Demo.w0).
  - reflexivity.
  - vm_compute. reflexivity.
Defined.

(** C6, as the specification words it, fails: the header written on first
    use is not Name, ..., Questions, and not Timestamp, Sender,
    DocumentType, RejectionReason. *)
Lemma C6_counterexample :
  let accepted :=
    save_to_sheets Demo.E_ok (model_dump Demo.jane) candidates_file Demo.w0 in
  let rejected :=
    save_rejected_to_sheets Demo.E_ok "m1@example.com" "invoice" "no resume"
      rejected_file Demo.w0 in
  Demo.w0.(sheets) !! candidates_file = None ∧
  Demo.w0.(sheets) !! rejected_file = None ∧
  result_of accepted = Ret tt ∧
  result_of rejected = Ret tt ∧
  head (default [] (sheets (world_of accepted) !! candidates_file))
    = Some candidate_headers ∧
  head (default [] (sheets (world_of rejected) !! rejected_file))
    = Some rejected_headers ∧
  candidate_headers ≠ Demo.spec_candidate_headers ∧
  rejected_headers ≠ Demo.spec_rejected_headers.
Proof.
  repeat split; try (vm_compute; reflexivity); discriminate.
Qed.

(** C7. Two calls of [save_to_sheets] that return, starting with the
    spreadsheet absent, leave exactly the header row followed by the two
    data rows, in the order of the calls: the header is written by the
    call that creates the spreadsheet and not again. *)
Theorem C7_header_written_once (E : Env) (data1 data2 : gmap string value)
    (f : string) (w w1 w2 : World) (ev1 ev2 : list event) :
  sheets w !! f = None →
  save_to_sheets E data1 f w = (w1, ev1, Ret tt) →
  save_to_sheets E data2 f w1 = (w2, ev2, Ret tt) →
  sheets w2 !! f
  = Some [candidate_headers; candidate_row data1; candidate_row data2] ∧
  calls_of ev2
  = [SheetsOpen f; SheetsSheet1 f; SheetsAppend f (candidate_row data2)].
Proof.
  intros Hf H1 H2.
  destruct (save_to_sheets_creates E data1 f w w1 ev1 Hf H1) as (Hs1 & _).
  destruct (save_to_sheets_appends E data2 f w1 w2 ev2 _ Hs1 H2)
    as (Hs2 & _ & Hc).
  split; [exact Hs2 | exact Hc].
Qed.

Lemma C7_witness :
  ∃ w2,
    world_of (save_to_sheets Demo.E_ok (model_dump Demo.john) candidates_file
                (world_of (save_to_sheets Demo.E_ok (model_dump Demo.jane)
                             candidates_file Demo.w0))) = w2 ∧
    sheets w2 !! candidates_file
    = Some [candidate_headers; candidate_row (model_dump Demo.jane);
            candidate_row (model_dump Demo.john)].
Proof.
  eexists. split; [vm_compute; reflexivity|].
  eapply (C7_header_written_once Demo.E_ok (model_dump Demo.jane)
            (model_dump Demo.john) candidates_file Demo.w0).
  - reflexivity.
  - vm_compute. reflexivity.
  - vm_compute. reflexivity.
Defined.

(** C8. In every cycle of the scheduler the wrapped function is attempted
    at most three times; a wait of 10 seconds occurs between two
    consecutive attempts and nowhere else, and the cycle ends with a wait
    of 3600 seconds whatever the outcome.  If the function fails on
    attempts 1 and 2 and succeeds on attempt 3, exactly two waits of 10
    seconds occur and the cycle is logged as successful.  The attempts and
    waits are those recorded by test doubles put around the clock, the
    sleep and the function, which do not change what the cycle does. *)
Theorem C8_retry_cycle {S : Type} (clock : S → S * string)
    (time_sleep : Z → S → S) (func : S → S * result unit)
    (s : S) (obs : list observation) (tr : list event) :
  let st := cycle clock time_sleep func (s, tr) in
  let st' := cycle (spy_clock clock) (spy_sleep time_sleep) (spy_func func)
                   ((s, obs), tr) in
  (fst (fst st') = fst st ∧ snd st' = snd st) ∧
  (∃ (failures : nat) new,
     (failures ≤ 3)%nat ∧
     snd (fst st') = obs ++ cycle_pattern failures ∧
     snd st' = tr ++ new ∧
     reported_successful new = (failures <? 3)%nat ∧
     (1 ≤ attempts_made (cycle_pattern failures) ≤ 3)%nat ∧
     waits (cycle_pattern failures) =
       repeat 10%Z (attempts_made (cycle_pattern failures) - 1) ++ [3600%Z]) ∧
  (∀ s1 e1 s2 e2 s3,
     func (fst (clock s)) = (s1, Raise e1) →
     func (time_sleep 10%Z s1) = (s2, Raise e2) →
     func (time_sleep 10%Z s2) = (s3, Ret tt) →
     snd (fst st') = obs ++ cycle_pattern 2 ∧
     waits (cycle_pattern 2) = [10; 10; 3600]%Z ∧
     ∃ new, snd st' = tr ++ new ∧ reported_successful new = true).
Proof.
  unfold cycle, spy_clock. cbn [fst snd].
  destruct (clock s) as [s0 ts] eqn:Hclock. cbn [fst snd].
  rewrite !attempts_unfold. unfold spy_func, spy_sleep. cbn [fst snd].
  destruct (func s0) as [s1 [[]|e1]] eqn:H1; simpl.
  { split; [auto|]. split.
    - exists 0, ([Log INFO ("========== Agent Scan Started: " +:+ ts
                            +:+ " =========="); success_line;
                  Log INFO "Agent going to sleep for 1 hour"; Sleep 3600]).
      rewrite <- !app_assoc. simpl. repeat split; auto; lia.
    - intros ? ? ? ? ? Ha Hb Hc. exfalso. congruence. }
  destruct (func (time_sleep 10%Z s1)) as [s2 [[]|e2]] eqn:H2; simpl.
  { split; [auto|]. split.
    - exists 1, ([Log INFO ("========== Agent Scan Started: " +:+ ts
                            +:+ " ==========");
                  Log ERROR ("Attempt 1/3 failed: " +:+ str_exn e1);
                  Sleep 10; success_line;
                  Log INFO "Agent going to sleep for 1 hour"; Sleep 3600]).
      rewrite <- !app_assoc. simpl. repeat split; auto; lia.
    - intros ? ? ? ? ? Ha Hb Hc. exfalso.
      inversion Ha; subst. congruence. }
  destruct (func (time_sleep 10%Z s2)) as [s3 [[]|e3]] eqn:H3; simpl.
  { split; [auto|]. split.
    - exists 2, ([Log INFO ("========== Agent Scan Started: " +:+ ts
                            +:+ " ==========");
                  Log ERROR ("Attempt 1/3 failed: " +:+ str_exn e1);
                  Sleep 10;
                  Log ERROR ("Attempt 2/3 failed: " +:+ str_exn e2);
                  Sleep 10; success_line;
                  Log INFO "Agent going to sleep for 1 hour"; Sleep 3600]).
      rewrite <- !app_assoc. simpl. repeat split; auto; lia.
    - intros ? ? ? ? ? _ _ _. rewrite <- !app_assoc. simpl.
      repeat split; auto.
      eexists. split; [reflexivity|]. reflexivity. }
  split; [auto|]. split.
  - exists 3, ([Log INFO ("========== Agent Scan Started: " +:+ ts
                          +:+ " ==========");
                Log ERROR ("Attempt 1/3 failed: " +:+ str_exn e1);
                Sleep 10;
                Log ERROR ("Attempt 2/3 failed: " +:+ str_exn e2);
                Sleep 10;
                Log ERROR ("Attempt 3/3 failed: " +:+ str_exn e3);
                giving_up_line;
                Log INFO "Agent going to sleep for 1 hour"; Sleep 3600]).
    rewrite <- !app_assoc. simpl. repeat split; auto; lia.
  - intros ? ? ? ? ? Ha Hb Hc. exfalso.
    inversion Ha; subst. rewrite H2 in Hb. inversion Hb; subst. congruence.
Qed.

Lemma C8_witness :
  let st' := cycle (spy_clock Demo.fixed_clock) (spy_sleep Demo.no_sleep)
                   (spy_func Demo.flaky) ((0, []), []) in
  snd (fst st')
  = [Attempted false; Waited 10; Attempted false; Waited 10;
     Attempted true; Waited 3600] ∧
  waits (cycle_pattern 2) = [10; 10; 3600]%Z ∧
  ∃ new, snd st' = new ∧ reported_successful new = true.
Proof.
  intros st'.
  destruct (C8_retry_cycle Demo.fixed_clock Demo.no_sleep Demo.flaky
              0 [] []) as (_ & _ & H).
  destruct (H 1 (Exn RemoteError "timeout") 2 (Exn RemoteError "timeout") 3)
    as (Hobs & Hwaits & new & Htr & Hok).
  - reflexivity.
  - reflexivity.
  - reflexivity.
  - split; [exact Hobs|]. split; [exact Hwaits|].
    exists new. split; [exact Htr | exact Hok].
Defined.

(** C9. [extract_text_from_pdf] never raises, whatever the path, and
    changes nothing.  When the file is there and all its pages can be
    read, it returns their text, concatenated, with every run of
    whitespace collapsed to one space (none at either end) and all other
    characters kept.  When the file is missing or cannot be read, it
    returns a string that starts with "Error". *)
Theorem C9_extract_text_never_raises (E : Env) (pdf_path : string)
    (w : World) :
  ∃ ev s,
    extract_text_from_pdf E pdf_path w = (w, ev, Ret s) ∧
    match read_document E w pdf_path with
    | Ret full =>
        s = join " " (split full) ∧
        single_spaced s = true ∧
        strip_ws s = strip_ws full
    | Raise e =>
        s = failure_marker pdf_path e ∧ startswith "Error" s = true
    end ∧
    (files w !! pdf_path = None →
     s = "Error: PDF file not found at " +:+ pdf_path) ∧
    (∀ bytes texts,
       files w !! pdf_path = Some bytes →
       pdf_reader E bytes = Ret (map Ret texts) →
       s = join " " (split (String.concat EmptyString
                              (map (fun t => t +:+ LF) texts)))).
Proof.
  destruct (extract_text_run E pdf_path w) as (ev & Hrun).
  eexists ev, _. split; [exact Hrun|].
  split; [|split].
  - destruct (read_document E w pdf_path) as [full|e].
    + destruct (normalised_text full) as [Hs Hw]. auto.
    + split; [reflexivity | apply startswith_failure_marker].
  - intros Hnone. unfold read_document. rewrite Hnone. reflexivity.
  - intros bytes texts Hsome Hpages. unfold read_document.
    rewrite Hsome, Hpages, pages_text_all. reflexivity.
Qed.

Lemma C9_witness :
  ∃ ev,
    extract_text_from_pdf Demo.E_ok "resume.pdf"
      (set_files (insert "resume.pdf" "%PDF-1.4") Demo.w0)
    = (set_files (insert "resume.pdf" "%PDF-1.4") Demo.w0, ev,
       Ret "Jane Roe Skills: Python, SQL Experience: 2 years").
Proof.
  destruct (C9_extract_text_never_raises Demo.E_ok "resume.pdf"
              (set_files (insert "resume.pdf" "%PDF-1.4") Demo.w0))
    as (ev & s & Hrun & _ & _ & Hs).
  exists ev. rewrite Hrun.
  rewrite (Hs "%PDF-1.4" [Demo.resume_text]);
    [reflexivity | reflexivity | reflexivity].
Defined.

(** C10. The failure marker of the extraction is the prefix "Error" of an
    ordinary string.  A message whose PDF is read without failure, but
    whose normalised text starts with "Error", is taken for a failed
    extraction: it is skipped, neither model is called, no spreadsheet is
    called, and both sinks stay as they were. *)
Theorem C10_error_prefix_shadows_success (E : Env) (m : Email)
    (w wa : World) (eva : list event) (path body full : string) :
  attachments m ≠ [] →
  save_pdf E [m] default_save_path w = (wa, eva, Ret (path, body)) →
  read_document E wa path = Ret full →
  startswith "Error" (join " " (split full)) = true →
  let o := process_email E m w in
  result_of (extract_text_from_pdf E path wa) = Ret (join " " (split full)) ∧
  result_of o = Ret ExtractionFailed ∧
  sheets (world_of o) = sheets w ∧
  invoked is_llm_call (events_of o) = false ∧
  (∀ f, invoked (is_sheet_call f) (events_of o) = false).
Proof.
  intros Hatt Hdl Hdoc Herr o.
  destruct (extract_text_run E path wa) as (evb & Htxt).
  rewrite Hdoc in Htxt.
  pose proof (process_email_extraction_failed E m w wa eva path body wa evb _
                Hatt Hdl Htxt Herr) as Hrun.
  fold o in Hrun.
  assert (Ha : forallb (calls_within is_mail_or_disk_call) eva = true)
    by exact (only_calls_run _ _ _ _ _ _ (only_calls_save_pdf E _ _) Hdl).
  assert (Hb : forallb (calls_within no_call) evb = true)
    by exact (only_calls_run _ _ _ _ _ _ (only_calls_extract_text E _) Htxt).
  assert (Hinv : ∀ p,
    (∀ c, is_mail_or_disk_call c = true → p c = false) →
    invoked p (events_of o) = false).
  { intros p Hp. rewrite Hrun. unfold events_of. simpl.
    rewrite invoked_cons_log, !invoked_app.
    rewrite (only_calls_not_invoked is_mail_or_disk_call p eva Hp Ha).
    rewrite (only_calls_not_invoked no_call p evb); [|call_classes|exact Hb].
    reflexivity. }
  split; [rewrite Htxt; reflexivity|].
  split; [rewrite Hrun; reflexivity|].
  split.
  - rewrite Hrun. simpl.
    exact (keeps_sheets_run _ _ _ _ _ (keeps_sheets_save_pdf E _ _) Hdl).
  - split; [apply Hinv; call_classes|].
    intros f. apply Hinv. call_classes.
Qed.

Lemma C10_witness :
  let o := process_email Demo.E_error_word (Demo.message "m1") Demo.w0 in
  result_of (extract_text_from_pdf Demo.E_error_word ".\downloads/m1.pdf"
               (world_of (save_pdf Demo.E_error_word [Demo.message "m1"]
                            default_save_path Demo.w0)))
  = Ret "Error handling specialist Skills: Erlang, Go" ∧
  result_of o = Ret ExtractionFailed ∧
  sheets (world_of o) = ∅.
Proof.
  intros o.
  edestruct (C10_error_prefix_shadows_success Demo.E_error_word
               (Demo.message "m1") Demo.w0) as (Htxt & Hres & Hsheets & _).
  - discriminate.
  - vm_compute. reflexivity.
  - vm_compute. reflexivity.
  - vm_compute. reflexivity.
  - split; [exact Htxt|]. split; [exact Hres | exact Hsheets].
Defined.

Section BodyProperties.

Variable E : Env.

Lemma get_email_body_run (payload : Payload) (w : World) :
  ∃ ev,
    get_email_body E payload w
    = (w, ev,
       Ret match body_source payload with
           | Some (Some d) => default EmptyString (decoded E d)
           | _ => EmptyString
           end) ∧
    (body_source payload = None → ev = []).
Proof.
  unfold get_email_body, body_source, decoded, urlsafe_b64decode, decode_utf8.
  destruct (truthy (payload_body_data payload)) eqn:Htr.
  - destruct (payload_body_data payload) as [d|]; [|discriminate].
    simpl default.
    cbv beta iota zeta delta [bind try_catch log ret raise].
    destruct (b64decode E d) as [b|]; cbv beta iota zeta delta [ret raise].
    + destruct (utf8_decode E b) as [t|]; cbv beta iota zeta delta [ret raise];
        eexists; (split; [reflexivity | discriminate]).
    + eexists. split; [reflexivity | discriminate].
  - destruct (List.find _ (parts payload)) as [part|].
    + destruct (part_body_data part) as [d|].
      * cbv beta iota zeta delta [bind try_catch log ret raise].
        destruct (b64decode E d) as [b|]; cbv beta iota zeta delta [ret raise].
        -- destruct (utf8_decode E b) as [t|];
             cbv beta iota zeta delta [ret raise];
             eexists; (split; [reflexivity | discriminate]).
        -- eexists. split; [reflexivity | discriminate].
      * cbv beta iota zeta delta [bind try_catch log ret raise].
        eexists. split; [reflexivity | discriminate].
    + cbv beta iota zeta delta [bind try_catch log ret raise].
      eexists. split; [reflexivity | reflexivity].
Qed.

(** X2. [get_email_body] never raises and changes nothing.  Body data of
    the payload itself, when there is any, is what is decoded, whatever
    the parts hold; without it the data of the first text/plain part is
    decoded; without either the body is empty.  Data that is missing or
    cannot be decoded gives the empty body. *)
Theorem X2_get_email_body (payload : Payload) (w : World) :
  ∃ ev s,
    get_email_body E payload w = (w, ev, Ret s) ∧
    (∀ d, payload_body_data payload = Some d → d ≠ EmptyString →
          s = default EmptyString (decoded E d)) ∧
    (truthy (payload_body_data payload) = false →
     ∀ part,
       List.find (fun p => String.eqb (part_mimeType p) "text/plain")
                 (parts payload) = Some part →
       s = match part_body_data part with
           | Some d => default EmptyString (decoded E d)
           | None => EmptyString
           end) ∧
    (truthy (payload_body_data payload) = false →
     (∀ part, In part (parts payload) →
              part_mimeType part ≠ "text/plain") →
     s = EmptyString ∧ ev = []).
Proof.
  destruct (get_email_body_run payload w) as (ev & Hrun & Hev).
  exists ev. eexists. split; [exact Hrun|].
  unfold body_source in *. split; [|split].
  - intros d Hd Hne. rewrite Hd. simpl.
    destruct d; [congruence|]. reflexivity.
  - intros Htr part Hfind. rewrite Htr, Hfind. reflexivity.
  - intros Htr Hno. rewrite Htr in *.
    destruct (List.find _ (parts payload)) as [part|] eqn:Hfind.
    + exfalso. apply find_some in Hfind as [Hin Heq].
      apply String.eqb_eq in Heq. exact (Hno _ Hin Heq).
    + split; [reflexivity | apply Hev; reflexivity].
Qed.

End BodyProperties.

Lemma X2_witness :
  ∃ ev,
    get_email_body Demo.E_ok (Demo.payload_of "m1") Demo.w0
    = (Demo.w0, ev, Ret "Please find my resume attached.").
Proof.
  destruct (X2_get_email_body Demo.E_ok (Demo.payload_of "m1") Demo.w0)
    as (ev & s & Hrun & _ & Hpart & _).
  exists ev. rewrite Hrun.
  rewrite (Hpart eq_refl
             (mkPart None "text/plain"
                     (Some "Please find my resume attached.") None) eq_refl).
  reflexivity.
Defined.

Section MailboxProperties.

Variable E : Env.

Lemma files_found_named ps :
  Forall (fun a => filename a ≠ EmptyString) (files_found ps).
Proof.
  induction ps as [|p ps IH]; simpl; [constructor|].
  destruct (part_filename p) as [n|] eqn:Hn; simpl; [|exact IH].
  destruct n as [|c n]; simpl; [exact IH|].
  constructor; [discriminate | exact IH].
Qed.

(** The loop of [read_email]: every message costs one call, and the list
    gets the entries of the messages whose call did not fail. *)
Lemma read_loop_exact ids : ∀ content w,
  ∃ w' ev,
    read_loop E ids content w
    = (w', ev,
       Ret (content
            ++ map (fun p => entry_of E (fst p) (snd p))
                   (fetched E (tick w) ids))) ∧
    tick w' = (tick w + length ids)%nat.
Proof.
  induction ids as [|i ids IH]; intros content w.
  - exists w, []. simpl. rewrite app_nil_r. split; [reflexivity | lia].
  - cbn [read_loop fetched].
    cbv beta iota zeta delta [bind try_catch log ret raise remote].
    destruct (api_fault E (tick w)) as [msg|] eqn:Hf; cbv beta iota.
    + destruct (IH content (bump w)) as (w' & ev & Hrun & Ht).
      rewrite Hrun. do 2 eexists. split; [reflexivity|].
      rewrite Ht. simpl. lia.
    + destruct (get_email_body_run E (mailbox E (tick w) i) (bump w))
        as (evb & Hb & _).
      rewrite Hb. cbv beta iota.
      destruct (IH (content ++ [entry_of E (tick w) i]) (bump w))
        as (w' & ev & Hrun & Ht).
      match goal with
      | |- context [read_loop E ids ?c (bump w)] =>
          change c with (content ++ [entry_of E (tick w) i])
      end.
      rewrite Hrun. do 2 eexists. split.
      * rewrite <- (app_assoc content [entry_of E (tick w) i]). reflexivity.
      * rewrite Ht. simpl. lia.
Qed.

(** [fetched] holds the messages whose call did not fail, with the
    number of that call. *)
Lemma fetched_spec ids : ∀ t n i,
  (n, i) ∈ fetched E t ids ↔
  ∃ k, ids !! k = Some i ∧ n = (t + k)%nat ∧ api_fault E (t + k) = None.
Proof.
  induction ids as [|j ids IH]; intros t n i; cbn [fetched].
  - split; [intros H; inversion H | intros (k & H & _); discriminate H].
  - assert (Hrest : (n, i) ∈ fetched E (Datatypes.S t) ids ↔
                    ∃ k, ids !! k = Some i ∧ n = (t + Datatypes.S k)%nat ∧
                         api_fault E (t + Datatypes.S k) = None).
    { rewrite IH. split; intros (k & H1 & H2 & H3); exists k;
        (split; [exact H1|]); replace (t + Datatypes.S k)%nat
          with (Datatypes.S t + k)%nat in * by lia; auto. }
    destruct (api_fault E t) as [msg|] eqn:Hf.
    + rewrite Hrest. split.
      * intros (k & H1 & H2 & H3). exists (Datatypes.S k). auto.
      * intros ([|k] & H1 & H2 & H3).
        -- rewrite Nat.add_0_r in H3. congruence.
        -- exists k. auto.
    + rewrite elem_of_cons, Hrest. split.
      * intros [H|(k & H1 & H2 & H3)].
        -- inversion H; subst. exists 0%nat.
           rewrite Nat.add_0_r. auto.
        -- exists (Datatypes.S k). auto.
      * intros ([|k] & H1 & H2 & H3).
        -- left. simpl in H1. inversion H1; subst.
           rewrite Nat.add_0_r. reflexivity.
        -- right. exists k. auto.
Qed.

Lemma fetched_sublist ids : ∀ t,
  sublist (map snd (fetched E t ids)) ids.
Proof.
  induction ids as [|i ids IH]; intros t; cbn [fetched].
  - constructor.
  - destruct (api_fault E t).
    + apply sublist_cons. apply IH.
    + cbn [map snd]. apply sublist_skip. apply IH.
Qed.

Lemma fetched_all ids : ∀ t,
  (∀ n, api_fault E n = None) → map snd (fetched E t ids) = ids.
Proof.
  induction ids as [|i ids IH]; intros t Hno; cbn [fetched]; [reflexivity|].
  rewrite Hno. cbn [map snd]. rewrite (IH _ Hno). reflexivity.
Qed.

(** X1. [read_email] never raises and makes one call per message.  The
    entries it returns are exactly those of the messages whose call did
    not fail, in the order of [msg_ids]: a message that cannot be
    fetched is skipped and the loop goes on with the next.  So the ids
    returned are a sublist of [msg_ids], every message is returned when
    no call fails, and every attachment listed has a name. *)
Theorem X1_read_email_keeps_order (msg_ids : list string) (w : World) :
  ∃ content,
    result_of (read_email E msg_ids w) = Ret content ∧
    content = map (fun p => entry_of E (fst p) (snd p))
                  (fetched E (tick w) msg_ids) ∧
    map id content = map snd (fetched E (tick w) msg_ids) ∧
    (∀ n i, (n, i) ∈ fetched E (tick w) msg_ids ↔
            ∃ k, msg_ids !! k = Some i ∧ n = (tick w + k)%nat ∧
                 api_fault E (tick w + k) = None) ∧
    tick (world_of (read_email E msg_ids w))
    = (tick w + length msg_ids)%nat ∧
    sublist (map id content) msg_ids ∧
    (length content ≤ length msg_ids)%nat ∧
    Forall named_attachments content ∧
    ((∀ n, api_fault E n = None) → map id content = msg_ids).
Proof.
  destruct (read_loop_exact msg_ids [] w) as (w' & ev & Hrun & Ht).
  simpl in Hrun.
  assert (Hids : map id (map (fun p => entry_of E (fst p) (snd p))
                             (fetched E (tick w) msg_ids))
                 = map snd (fetched E (tick w) msg_ids)).
  { rewrite map_map. apply map_ext. intros [n i]. reflexivity. }
  eexists. split; [|split; [reflexivity|]].
  - unfold read_email.
    cbv beta iota zeta delta [bind log ret result_of].
    rewrite Hrun. reflexivity.
  - split; [exact Hids|]. split; [apply fetched_spec|].
    split.
    { unfold read_email.
      cbv beta iota zeta delta [bind log ret world_of fst].
      rewrite Hrun. exact Ht. }
    rewrite Hids.
    split; [apply fetched_sublist|].
    split.
    { pose proof (sublist_length _ _ (fetched_sublist msg_ids (tick w))) as H.
      rewrite !length_map in *. exact H. }
    split; [|apply fetched_all].
    apply Forall_map. apply Forall_forall. intros [n i] _.
    apply files_found_named.
Qed.

End MailboxProperties.

Lemma X1_witness :
  ∃ content,
    result_of (read_email Demo.E_down ["m1"; "m2"; "m3"] Demo.w0)
    = Ret content ∧
    map id content = ["m2"; "m3"].
Proof.
  destruct (X1_read_email_keeps_order Demo.E_down ["m1"; "m2"; "m3"] Demo.w0)
    as (content & Hr & _ & Hids & _).
  exists content. split; [exact Hr|]. rewrite Hids. reflexivity.
Defined.

Section DownloadProperties.

Variable E : Env.

Ltac run_dl :=
  cbv beta iota zeta delta [bind try_catch log ret raise remote modify
    urlsafe_b64decode];
  repeat (match goal with
          | |- context [api_fault E ?n] =>
              destruct (api_fault E n) eqn:?; cbv beta iota
          | |- context [b64decode E ?d] =>
              destruct (b64decode E d) eqn:?;
              cbv beta iota zeta delta [ret raise]
          end).

Lemma save_pdf_first_only (c : Email) (rest : list Email)
    (save_path : string) (w : World) :
  save_pdf E (c :: rest) save_path w
  = save_pdf E [first_attachment_only c] save_path w.
Proof.
  unfold save_pdf, first_attachment_only. simpl.
  destruct (attachments c) as [|a more]; reflexivity.
Qed.

(** X3. Only the first attachment of the first email is ever looked at:
    [save_pdf] does the same with further emails and further attachments
    removed, and so does one turn of the loop of [main]. *)
Theorem X3_first_attachment_only (c : Email) (rest : list Email)
    (save_path : string) (w : World) :
  save_pdf E (c :: rest) save_path w
  = save_pdf E [first_attachment_only c] save_path w ∧
  process_email E c w = process_email E (first_attachment_only c) w.
Proof.
  split; [apply save_pdf_first_only|].
  unfold process_email, process_email_try.
  change (sender (first_attachment_only c)) with (sender c).
  change (attachments (first_attachment_only c))
    with (take 1 (attachments c)).
  destruct (attachments c) as [|a more] eqn:Hatt; [reflexivity|].
  cbn [take].
  cbv beta iota zeta delta [bind try_catch log ret raise].
  rewrite (save_pdf_first_only c [] default_save_path). reflexivity.
Qed.

(** X4. Without an email, or with an email without attachment,
    [save_pdf] raises [ValueError] after creating the directory: no
    message is fetched and no file is written. *)
Theorem X4_save_pdf_nothing_to_save (contents : list Email)
    (save_path : string) (w : World) :
  api_fault E (tick w) = None →
  contents = [] ∨ (∃ c rest, contents = c :: rest ∧ attachments c = []) →
  ∃ ev msg,
    save_pdf E contents save_path w = (bump w, ev, Raise (Exn ValueError msg)) ∧
    calls_of ev = [MakeDirs save_path] ∧
    msg = match contents with
          | [] => "No email contents to process"
          | _ => "No attachments in email"
          end.
Proof.
  intros Hf [->|(c & rest & -> & Hatt)]; unfold save_pdf; try rewrite Hatt;
    cbv beta iota zeta delta [bind try_catch log ret raise remote];
    rewrite Hf; do 2 eexists; (split; [reflexivity|]); split; reflexivity.
Qed.

(** X5. When [save_pdf] returns, it returns the body of the first email
    and the path of the first attachment under [save_path]; the file at
    that path holds the decoded attachment, no other file and no
    spreadsheet has changed, and three calls were made: the directory,
    the attachment, the file.  Reading that path afterwards finds the
    file. *)
Theorem X5_save_pdf_writes_attachment (c : Email) (rest : list Email)
    (save_path : string) (w w' : World) (ev : list event)
    (path body_text : string) :
  save_pdf E (c :: rest) save_path w = (w', ev, Ret (path, body_text)) →
  ∃ a data,
    head (attachments c) = Some a ∧
    path = path_join E save_path (filename a) ∧
    body_text = body c ∧
    b64decode E (attachment_data E (Datatypes.S (tick w)) (id c)
                                 (attachment_id a)) = Some data ∧
    files w' = <[path := data]> (files w) ∧
    sheets w' = sheets w ∧
    calls_of ev = [MakeDirs save_path;
                   GmailAttachment (id c) (attachment_id a);
                   WriteFile path] ∧
    read_document E w' path
    = match pdf_reader E data with
      | Ret pages => pages_text pages
      | Raise e => Raise e
      end.
Proof.
  unfold save_pdf.
  destruct (attachments c) as [|a more] eqn:Hatt.
  - run_dl; intros H; inversion H.
  - run_dl; intros H; inversion H; subst; clear H.
    match goal with
    | Hb : b64decode E _ = Some ?d |- _ =>
        exists a, d;
        split; [reflexivity|]; split; [reflexivity|]; split; [reflexivity|];
        split; [exact Hb|]
    end.
    split; [reflexivity|]. split; [reflexivity|]. split; [reflexivity|].
    unfold read_document, set_files, bump. cbn [files].
    rewrite lookup_insert_eq. reflexivity.
Qed.

End DownloadProperties.

Lemma X4_witness :
  ∃ ev,
    save_pdf Demo.E_ok [] default_save_path Demo.w0
    = (bump Demo.w0, ev,
       Raise (Exn ValueError "No email contents to process")).
Proof.
  destruct (X4_save_pdf_nothing_to_save Demo.E_ok [] default_save_path
              Demo.w0) as (ev & msg & Hrun & _ & Hmsg).
  - reflexivity.
  - left. reflexivity.
  - exists ev. rewrite Hrun, Hmsg. reflexivity.
Defined.

Lemma X5_witness :
  files (world_of (save_pdf Demo.E_ok [Demo.message "m1"] default_save_path
                     Demo.w0)) !! ".\downloads/m1.pdf"
  = Some "pdf:m1".
Proof.
  destruct (X5_save_pdf_writes_attachment Demo.E_ok (Demo.message "m1") []
              default_save_path Demo.w0
              (world_of (save_pdf Demo.E_ok [Demo.message "m1"]
                           default_save_path Demo.w0))
              (events_of (save_pdf Demo.E_ok [Demo.message "m1"]
                            default_save_path Demo.w0))
              ".\downloads/m1.pdf" "Please find my resume attached.")
    as (a & data & _ & _ & _ & Hd & Hfiles & _).
  - vm_compute. reflexivity.
  - rewrite Hfiles. vm_compute in Hd. inversion Hd; subst data.
    apply lookup_insert_eq.
Defined.

Lemma take_str_length (n : nat) : ∀ s,
  (String.length (take_str n s) ≤ n)%nat.
Proof.
  unfold take_str. induction n as [|n IH]; intros s.
  - destruct s; simpl; lia.
  - destruct s as [|c s]; simpl; [lia|]. specialize (IH s). lia.
Qed.

Lemma prefix_refl (s : string) : String.prefix s s = true.
Proof.
  induction s as [|c s IH]; simpl; [reflexivity|].
  destruct (ascii_dec c c); [exact IH | congruence].
Qed.

Lemma take_str_prefix (n : nat) : ∀ s,
  String.prefix (take_str n s) s = true.
Proof.
  unfold take_str. induction n as [|n IH]; intros s.
  - destruct s; reflexivity.
  - destruct s as [|c s]; simpl; [reflexivity|].
    destruct (ascii_dec c c); [apply IH | congruence].
Qed.

Section ModelProperties.

Variable E : Env.

(** X6. [validate_resume] calls the model exactly once, whether the call
    fails or not, and shows it prefixes only: at most 500 characters of
    the email and at most 1000 characters of the document. *)
Theorem X6_validate_resume_bounded (pdf_text email_body : string)
    (w : World) :
  ∃ email_content preview,
    calls_of (events_of (validate_resume E pdf_text email_body w))
    = [LlmInvoke ResumeValidationSchema email_content preview] ∧
    (String.length email_content ≤ 500)%nat ∧
    (String.length preview ≤ 1000)%nat ∧
    String.prefix email_content email_body = true ∧
    String.prefix preview pdf_text = true ∧
    ((String.length pdf_text ≤ 1000)%nat → preview = pdf_text) ∧
    tick (world_of (validate_resume E pdf_text email_body w))
    = Datatypes.S (tick w).
Proof.
  exists (take_str 500 email_body),
         (if (1000 <? String.length pdf_text)%nat
          then take_str 1000 pdf_text else pdf_text).
  split; [|split; [|split; [|split; [|split; [|split]]]]].
  - unfold validate_resume.
    cbv beta iota zeta delta [bind try_catch log ret raise remote events_of
      fst snd].
    destruct (api_fault E (tick w)); reflexivity.
  - apply take_str_length.
  - destruct (1000 <? String.length pdf_text)%nat eqn:Hlt.
    + apply take_str_length.
    + apply Nat.ltb_ge in Hlt. exact Hlt.
  - apply take_str_prefix.
  - destruct (1000 <? String.length pdf_text)%nat.
    + apply take_str_prefix.
    + apply prefix_refl.
  - intros Hle. apply Nat.ltb_ge in Hle. rewrite Hle. reflexivity.
  - unfold validate_resume.
    cbv beta iota zeta delta [bind try_catch log ret raise remote world_of
      fst snd].
    destruct (api_fault E (tick w)); reflexivity.
Qed.

Lemma validate_resume_one_call (pdf_text email_body : string) (w : World) :
  ∃ c,
    calls_of (events_of (validate_resume E pdf_text email_body w)) = [c] ∧
    tick (world_of (validate_resume E pdf_text email_body w))
    = Datatypes.S (tick w).
Proof.
  unfold validate_resume.
  cbv beta iota zeta delta [bind try_catch log ret raise remote events_of
    world_of fst snd].
  destruct (api_fault E (tick w)); eexists; split; reflexivity.
Qed.

(** X7. With [skip_validation] the classifier is never called:
    [extract_llm] calls the extraction model once, on the whole email and
    the whole document, and returns its record, or [None] when the call
    fails. *)
Theorem X7_skip_validation (email_body pdf_text : string) (w : World) :
  let o := extract_llm E email_body pdf_text true w in
  calls_of (events_of o) = [LlmInvoke InternsSchema email_body pdf_text] ∧
  invoked is_classifier_call (events_of o) = false ∧
  result_of o
  = Ret (match api_fault E (tick w) with
         | Some _ => None
         | None => Some (extractor E (tick w) email_body pdf_text)
         end).
Proof.
  unfold extract_llm, extract_candidate, invoked. simpl negb.
  cbv beta iota zeta delta [bind try_catch log ret raise remote events_of
    result_of fst snd].
  destruct (api_fault E (tick w)); repeat split.
Qed.

(** X8. [extract_llm] with validation never raises and makes one call to
    the model for a document that fails the policy, two for one that
    passes: the classification, then the extraction. *)
Theorem X8_model_calls (email_body pdf_text : string)
    (w w1 : World) (ev1 : list event) (v : ResumeValidation) :
  validate_resume E pdf_text email_body w = (w1, ev1, Ret v) →
  let o := extract_llm E email_body pdf_text false w in
  is_ret (result_of o) = true ∧
  calls_of (events_of o)
  = calls_of ev1
    ++ (if passes_policy v
        then [LlmInvoke InternsSchema email_body pdf_text] else []) ∧
  length (calls_of (events_of o)) = (if passes_policy v then 2 else 1) ∧
  tick (world_of o) = (tick w + if passes_policy v then 2 else 1)%nat.
Proof.
  intros Hv o.
  destruct (validate_resume_one_call pdf_text email_body w) as (c & Hc & Ht).
  rewrite Hv in Hc, Ht. unfold events_of, world_of in Hc, Ht. simpl in Hc, Ht.
  unfold o. rewrite (extract_llm_run E email_body pdf_text w w1 ev1 v Hv).
  destruct (passes_policy v).
  - unfold extract_candidate.
    cbv beta iota zeta delta [bind try_catch log ret raise remote events_of
      result_of world_of fst snd].
    destruct (api_fault E (tick w1)); simpl;
      rewrite ?calls_of_app; simpl; rewrite ?Hc; simpl;
      (split; [reflexivity|]); (split; [reflexivity|]);
      (split; [reflexivity|]); lia.
  - unfold events_of, result_of, world_of. simpl.
    rewrite calls_of_app, Hc. simpl.
    split; [reflexivity|]. split; [reflexivity|]. split; [reflexivity|]. lia.
Qed.

End ModelProperties.

Lemma X6_witness :
  calls_of (events_of (validate_resume Demo.E_ok Demo.resume_text
                         "Please find my resume attached." Demo.w0))
  = [LlmInvoke ResumeValidationSchema "Please find my resume attached."
               Demo.resume_text].
Proof.
  destruct (X6_validate_resume_bounded Demo.E_ok Demo.resume_text
              "Please find my resume attached." Demo.w0)
    as (e & p & Hc & _ & _ & _ & _ & Hp & _).
  rewrite Hc, Hp.
  - vm_compute in Hc. inversion Hc. reflexivity.
  - vm_compute. lia.
Defined.

Lemma X8_witness :
  length (calls_of (events_of (extract_llm Demo.E_invoice
                                 "Please find my resume attached."
                                 Demo.resume_text false Demo.w0))) = 1 ∧
  length (calls_of (events_of (extract_llm Demo.E_ok
                                 "Please find my resume attached."
                                 Demo.resume_text false Demo.w0))) = 2.
Proof.
  split.
  - edestruct (X8_model_calls Demo.E_invoice "Please find my resume attached."
                 Demo.resume_text Demo.w0) as (_ & _ & H & _).
    + vm_compute. reflexivity.
    + exact H.
  - edestruct (X8_model_calls Demo.E_ok "Please find my resume attached."
                 Demo.resume_text Demo.w0) as (_ & _ & H & _).
    + vm_compute. reflexivity.
    + exact H.
Defined.

Section RoutingProperties.

Variable E : Env.

Lemma extract_candidate_run (email_body pdf_text : string) (w : World) :
  ∃ ev,
    extract_candidate E email_body pdf_text w
    = (bump w, ev,
       Ret match api_fault E (tick w) with
           | Some _ => None
           | None => Some (extractor E (tick w) email_body pdf_text)
           end) ∧
    calls_of ev = [LlmInvoke InternsSchema email_body pdf_text].
Proof.
  unfold extract_candidate.
  cbv beta iota zeta delta [bind try_catch log ret raise remote].
  destruct (api_fault E (tick w)); eexists; split; reflexivity.
Qed.

Lemma only_calls_extract_llm (email_body pdf_text : string) (skip : bool) :
  only_calls is_llm_call (extract_llm E email_body pdf_text skip).
Proof.
  assert (Hx : only_calls is_llm_call
                 (extract_candidate E email_body pdf_text)).
  { apply (only_calls_weaken is_extractor_call); [call_classes|].
    apply only_calls_extract_candidate. }
  unfold extract_llm.
  apply only_calls_bind; [apply only_calls_log|intros _].
  destruct skip; simpl; [exact Hx|].
  apply only_calls_bind.
  - apply (only_calls_weaken is_classifier_call); [call_classes|].
    apply only_calls_validate_resume.
  - intros v. destruct (negb (is_resume v)).
    + apply only_calls_bind; [apply only_calls_log|intros _].
      apply only_calls_ret.
    + destruct (confidence_eqb (confidence v) low).
      * apply only_calls_bind; [apply only_calls_log|intros _].
        apply only_calls_ret.
      * apply only_calls_bind; [apply only_calls_log|intros _]. exact Hx.
Qed.

(** The stages before the sink call no spreadsheet. *)
Lemma stages_call_no_sheet (g : string) (eva evb evc evs : list event)
    (f : string) :
  forallb (calls_within is_mail_or_disk_call) eva = true →
  forallb (calls_within no_call) evb = true →
  forallb (calls_within is_llm_call) evc = true →
  forallb (calls_within (is_sheet_call f)) evs = true →
  g ≠ f →
  existsb (is_sheet_call g)
          (calls_of eva ++ calls_of evb ++ calls_of evc ++ calls_of evs)
  = false.
Proof.
  intros Ha Hb Hc Hs Hne. rewrite !existsb_app.
  fold (invoked (is_sheet_call g) eva). fold (invoked (is_sheet_call g) evb).
  fold (invoked (is_sheet_call g) evc). fold (invoked (is_sheet_call g) evs).
  assert (Hfg : ∀ c, is_sheet_call f c = true → is_sheet_call g c = false).
  { intros c H. destruct c; simpl in *; try congruence;
      apply String.eqb_eq in H; subst; apply String.eqb_neq; congruence. }
  assert (Hmg : ∀ c, is_mail_or_disk_call c = true →
                     is_sheet_call g c = false) by call_classes.
  assert (Hng : ∀ c, no_call c = true → is_sheet_call g c = false)
    by call_classes.
  assert (Hlg : ∀ c, is_llm_call c = true → is_sheet_call g c = false)
    by call_classes.
  rewrite (only_calls_not_invoked _ _ eva Hmg Ha),
    (only_calls_not_invoked _ _ evb Hng Hb),
    (only_calls_not_invoked _ _ evc Hlg Hc),
    (only_calls_not_invoked _ _ evs Hfg Hs).
  reflexivity.
Qed.

(** What became of a message that reached the models, by the record the
    extraction gave. *)
Lemma process_email_routed m w wa eva path body wb evb txt wc evc data :
  attachments m ≠ [] →
  save_pdf E [m] default_save_path w = (wa, eva, Ret (path, body)) →
  extract_text_from_pdf E path wa = (wb, evb, Ret txt) →
  startswith "Error" txt = false →
  extract_llm E body txt false wb = (wc, evc, Ret data) →
  let sink :=
    match data with
    | None => save_rejected_to_sheets E (sender m) rejected_document_type
                rejected_reason rejected_file wc
    | Some d => save_to_sheets E (model_dump d) candidates_file wc
    end in
  let mine := match data with
              | None => rejected_file | Some _ => candidates_file end in
  let other := match data with
               | None => candidates_file | Some _ => rejected_file end in
  let o := process_email E m w in
  world_of o = world_of sink ∧
  result_of o =
    Ret (if is_ret (result_of sink)
         then match data with None => Rejected | Some _ => Saved end
         else Failed) ∧
  sheets wc = sheets w ∧
  invoked (is_sheet_call mine) (events_of o) = true ∧
  invoked (is_sheet_call other) (events_of o) = false ∧
  sheets (world_of o) !! other = sheets w !! other.
Proof.
  intros Hatt Hdl Htxt Hok Hllm sink mine other o.
  destruct (process_email_run E m w wa eva path body wb evb txt wc evc data
              Hatt Hdl Htxt Hok Hllm) as (Hw & Hr & Hc).
  fold sink in Hw, Hr, Hc. fold o in Hw, Hr, Hc.
  assert (Ha : forallb (calls_within is_mail_or_disk_call) eva = true)
    by exact (only_calls_run _ _ _ _ _ _ (only_calls_save_pdf E _ _) Hdl).
  assert (Hb : forallb (calls_within no_call) evb = true)
    by exact (only_calls_run _ _ _ _ _ _ (only_calls_extract_text E _) Htxt).
  assert (Hl : forallb (calls_within is_llm_call) evc = true)
    by exact (only_calls_run _ _ _ _ _ _
                (only_calls_extract_llm _ _ _) Hllm).
  assert (Hsh : sheets wc = sheets w).
  { rewrite (keeps_sheets_run _ _ _ _ _ (keeps_sheets_extract_llm E _ _ _) Hllm),
      (keeps_sheets_run _ _ _ _ _ (keeps_sheets_extract_text E _) Htxt).
    exact (keeps_sheets_run _ _ _ _ _ (keeps_sheets_save_pdf E _ _) Hdl). }
  assert (Hs : forallb (calls_within (is_sheet_call mine)) (events_of sink)
               = true ∧
               invoked (is_sheet_call mine) (events_of sink) = true ∧
               sheets (world_of sink) !! other = sheets wc !! other).
  { unfold sink, mine, other. destruct data as [d|].
    - split; [apply only_calls_save_to_sheets|].
      split; [apply save_to_sheets_opens|].
      apply save_to_sheets_other. discriminate.
    - split; [apply only_calls_save_rejected|].
      split; [apply save_rejected_opens|].
      apply save_rejected_other. discriminate. }
  destruct Hs as (Hs1 & Hs2 & Hs3).
  split; [exact Hw|]. split; [exact Hr|]. split; [exact Hsh|].
  split; [|split].
  - unfold invoked. rewrite Hc, !existsb_app.
    fold (invoked (is_sheet_call mine) (events_of sink)).
    rewrite Hs2, !orb_true_r. reflexivity.
  - unfold invoked. rewrite Hc.
    apply (stages_call_no_sheet other eva evb evc (events_of sink) mine);
      auto.
    unfold mine, other. destruct data; discriminate.
  - rewrite Hw, Hs3, Hsh. reflexivity.
Qed.

(** X9. A document that passes the policy and for which the call of the
    extraction model returns is handed to the acceptance sink with the
    record of the model, which was shown the whole email and the whole
    document; the rejected-applications spreadsheet is neither called nor
    changed.  When the write returns, the row of that record is added to
    the candidates. *)
Theorem X9_accepted_goes_to_candidates (m : Email) (w wa wb wc : World)
    (eva evb evc : list event) (path body txt : string)
    (v : ResumeValidation) :
  attachments m ≠ [] →
  save_pdf E [m] default_save_path w = (wa, eva, Ret (path, body)) →
  extract_text_from_pdf E path wa = (wb, evb, Ret txt) →
  startswith "Error" txt = false →
  validate_resume E txt body wb = (wc, evc, Ret v) →
  passes_policy v = true →
  api_fault E (tick wc) = None →
  let d := extractor E (tick wc) body txt in
  let sink := save_to_sheets E (model_dump d) candidates_file (bump wc) in
  let o := process_email E m w in
  world_of o = world_of sink ∧
  result_of o = Ret (if is_ret (result_of sink) then Saved else Failed) ∧
  invoked (is_sheet_call rejected_file) (events_of o) = false ∧
  sheets (world_of o) !! rejected_file = sheets w !! rejected_file ∧
  (result_of o = Ret Saved →
   one_record_added candidate_headers (candidate_row (model_dump d))
     (sheets w !! candidates_file)
     (sheets (world_of o) !! candidates_file)).
Proof.
  intros Hatt Hdl Htxt Hok Hval Hpol Hf d sink o.
  pose proof (extract_llm_run E body txt wb wc evc v Hval) as Hllm.
  rewrite Hpol in Hllm.
  destruct (extract_candidate_run body txt wc) as (evx & Hx & _).
  rewrite Hx, Hf in Hllm. unfold world_of, events_of, result_of in Hllm.
  simpl in Hllm. fold d in Hllm.
  destruct (process_email_routed m w wa eva path body wb evb txt _ _ _
              Hatt Hdl Htxt Hok Hllm) as (Hw & Hr & Hsh & _ & Hno & Hoth).
  fold sink in Hw, Hr. fold o in Hw, Hr, Hno, Hoth.
  split; [exact Hw|]. split; [exact Hr|]. split; [exact Hno|].
  split; [exact Hoth|].
  intros Hsaved. rewrite Hsaved in Hr.
  pose proof (save_to_sheets_sink E (model_dump d) candidates_file (bump wc))
    as Hs. fold sink in Hs.
  destruct (result_of sink) as [[]|e]; simpl in Hr; [|discriminate].
  rewrite Hw. simpl in Hsh, Hs. rewrite Hsh in Hs. exact Hs.
Qed.

(** X10. A document that passes the policy but for which the call of the
    extraction model fails is treated as a rejection: the message goes to
    the rejected-applications spreadsheet, with the fixed document type
    "non-resume", and the candidates are neither called nor changed. *)
Theorem X10_failed_extraction_is_rejected (m : Email) (w wa wb wc : World)
    (eva evb evc : list event) (path body txt : string)
    (v : ResumeValidation) (msg : string) :
  attachments m ≠ [] →
  save_pdf E [m] default_save_path w = (wa, eva, Ret (path, body)) →
  extract_text_from_pdf E path wa = (wb, evb, Ret txt) →
  startswith "Error" txt = false →
  validate_resume E txt body wb = (wc, evc, Ret v) →
  passes_policy v = true →
  api_fault E (tick wc) = Some msg →
  let sink := save_rejected_to_sheets E (sender m) rejected_document_type
                rejected_reason rejected_file (bump wc) in
  let o := process_email E m w in
  world_of o = world_of sink ∧
  result_of o = Ret (if is_ret (result_of sink) then Rejected else Failed) ∧
  invoked (is_sheet_call candidates_file) (events_of o) = false ∧
  sheets (world_of o) !! candidates_file = sheets w !! candidates_file ∧
  (result_of o = Ret Rejected →
   one_record_added rejected_headers
     [VStr (now E (Datatypes.S (tick wc))); VStr (sender m);
      VStr "non-resume"; VStr "Failed resume validation check"]
     (sheets w !! rejected_file)
     (sheets (world_of o) !! rejected_file)).
Proof.
  intros Hatt Hdl Htxt Hok Hval Hpol Hf sink o.
  pose proof (extract_llm_run E body txt wb wc evc v Hval) as Hllm.
  rewrite Hpol in Hllm.
  destruct (extract_candidate_run body txt wc) as (evx & Hx & _).
  rewrite Hx, Hf in Hllm. unfold world_of, events_of, result_of in Hllm.
  simpl in Hllm.
  destruct (process_email_routed m w wa eva path body wb evb txt _ _ _
              Hatt Hdl Htxt Hok Hllm) as (Hw & Hr & Hsh & _ & Hno & Hoth).
  fold sink in Hw, Hr. fold o in Hw, Hr, Hno, Hoth.
  split; [exact Hw|]. split; [exact Hr|]. split; [exact Hno|].
  split; [exact Hoth|].
  intros Hrej. rewrite Hrej in Hr.
  pose proof (save_rejected_sink E (sender m) rejected_document_type
                rejected_reason rejected_file (bump wc)) as Hs.
  cbv zeta in Hs. fold sink in Hs.
  destruct (result_of sink) as [[]|e]; simpl in Hr; [|discriminate].
  rewrite Hw. simpl in Hsh, Hs. rewrite Hsh in Hs. exact Hs.
Qed.

End RoutingProperties.

Lemma X9_witness :
  sheets (world_of (process_email Demo.E_ok (Demo.message "m1") Demo.w0))
    !! candidates_file
  = Some [candidate_headers; candidate_row (model_dump Demo.jane)].
Proof.
  edestruct (X9_accepted_goes_to_candidates Demo.E_ok (Demo.message "m1")
               Demo.w0) as (_ & _ & _ & _ & H).
  - discriminate.
  - vm_compute. reflexivity.
  - vm_compute. reflexivity.
  - vm_compute. reflexivity.
  - vm_compute. reflexivity.
  - vm_compute. reflexivity.
  - vm_compute. reflexivity.
  - apply H. vm_compute. reflexivity.
Defined.

Lemma X10_witness :
  sheets (world_of (process_email Cases.E_extract_down (Demo.message "m1")
                      Demo.w0)) !! rejected_file
  = Some [rejected_headers;
          [VStr "2024-01-15 10:00:00"; VStr "m1@example.com";
           VStr "non-resume"; VStr "Failed resume validation check"]].
Proof.
  edestruct (X10_failed_extraction_is_rejected Cases.E_extract_down
               (Demo.message "m1") Demo.w0) as (_ & _ & _ & _ & H).
  - discriminate.
  - vm_compute. reflexivity.
  - vm_compute. reflexivity.
  - vm_compute. reflexivity.
  - vm_compute. reflexivity.
  - vm_compute. reflexivity.
  - vm_compute. reflexivity.
  - apply H. vm_compute. reflexivity.
Defined.

(** X11. The row written for a candidate has one cell per column of the
    header, in the order of the header: name, email, phone, the skills
    joined by a comma and a space, experience, status, summary,
    questions.  Each of the eight keys, when missing from the
    dictionary, gives an empty cell, every other cell is the value of
    its key, and skills given as a string are written as they are. *)
Theorem X11_candidate_row (d : Interns) (data : gmap string value) :
  candidate_row (model_dump d)
  = [VStr (name d); VStr (email d); VStr (phone d);
     VStr (join ", " (skills d)); VStr (exp d);
     VStr (status_str (status d)); VStr (summary d); VStr (question d)] ∧
  length (candidate_row data) = length candidate_headers ∧
  candidate_row data !! 3
  = Some (VStr match data !! "skills" with
               | Some (VList l) => join ", " l
               | Some (VStr s) => s
               | None => EmptyString
               end) ∧
  (data !! "name" = None → candidate_row data !! 0 = Some (VStr EmptyString)) ∧
  (data !! "question" = None →
   candidate_row data !! 7 = Some (VStr EmptyString)) ∧
  candidate_row data
  = [default (VStr EmptyString) (data !! "name");
     default (VStr EmptyString) (data !! "email");
     default (VStr EmptyString) (data !! "phone");
     VStr match data !! "skills" with
          | Some (VList l) => join ", " l
          | Some (VStr s) => s
          | None => EmptyString
          end;
     default (VStr EmptyString) (data !! "exp");
     default (VStr EmptyString) (data !! "status");
     default (VStr EmptyString) (data !! "summary");
     default (VStr EmptyString) (data !! "question")] ∧
  (data = ∅ → candidate_row data = replicate 8 (VStr EmptyString)).
Proof.
  split; [|split; [reflexivity|split; [|split; [|split; [|split]]]]].
  - unfold candidate_row, dict_get, model_dump.
    repeat (rewrite lookup_insert_eq
            || (rewrite lookup_insert_ne by discriminate)).
    reflexivity.
  - unfold candidate_row, dict_get. cbn [lookup list_lookup].
    destruct (data !! "skills") as [[s|l]|]; reflexivity.
  - intros H. unfold candidate_row, dict_get. rewrite H. reflexivity.
  - intros H. unfold candidate_row, dict_get. rewrite H. reflexivity.
  - unfold candidate_row, dict_get.
    destruct (data !! "skills") as [[s|l]|]; reflexivity.
  - intros ->. reflexivity.
Qed.

Lemma X11_witness :
  candidate_row (<["skills" := VStr "Python"]> ∅) !! 0
  = Some (VStr EmptyString) ∧
  candidate_row (<["skills" := VStr "Python"]> ∅) !! 7
  = Some (VStr EmptyString) ∧
  candidate_row ∅ = replicate 8 (VStr EmptyString).
Proof.
  destruct (X11_candidate_row Demo.jane (<["skills" := VStr "Python"]> ∅))
    as (_ & _ & _ & H0 & H7 & _).
  destruct (X11_candidate_row Demo.jane ∅) as (_ & _ & _ & _ & _ & _ & He).
  split; [apply H0; reflexivity|].
  split; [apply H7; reflexivity | apply He; reflexivity].
Defined.

Section SinkProperties.

Variable E : Env.

Ltac run_sink_goal :=
  cbv beta iota zeta delta [bind try_catch client_open client_create share
    sheet1 append_row remote timestamp modify get_world log ret raise
    world_of events_of result_of fst snd];
  simpl;
  repeat (match goal with
          | |- context [api_fault E ?n] =>
              destruct (api_fault E n) eqn:?; simpl
          | H : sheets ?w !! ?f = _
            |- context [match sheets ?w !! ?f with _ => _ end] =>
              rewrite H; simpl
          | |- context [match sheets ?w !! ?f with _ => _ end] =>
              destruct (sheets w !! f) eqn:?; simpl
          end).

(** X12. A failure of [client.open] other than "not found" is not taken
    for a missing spreadsheet: both sinks raise it again after that one
    call, and nothing is created, shared or written. *)
Theorem X12_open_failure_propagates (data : gmap string value)
    (s d r f : string) (w : World) (msg : string) :
  (api_fault E (tick w) = Some msg →
   ∃ ev, save_to_sheets E data f w
         = (bump w, ev, Raise (Exn RemoteError msg)) ∧
         calls_of ev = [SheetsOpen f]) ∧
  (api_fault E (Datatypes.S (tick w)) = Some msg →
   ∃ ev, save_rejected_to_sheets E s d r f w
         = (bump (bump w), ev, Raise (Exn RemoteError msg)) ∧
         calls_of ev = [SheetsOpen f]).
Proof.
  split; intros Hf.
  - unfold save_to_sheets.
    cbv beta iota zeta delta [bind try_catch client_open remote log ret raise].
    rewrite Hf. simpl. eexists. split; reflexivity.
  - unfold save_rejected_to_sheets.
    cbv beta iota zeta delta [bind try_catch client_open remote timestamp
      log ret raise].
    simpl. rewrite Hf. simpl. eexists. split; reflexivity.
Qed.

Lemma save_to_sheets_existing (data : gmap string value) (f : string)
    (w : World) (rows : list row) :
  sheets w !! f = Some rows →
  let o := save_to_sheets E data f w in
  shares (world_of o) = shares w ∧
  sheets (world_of o) !! f
  = Some (rows ++ if is_ret (result_of o) then [candidate_row data] else []) ∧
  (calls_of (events_of o) = [SheetsOpen f] ∨
   calls_of (events_of o) = [SheetsOpen f; SheetsSheet1 f] ∨
   calls_of (events_of o) = [SheetsOpen f; SheetsSheet1 f;
                             SheetsAppend f (candidate_row data)]).
Proof.
  intros Hrows. unfold save_to_sheets. run_sink_goal;
    rewrite ?lookup_alter_eq, ?Hrows, ?app_nil_r; simpl; auto.
Qed.

(** Once the spreadsheet exists, it holds the rows it held and after
    them the rows of the calls of [save_to_sheets] that returned, in
    order, and its permissions are the ones it had. *)
Lemma later_invariant (f : string) (w1 w' : World) (rows0 : list row)
    (ds : list (gmap string value)) :
  later E f w1 ds w' →
  sheets w1 !! f = Some rows0 →
  sheets w' !! f = Some (rows0 ++ map candidate_row ds) ∧
  shares_on f w' = shares_on f w1.
Proof.
  intros Hlater Hrows.
  induction Hlater as [w|w ds a data Hl IH|w ds a b Hl IH Hs Hp].
  - simpl. rewrite app_nil_r. split; [exact Hrows | reflexivity].
  - destruct (IH Hrows) as (Ha & Hsh).
    destruct (save_to_sheets_existing data f a _ Ha) as (Hshares & Hsheet & _).
    unfold shares_on in *. rewrite Hshares. split; [|exact Hsh].
    rewrite Hsheet, map_app, app_assoc.
    destruct (is_ret (result_of (save_to_sheets E data f a))); reflexivity.
  - destruct (IH Hrows) as (Ha & Hsh).
    rewrite Hs, Hp. split; [exact Ha | exact Hsh].
Qed.

(** X13. A creation that is interrupted leaves a spreadsheet without
    header for good.  When the sharing fails after the spreadsheet was
    created, [save_to_sheets] raises and the spreadsheet is left empty and
    unshared.  From then on, however often [save_to_sheets] is called on
    it and whatever happens in between that leaves this spreadsheet and
    its permissions alone, the spreadsheet holds exactly the rows of the
    calls that returned, in their order, with no header before them, and
    its permissions are the ones it had before it was created.  Every
    such call, returning or raising, finds the spreadsheet: it makes no
    call other than opening it, taking its first sheet and appending its
    own row, so it never creates it, never shares it and never writes
    the header; it appends its row exactly when it returns. *)
Theorem X13_interrupted_creation (data1 : gmap string value) (f : string)
    (w : World) (msg : string) :
  sheets w !! f = None →
  api_fault E (tick w) = None →
  api_fault E (Datatypes.S (tick w)) = None →
  api_fault E (Datatypes.S (Datatypes.S (tick w))) = Some msg →
  ∃ w1 ev1,
    save_to_sheets E data1 f w = (w1, ev1, Raise (Exn RemoteError msg)) ∧
    sheets w1 !! f = Some [] ∧
    shares w1 = shares w ∧
    (∀ data2 w2 ev2,
       save_to_sheets E data2 f w1 = (w2, ev2, Ret tt) →
       sheets w2 !! f = Some [candidate_row data2] ∧
       shares w2 = shares w ∧
       calls_of ev2 = [SheetsOpen f; SheetsSheet1 f;
                       SheetsAppend f (candidate_row data2)]) ∧
    (∀ ds w', later E f w1 ds w' →
       sheets w' !! f = Some (map candidate_row ds) ∧
       shares_on f w' = shares_on f w ∧
       ∀ data2,
         let o := save_to_sheets E data2 f w' in
         shares (world_of o) = shares w' ∧
         sheets (world_of o) !! f
         = Some (map candidate_row ds
                 ++ if is_ret (result_of o) then [candidate_row data2]
                    else []) ∧
         (calls_of (events_of o) = [SheetsOpen f] ∨
          calls_of (events_of o) = [SheetsOpen f; SheetsSheet1 f] ∨
          calls_of (events_of o) = [SheetsOpen f; SheetsSheet1 f;
                                    SheetsAppend f (candidate_row data2)]) ∧
         (is_ret (result_of o) = true →
          calls_of (events_of o)
          = [SheetsOpen f; SheetsSheet1 f;
             SheetsAppend f (candidate_row data2)])).
Proof.
  intros Hnone H0 H1 H2.
  assert (Hempty :
    sheets (bump (set_sheets (insert f []) (bump (bump w)))) !! f
    = Some []) by (simpl; apply lookup_insert_eq).
  do 2 eexists. split.
  - unfold save_to_sheets.
    cbv beta iota zeta delta [bind try_catch client_open client_create share
      sheet1 append_row remote modify get_world log ret raise].
    rewrite H0. simpl. rewrite Hnone. simpl. rewrite H1. simpl. rewrite H2.
    simpl. reflexivity.
  - split; [exact Hempty|]. split; [reflexivity|]. split.
    + intros data2 w2 ev2 Hrun.
      destruct (save_to_sheets_appends E data2 f _ w2 ev2 [] Hempty Hrun)
        as (Hs & Hsh & Hc).
      split; [exact Hs|]. split; [exact Hsh | exact Hc].
    + intros ds w' Hlater.
      destruct (later_invariant f _ w' [] ds Hlater Hempty) as (Hs & Hsh).
      simpl in Hs.
      split; [exact Hs|]. split; [exact Hsh|].
      intros data2 o.
      destruct (save_to_sheets_existing data2 f w' _ Hs) as (Ha & Hb & Hc).
      split; [exact Ha|]. split; [exact Hb|]. split; [exact Hc|].
      intros Hret. subst o.
      destruct (save_to_sheets E data2 f w') as [[w2 ev2] r] eqn:Hrun.
      destruct r as [[]|e]; [|discriminate Hret].
      destruct (save_to_sheets_appends E data2 f w' w2 ev2 _ Hs Hrun)
        as (_ & _ & Hcalls).
      exact Hcalls.
Qed.

(** X14. Both sinks are append-only and write their own spreadsheet
    only: whether the call returns or raises, every spreadsheet with
    another title is as before, and the rows the spreadsheet had are
    still there, in place, followed by at most one new row. *)
Theorem X14_sinks_append_only (data : gmap string value) (s d r f : string)
    (w : World) :
  let a := world_of (save_to_sheets E data f w) in
  let b := world_of (save_rejected_to_sheets E s d r f w) in
  (∀ g, g ≠ f → sheets a !! g = sheets w !! g ∧
                sheets b !! g = sheets w !! g) ∧
  (∀ rows, sheets w !! f = Some rows →
     (sheets a !! f = Some rows ∨
      sheets a !! f = Some (rows ++ [candidate_row data])) ∧
     (sheets b !! f = Some rows ∨
      sheets b !! f = Some (rows ++ [[VStr (now E (tick w)); VStr s; VStr d;
                                      VStr r]]))) ∧
  (∀ rows, sheets w !! f = Some rows →
     is_ret (result_of (save_to_sheets E data f w)) = false →
     sheets a !! f = Some rows).
Proof.
  intros a b. split; [|split].
  - intros g Hg. split.
    + apply save_to_sheets_other. exact Hg.
    + apply save_rejected_other. exact Hg.
  - intros rows Hrows.
    pose proof (save_to_sheets_sink E data f w) as Ha.
    pose proof (save_rejected_sink E s d r f w) as Hb. cbv zeta in Hb.
    fold a in Ha. fold b in Hb.
    unfold one_record_added, no_record_added in *.
    rewrite Hrows in Ha, Hb. simpl in Ha, Hb.
    split.
    + destruct (result_of (save_to_sheets E data f w)); [right; exact Ha|].
      left. destruct Ha as [Ha|[Ha _]]; [exact Ha | discriminate].
    + destruct (result_of (save_rejected_to_sheets E s d r f w));
        [right; exact Hb|].
      left. destruct Hb as [Hb|[Hb _]]; [exact Hb | discriminate].
  - intros rows Hrows Hraise.
    pose proof (save_to_sheets_sink E data f w) as Ha. fold a in Ha.
    unfold no_record_added in Ha. rewrite Hrows in Ha.
    destruct (result_of (save_to_sheets E data f w)); [discriminate|].
    destruct Ha as [Ha|[Ha _]]; [exact Ha | discriminate].
Qed.

End SinkProperties.

Lemma X12_witness :
  ∃ ev,
    save_to_sheets Cases.E_all_down (model_dump Demo.jane) candidates_file
      Demo.w0
    = (bump Demo.w0, ev, Raise (Exn RemoteError "timeout")) ∧
    calls_of ev = [SheetsOpen candidates_file].
Proof.
  destruct (X12_open_failure_propagates Cases.E_all_down
              (model_dump Demo.jane) "s" "d" "r" candidates_file Demo.w0
              "timeout") as [H _].
  apply H. reflexivity.
Defined.

Lemma X13_witness :
  let E := Cases.E_third_down in
  let jane := model_dump Demo.jane in
  let john := model_dump Demo.john in
  let w1 := world_of (save_to_sheets E jane candidates_file Demo.w0) in
  let w2 := world_of (save_to_sheets E john candidates_file w1) in
  let o3 := save_to_sheets E jane candidates_file w2 in
  result_of (save_to_sheets E jane candidates_file Demo.w0)
  = Raise (Exn RemoteError "timeout") ∧
  sheets w2 !! candidates_file = Some [candidate_row john] ∧
  shares_on candidates_file w2 = [] ∧
  sheets (world_of o3) !! candidates_file
  = Some [candidate_row john; candidate_row jane] ∧
  calls_of (events_of o3)
  = [SheetsOpen candidates_file; SheetsSheet1 candidates_file;
     SheetsAppend candidates_file (candidate_row jane)].
Proof.
  intros E jane john w1 w2 o3.
  destruct (X13_interrupted_creation E jane candidates_file Demo.w0 "timeout")
    as (w1' & ev1 & Hrun & _ & _ & _ & Hlater);
    [reflexivity | reflexivity | reflexivity | reflexivity |].
  assert (Hw1 : w1' = w1) by (unfold w1; rewrite Hrun; reflexivity).
  subst w1'.
  split; [rewrite Hrun; reflexivity|].
  destruct (Hlater _ w2 (later_call E candidates_file w1 [] w1 john
                           (later_now E candidates_file w1)))
    as (Hrows & Hshares & Hcall).
  split; [exact Hrows|]. split; [exact Hshares|].
  destruct (Hcall jane) as (_ & Hs & _ & Hc).
  split; [exact Hs | apply Hc; vm_compute; reflexivity].
Defined.

Lemma X14_witness :
  sheets (world_of (save_to_sheets Cases.E_all_down (model_dump Demo.jane)
                      candidates_file Cases.w_sheets)) !! candidates_file
  = Some [candidate_headers].
Proof.
  destruct (X14_sinks_append_only Cases.E_all_down (model_dump Demo.jane)
              "s" "d" "r" candidates_file Cases.w_sheets) as (_ & _ & H).
  apply H; reflexivity.
Defined.

Lemma grows_refl (a : option (list row)) : grows a a.
Proof. intros rows H. exists []. rewrite app_nil_r. exact H. Qed.

Lemma grows_trans (a b c : option (list row)) :
  grows a b → grows b c → grows a c.
Proof.
  intros Hab Hbc rows Ha.
  destruct (Hab rows Ha) as (m1 & Hb).
  destruct (Hbc _ Hb) as (m2 & Hc).
  exists (m1 ++ m2). rewrite app_assoc. exact Hc.
Qed.

Lemma sink_safe_keeps {A} (m : M A) : keeps_sheets m → sink_safe m.
Proof.
  intros H w g. rewrite (H w). split; [apply grows_refl | reflexivity].
Qed.

Lemma sink_safe_bind {A B} (m : M A) (k : A → M B) :
  sink_safe m → (∀ a, sink_safe (k a)) → sink_safe (bind m k).
Proof.
  intros Hm Hk w g. unfold bind.
  specialize (Hm w g). unfold world_of in *.
  destruct (m w) as [[w1 ev1] [a|e]]; simpl in *; [|exact Hm].
  specialize (Hk a w1 g). unfold world_of in *.
  destruct (k a w1) as [[w2 ev2] r]. simpl in *.
  destruct Hm as [Hg Ho], Hk as [Hg' Ho'].
  split; [exact (grows_trans _ _ _ Hg Hg')|].
  intros H1 H2. rewrite (Ho' H1 H2). exact (Ho H1 H2).
Qed.

Lemma sink_safe_try {A} (m : M A) (h : exn → M A) :
  sink_safe m → (∀ e, sink_safe (h e)) → sink_safe (try_catch m h).
Proof.
  intros Hm Hh w g. unfold try_catch.
  specialize (Hm w g). unfold world_of in *.
  destruct (m w) as [[w1 ev1] [a|e]]; simpl in *; [exact Hm|].
  specialize (Hh e w1 g). unfold world_of in *.
  destruct (h e w1) as [[w2 ev2] r]. simpl in *.
  destruct Hm as [Hg Ho], Hh as [Hg' Ho'].
  split; [exact (grows_trans _ _ _ Hg Hg')|].
  intros H1 H2. rewrite (Ho' H1 H2). exact (Ho H1 H2).
Qed.

Section PassProperties.

Variable E : Env.

Lemma sink_safe_save_to_sheets data :
  sink_safe (save_to_sheets E data candidates_file).
Proof.
  intros w g. split.
  - destruct (decide (g = candidates_file)) as [->|Hne].
    + intros rows Hrows.
      pose proof (save_to_sheets_sink E data candidates_file w) as H.
      unfold one_record_added, no_record_added in H. rewrite Hrows in H.
      destruct (result_of (save_to_sheets E data candidates_file w)).
      * eexists. exact H.
      * exists []. rewrite app_nil_r.
        destruct H as [H|[H _]]; [exact H | discriminate].
    + rewrite save_to_sheets_other by exact Hne. apply grows_refl.
  - intros H1 _. apply save_to_sheets_other. exact H1.
Qed.

Lemma sink_safe_save_rejected s d r :
  sink_safe (save_rejected_to_sheets E s d r rejected_file).
Proof.
  intros w g. split.
  - destruct (decide (g = rejected_file)) as [->|Hne].
    + intros rows Hrows.
      pose proof (save_rejected_sink E s d r rejected_file w) as H.
      cbv zeta in H.
      unfold one_record_added, no_record_added in H. rewrite Hrows in H.
      destruct (result_of (save_rejected_to_sheets E s d r rejected_file w)).
      * eexists. exact H.
      * exists []. rewrite app_nil_r.
        destruct H as [H|[H _]]; [exact H | discriminate].
    + rewrite save_rejected_other by exact Hne. apply grows_refl.
  - intros _ H2. apply save_rejected_other. exact H2.
Qed.

Ltac safe_step :=
  lazymatch goal with
  | |- sink_safe (bind _ _) => apply sink_safe_bind; [| intros ?]
  | |- sink_safe (try_catch _ _) => apply sink_safe_try; [| intros ?]
  | |- sink_safe (save_to_sheets _ _ _) => apply sink_safe_save_to_sheets
  | |- sink_safe (save_rejected_to_sheets _ _ _ _ _) =>
      apply sink_safe_save_rejected
  | |- sink_safe (match ?x with _ => _ end) => destruct x
  | |- sink_safe (let _ := _ in _) => lazy zeta
  | |- sink_safe _ =>
      apply sink_safe_keeps;
      first [ apply keeps_sheets_log | apply keeps_sheets_ret
            | apply keeps_sheets_raise | apply keeps_sheets_save_pdf
            | apply keeps_sheets_extract_text | apply keeps_sheets_extract_llm
            | apply keeps_sheets_search_gmail | apply keeps_sheets_read_email ]
  end.

Lemma sink_safe_process_email m : sink_safe (process_email E m).
Proof.
  unfold process_email, process_email_try, candidates_file, rejected_file.
  fold candidates_file. fold rejected_file.
  repeat safe_step.
Qed.

Lemma sink_safe_for_each ms : sink_safe (for_each (process_email E) ms).
Proof.
  induction ms as [|m ms IH]; simpl.
  - apply sink_safe_keeps. apply keeps_sheets_ret.
  - apply sink_safe_bind; [apply sink_safe_process_email | intros _; exact IH].
Qed.

(** X15. Over a whole pass of [main] the spreadsheets are append-only:
    whatever fails on the way, a spreadsheet that existed before the pass
    still has the rows it had, in place, possibly followed by new ones,
    and the spreadsheets other than the two sinks are not changed at
    all. *)
Theorem X15_pass_append_only (w : World) (g : string) :
  grows (sheets w !! g) (sheets (world_of (main_body E w)) !! g) ∧
  (g ≠ candidates_file → g ≠ rejected_file →
   sheets (world_of (main_body E w)) !! g = sheets w !! g).
Proof.
  assert (H : sink_safe (main_body E)).
  { unfold main_body.
    apply sink_safe_bind; [safe_step|intros _].
    apply sink_safe_bind; [safe_step|intros ids].
    destruct ids; [safe_step|].
    apply sink_safe_bind; [safe_step|intros content].
    destruct content; [safe_step|].
    apply sink_safe_bind; [apply sink_safe_for_each|intros _]. safe_step. }
  exact (H w g).
Qed.

(** X16. A document that cannot be read is skipped without a trace in
    the spreadsheets: when the file is missing or PyPDF2 raises, the
    message ends as a failed extraction, no model and no spreadsheet is
    called, and no row is written, not even to the rejected
    applications. *)
Theorem X16_unreadable_is_skipped (m : Email) (w wa : World)
    (eva : list event) (path body : string) (e : exn) :
  attachments m ≠ [] →
  save_pdf E [m] default_save_path w = (wa, eva, Ret (path, body)) →
  read_document E wa path = Raise e →
  let o := process_email E m w in
  result_of (extract_text_from_pdf E path wa)
  = Ret (failure_marker path e) ∧
  result_of o = Ret ExtractionFailed ∧
  sheets (world_of o) = sheets w ∧
  invoked is_llm_call (events_of o) = false ∧
  (∀ f, invoked (is_sheet_call f) (events_of o) = false).
Proof.
  intros Hatt Hdl Hdoc o.
  destruct (extract_text_run E path wa) as (evb & Htxt).
  rewrite Hdoc in Htxt.
  pose proof (process_email_extraction_failed E m w wa eva path body wa evb _
                Hatt Hdl Htxt (startswith_failure_marker path e)) as Hrun.
  fold o in Hrun.
  assert (Ha : forallb (calls_within is_mail_or_disk_call) eva = true)
    by exact (only_calls_run _ _ _ _ _ _ (only_calls_save_pdf E _ _) Hdl).
  assert (Hb : forallb (calls_within no_call) evb = true)
    by exact (only_calls_run _ _ _ _ _ _ (only_calls_extract_text E _) Htxt).
  assert (Hinv : ∀ p,
    (∀ c, is_mail_or_disk_call c = true → p c = false) →
    invoked p (events_of o) = false).
  { intros p Hp. rewrite Hrun. unfold events_of. simpl.
    rewrite invoked_cons_log, !invoked_app.
    rewrite (only_calls_not_invoked is_mail_or_disk_call p eva Hp Ha).
    rewrite (only_calls_not_invoked no_call p evb); [|call_classes|exact Hb].
    reflexivity. }
  split; [rewrite Htxt; reflexivity|].
  split; [rewrite Hrun; reflexivity|].
  split.
  - rewrite Hrun. simpl.
    exact (keeps_sheets_run _ _ _ _ _ (keeps_sheets_save_pdf E _ _) Hdl).
  - split; [apply Hinv; call_classes|].
    intros f. apply Hinv. call_classes.
Qed.

End PassProperties.

Lemma X15_witness :
  ∃ more,
    sheets (world_of (main_body Demo.E_batch Cases.w_sheets))
      !! candidates_file
    = Some ([candidate_headers] ++ more).
Proof.
  destruct (X15_pass_append_only Demo.E_batch Cases.w_sheets candidates_file)
    as [H _].
  apply H. reflexivity.
Defined.

Lemma X16_witness :
  let o := process_email Cases.E_no_pdf (Demo.message "m1") Demo.w0 in
  result_of o = Ret ExtractionFailed ∧ sheets (world_of o) = ∅.
Proof.
  intros o.
  edestruct (X16_unreadable_is_skipped Cases.E_no_pdf (Demo.message "m1")
               Demo.w0) as (_ & Hr & Hs & _).
  - discriminate.
  - vm_compute. reflexivity.
  - vm_compute. reflexivity.
  - split; [exact Hr | exact Hs].
Defined.

Lemma attempts_made_app (a b : list observation) :
  attempts_made (a ++ b) = (attempts_made a + attempts_made b)%nat.
Proof.
  induction a as [|o a IH]; simpl; [reflexivity|].
  destruct o; simpl; rewrite IH; reflexivity.
Qed.

Lemma waits_app (a b : list observation) :
  waits (a ++ b) = waits a ++ waits b.
Proof.
  induction a as [|o a IH]; simpl; [reflexivity|].
  destruct o; simpl; rewrite IH; reflexivity.
Qed.

Lemma hourly_sleeps_app (a b : list observation) :
  hourly_sleeps (a ++ b) = (hourly_sleeps a + hourly_sleeps b)%nat.
Proof.
  unfold hourly_sleeps. rewrite waits_app, filter_app, length_app.
  reflexivity.
Qed.

Lemma retry_waits_app (a b : list observation) :
  retry_waits (a ++ b) = (retry_waits a + retry_waits b)%nat.
Proof.
  unfold retry_waits. rewrite waits_app, filter_app, length_app.
  reflexivity.
Qed.

Lemma cycle_pattern_counts (k : nat) :
  (1 ≤ attempts_made (cycle_pattern k) ≤ 3)%nat ∧
  hourly_sleeps (cycle_pattern k) = 1%nat ∧
  retry_waits (cycle_pattern k)
  = (attempts_made (cycle_pattern k) - 1)%nat.
Proof.
  destruct k as [|[|[|k]]]; vm_compute; repeat split; lia.
Qed.

Section CycleProperties.

Context {S : Type}.
Variable clock : S → S * string.
Variable time_sleep : Z → S → S.
Variable func : S → S * result unit.

(** What the doubles record over one cycle. *)
Lemma cycle_spy_pattern (s : S) (obs : list observation) (tr : list event) :
  ∃ k,
    snd (fst (cycle (spy_clock clock) (spy_sleep time_sleep) (spy_func func)
                    ((s, obs), tr)))
    = obs ++ cycle_pattern k.
Proof.
  unfold cycle, spy_clock. cbn [fst snd].
  destruct (clock s) as [s0 ts]. cbn [fst snd].
  rewrite attempts_unfold. unfold spy_func, spy_sleep. cbn [fst snd].
  destruct (func s0) as [s1 [[]|e1]]; simpl.
  { exists 0%nat. rewrite <- !app_assoc. reflexivity. }
  destruct (func (time_sleep 10%Z s1)) as [s2 [[]|e2]]; simpl.
  { exists 1%nat. rewrite <- !app_assoc. reflexivity. }
  destruct (func (time_sleep 10%Z s2)) as [s3 [[]|e3]]; simpl.
  { exists 2%nat. rewrite <- !app_assoc. reflexivity. }
  exists 3%nat. rewrite <- !app_assoc. reflexivity.
Qed.

(** X17. Over any number [n] of cycles the scheduler sleeps its hour
    exactly [n] times, attempts the wrapped function at least [n] and at
    most [3 n] times, and waits 10 seconds once per retry: as many times
    as there were attempts beyond the first of each cycle. *)
Theorem X17_scheduler_over_cycles (n : nat) (s : S)
    (obs : list observation) (tr : list event) :
  ∃ new,
    snd (fst (wrapper (spy_clock clock) (spy_sleep time_sleep)
                      (spy_func func) n ((s, obs), tr)))
    = obs ++ new ∧
    (n ≤ attempts_made new ≤ 3 * n)%nat ∧
    hourly_sleeps new = n ∧
    retry_waits new = (attempts_made new - n)%nat.
Proof.
  revert s obs tr. induction n as [|n IH]; intros s obs tr.
  - exists []. simpl. rewrite app_nil_r. repeat split; lia.
  - cbn [wrapper].
    destruct (cycle_spy_pattern s obs tr) as (k & Hk).
    destruct (cycle (spy_clock clock) (spy_sleep time_sleep) (spy_func func)
                    ((s, obs), tr)) as [[s1 obs1] tr1].
    cbn [fst snd] in Hk. subst obs1.
    destruct (IH s1 (obs ++ cycle_pattern k) tr1) as (new & Hnew & Ha & Hh & Hr).
    exists (cycle_pattern k ++ new).
    rewrite app_assoc. split; [exact Hnew|].
    rewrite attempts_made_app, hourly_sleeps_app, retry_waits_app, Hh, Hr.
    destruct (cycle_pattern_counts k) as (Hk1 & Hk2 & Hk3).
    rewrite Hk2, Hk3. repeat split; lia.
Qed.

End CycleProperties.

Section MainProperties.

Variable E : Env.

Lemma main_func_returns (s : World * list event) :
  snd (main_func E s) = Ret tt.
Proof.
  unfold main_func.
  destruct (never_raises_run (main_body E) (fst s) (never_raises_main_body E))
    as (w' & ev & [] & H).
  rewrite H. reflexivity.
Qed.

(** X18. The decorated [main] never retries.  One pass never raises, so
    in every cycle the first attempt counts as a success, whatever
    failed inside the pass: the log of the cycle is the start line, the
    success line and the hourly sleep, with no wait of 10 seconds and no
    line giving up. *)
Theorem X18_main_never_retries (w : World) (evs tr : list event) :
  let st := cycle (main_clock E) (fun _ s => s) (main_func E)
                  ((w, evs), tr) in
  snd st
  = tr ++ [Log INFO ("========== Agent Scan Started: " +:+ now E (tick w)
                     +:+ " ==========");
           success_line;
           Log INFO "Agent going to sleep for 1 hour";
           Sleep 3600] ∧
  fst (fst st) = world_of (main_body E (bump w)) ∧
  reported_successful
    [Log INFO ("========== Agent Scan Started: " +:+ now E (tick w)
               +:+ " ==========");
     success_line;
     Log INFO "Agent going to sleep for 1 hour";
     Sleep 3600] = true.
Proof.
  unfold cycle, main_clock. cbn [fst snd].
  rewrite attempts_unfold.
  pose proof (main_func_returns (bump w, evs)) as Hret.
  unfold main_func in *. cbn [fst snd] in *.
  destruct (main_body E (bump w)) as [[w1 ev1] r]. cbn [fst snd] in *.
  subst r. simpl. rewrite <- !app_assoc. repeat split.
Qed.

End MainProperties.

Lemma X17_witness :
  ∃ new,
    snd (fst (wrapper (spy_clock Demo.fixed_clock) (spy_sleep Demo.no_sleep)
                      (spy_func Cases.broken) 2 ((0%nat, []), [])))
    = new ∧
    attempts_made new = 6%nat ∧ hourly_sleeps new = 2%nat ∧
    retry_waits new = 4%nat.
Proof.
  destruct (X17_scheduler_over_cycles Demo.fixed_clock Demo.no_sleep
              Cases.broken 2 0%nat [] []) as (new & Hnew & _ & _ & _).
  exists new. split; [exact Hnew|].
  vm_compute in Hnew. subst new. vm_compute. repeat split.
Defined.

Lemma split_from_word (x : string) : ∀ cur rest,
  no_space x = true →
  split_from cur (x +:+ rest) = split_from (cur +:+ x) rest.
Proof.
  induction x as [|c x IH]; intros cur rest Hx.
  - rewrite append_nil_l, append_nil_r. reflexivity.
  - simpl in Hx. apply andb_prop in Hx as [Hc Hx].
    apply negb_true_iff in Hc.
    rewrite append_cons. cbn [split_from]. rewrite Hc.
    rewrite (IH _ _ Hx), append_assoc. reflexivity.
Qed.

Lemma split_join_words (ws : list string) :
  forallb is_word ws = true → split (join " " ws) = ws.
Proof.
  unfold split. induction ws as [|x ws IH]; [reflexivity|].
  intros H. simpl in H. apply andb_prop in H as [Hx Hws].
  unfold is_word in Hx. apply andb_prop in Hx as [Hne Hns].
  destruct ws as [|y ws'].
  - simpl. rewrite <- (append_nil_r x) at 1.
    rewrite (split_from_word x _ _ Hns), append_nil_l. simpl.
    destruct x; [discriminate | reflexivity].
  - change (join " " (x :: y :: ws'))
      with (x +:+ " " +:+ join " " (y :: ws')).
    rewrite (split_from_word x _ _ Hns), append_nil_l.
    change (" " +:+ join " " (y :: ws'))
      with (String " " (join " " (y :: ws'))).
    cbn [split_from]. change (isspace " ") with true. cbv iota.
    destruct x as [|c x']; [discriminate|]. cbn [is_empty]. cbv iota.
    rewrite (IH Hws). reflexivity.
Qed.

(** X19. Normalising a text twice is normalising it once; the
    normalised text has the same words as the text, and a single word is
    left as it is. *)
Theorem X19_normalise_idempotent (s : string) :
  normalise (normalise s) = normalise s ∧
  split (normalise s) = split s ∧
  (no_space s = true → s ≠ EmptyString → normalise s = s).
Proof.
  unfold normalise.
  pose proof (split_from_words s EmptyString eq_refl) as Hw.
  fold (split s) in Hw.
  rewrite (split_join_words _ Hw). split; [reflexivity|].
  split; [reflexivity|].
  intros Hns Hne. unfold split.
  rewrite <- (append_nil_r s) at 1.
  rewrite (split_from_word s _ _ Hns), append_nil_l. simpl.
  destruct s; [congruence | reflexivity].
Qed.

Lemma X19_witness : normalise "resume.pdf" = "resume.pdf".
Proof.
  destruct (X19_normalise_idempotent "resume.pdf") as (_ & _ & H).
  apply H; [reflexivity | discriminate].
Defined.
